(** * Hallucination Hunter: retrieval, verification fusion, drift and scoring

    A shallow embedding of the decision core of the repository
    ([src/layers/retrieval.py], [src/layers/verification.py],
    [src/layers/drift.py], [src/layers/scoring.py]) together with the
    properties its specification states about it.

    Conventions of the embedding:
    - Python [float] values are exact rationals ([Q]); equality of computed
      numbers is [Qeq] ([==]), order is [Qle]/[Qlt].
    - Python [str] values are [string] (sequences of 8-bit characters);
      [str.lower], [str.split], [in] and the one regular expression the code
      uses are written out on them.
    - the pretrained collaborators (NLI classifier, embedding model, FAISS,
      BM25, difflib's [SequenceMatcher]) are not part of the repository's
      sources: they are Section variables, used only through the calls the
      code makes.  One of these calls is partial: the constructor of
      [rank_bm25]'s index divides by the number of documents and by the
      number of distinct words, and raises [ZeroDivisionError] on a corpus
      that has no word.
    - a method that may [raise], itself or through a call it makes, returns a
      [PyResult]; a method that mutates [self] returns the new layer next to
      its result. *)

From Stdlib Require Import QArith Qround Qminmax Lqa Lia ZArith List Bool String Ascii.
From Stdlib Require Import DecimalString Permutation Sorted.
Import ListNotations.

Local Open Scope string_scope.
Local Open Scope Q_scope.

(** ** Python primitives *)

Module Py.

(** [a < b] and [a <= b] on floats, as booleans. *)
Definition Qltb (a b : Q) : bool := negb (Qle_bool b a).
Definition Qleb (a b : Q) : bool := Qle_bool a b.

(** [max(a, b)] keeps its first argument unless the second is greater;
    [min(a, b)] keeps its first argument unless the second is smaller. *)
Definition max (a b : Q) : Q := if Qltb a b then b else a.
Definition min (a b : Q) : Q := if Qltb b a then b else a.

(** [sum(xs)]: left to right from [0]. *)
Definition sum (xs : list Q) : Q := fold_left Qplus xs 0.

(** [max(xs)] of a non-empty sequence, [None] standing for the
    [ValueError] of an empty one. *)
Definition max_list (xs : list Q) : option Q :=
  match xs with
  | [] => None
  | x :: r => Some (fold_left max r x)
  end.

(** [len(a) / len(b)] style true division of two counts. *)
Definition div_nat (a b : nat) : Q := inject_Z (Z.of_nat a) / inject_Z (Z.of_nat b).

Definition is_upper (c : ascii) : bool :=
  let n := nat_of_ascii c in (65 <=? n)%nat && (n <=? 90)%nat.

Definition lower_char (c : ascii) : ascii :=
  if is_upper c then ascii_of_nat (nat_of_ascii c + 32) else c.

(** [s.lower()] *)
Fixpoint lower (s : string) : string :=
  match s with
  | EmptyString => EmptyString
  | String c r => String (lower_char c) (lower r)
  end.

Fixpoint starts_with (p s : string) : bool :=
  match p, s with
  | EmptyString, _ => true
  | String _ _, EmptyString => false
  | String a p', String b s' => Ascii.eqb a b && starts_with p' s'
  end.

(** [a in b] on strings. *)
Fixpoint contains (a b : string) : bool :=
  starts_with a b ||
  match b with
  | EmptyString => false
  | String _ b' => contains a b'
  end.

(** [x in xs] on a list of strings. *)
Definition mem (x : string) (xs : list string) : bool :=
  existsb (String.eqb x) xs.

Definition is_space (c : ascii) : bool :=
  let n := nat_of_ascii c in
  ((9 <=? n)%nat && (n <=? 13)%nat) || ((28 <=? n)%nat && (n <=? 32)%nat).

(** [s.split()]: maximal runs of non-whitespace characters. *)
Fixpoint split_aux (cur : string) (s : string) : list string :=
  match s with
  | EmptyString => match cur with EmptyString => [] | _ => [cur] end
  | String c r =>
      if is_space c
      then match cur with
           | EmptyString => split_aux EmptyString r
           | _ => cur :: split_aux EmptyString r
           end
      else split_aux (cur ++ String c EmptyString) r
  end.

Definition split (s : string) : list string := split_aux EmptyString s.

(** [sep.join(xs)] *)
Fixpoint join (sep : string) (xs : list string) : string :=
  match xs with
  | [] => EmptyString
  | [x] => x
  | x :: r => x ++ sep ++ join sep r
  end.

Fixpoint lstrip (s : string) : string :=
  match s with
  | String c r => if is_space c then lstrip r else s
  | EmptyString => EmptyString
  end.

Fixpoint rstrip (s : string) : string :=
  match s with
  | EmptyString => EmptyString
  | String c r =>
      match rstrip r with
      | EmptyString => if is_space c then EmptyString else String c EmptyString
      | r' => String c r'
      end
  end.

(** [s.strip()] *)
Definition strip (s : string) : string := rstrip (lstrip s).

(** [str(n)] of an integer. *)
Definition str_of_Z (n : Z) : string := NilZero.string_of_int (Z.to_int n).

(** [xs[:n]] and [xs[i:i+n]]. *)
Definition slice_to {A} (n : nat) (xs : list A) : list A := firstn n xs.
Definition slice {A} (i n : nat) (xs : list A) : list A := firstn n (skipn i xs).

(** [xs.sort(key=score, reverse=True)]: Python's sort is stable, and with
    [reverse=True] elements of equal key keep their original order.
    Written as a stable insertion sort: the result list is the same as that
    of any stable sort. *)
Section Sort.
Context {A : Type} (key : A -> Q).

Fixpoint insert_desc (x : A) (l : list A) : list A :=
  match l with
  | [] => [x]
  | y :: r => if Qltb (key x) (key y) then y :: insert_desc x r else x :: l
  end.

Definition sort_desc (l : list A) : list A :=
  fold_right insert_desc [] l.

(** Keys never go up along the list, respectively never go down. *)
Definition Descending (l : list A) : Prop :=
  StronglySorted (fun a b => key b <= key a) l.

Definition Ascending (l : list A) : Prop :=
  StronglySorted (fun a b => key a <= key b) l.
End Sort.

(** A method either returns or raises. *)
Inductive Exception : Type :=
| ValueError (msg : string)
| ZeroDivisionError (msg : string).

Inductive PyResult (A : Type) : Type :=
| Return (a : A)
| Raise (e : Exception).
Arguments Return {A} a.
Arguments Raise {A} e.

(** Sequencing: an exception raised by a call goes through its caller. *)
Definition bind {A B : Type} (m : PyResult A) (f : A -> PyResult B) : PyResult B :=
  match m with
  | Return a => f a
  | Raise e => Raise e
  end.

End Py.

Notation "x <- m ;; f" := (Py.bind m (fun x => f))
  (at level 61, m at next level, right associativity).
Notation "' p <- m ;; f" := (Py.bind m (fun p => f))
  (at level 61, p pattern, m at next level, right associativity).

(** ** The regular expression of [_check_numerical_consistency]

    [re.findall(r'\b\d+\.?\d*\b', text)], with the backtracking order of
    Python's matcher written out: [\d+] greedy, then [\.?] greedy, then [\d*]
    greedy, each giving back one character at a time until the closing [\b]
    holds.  Characters beyond ASCII are neither digits nor word characters
    here. *)

Module Re.

Definition is_digit (c : ascii) : bool :=
  let n := nat_of_ascii c in (48 <=? n)%nat && (n <=? 57)%nat.

Definition is_word (c : ascii) : bool :=
  let n := nat_of_ascii c in
  is_digit c || ((65 <=? n)%nat && (n <=? 90)%nat)
  || ((97 <=? n)%nat && (n <=? 122)%nat) || (n =? 95)%nat.

Definition is_word_opt (c : option ascii) : bool :=
  match c with Some a => is_word a | None => false end.

(** [\b] between two neighbouring positions ([None] is a string end). *)
Definition word_boundary (before after : option ascii) : bool :=
  xorb (is_word_opt before) (is_word_opt after).

(** Length of the maximal run of digits at the head. *)
Fixpoint span_digits (s : list ascii) : nat :=
  match s with
  | c :: r => if is_digit c then S (span_digits r) else O
  | [] => O
  end.

(** [\d*\b] at [r], the character before [r] being [p]: the longest of the
    first [n] digits after which a word boundary stands. *)
Fixpoint digits_star_b (p : ascii) (r : list ascii) (n : nat) : option nat :=
  let last := match n with O => p | S k => nth k r p end in
  if word_boundary (Some last) (nth_error r n) then Some n
  else match n with
       | O => None
       | S k => digits_star_b p r k
       end.

(** [\.?\d*\b] after [n1] digits of [s] have been taken by [\d+]. *)
Definition dot_digits_b (s : list ascii) (n1 : nat) : option nat :=
  let r1 := skipn n1 s in
  let last := nth (pred n1) s "0"%char in
  let without_dot :=
    match digits_star_b last r1 (span_digits r1) with
    | Some n2 => Some (n1 + n2)%nat
    | None => None
    end in
  match r1 with
  | "."%char :: r2 =>
      match digits_star_b "."%char r2 (span_digits r2) with
      | Some n2 => Some (n1 + 1 + n2)%nat
      | None => without_dot
      end
  | _ => without_dot
  end.

(** [\d+\.?\d*\b] with [\d+] trying [n1], [n1 - 1], ..., [1] digits. *)
Fixpoint digits_plus (s : list ascii) (n1 : nat) : option nat :=
  match n1 with
  | O => None
  | S k =>
      match dot_digits_b s n1 with
      | Some len => Some len
      | None => digits_plus s k
      end
  end.

(** Length of the match starting at the head of [s], [prev] being the
    character before it. *)
Definition match_at (prev : option ascii) (s : list ascii) : option nat :=
  if word_boundary prev (hd_error s) then digits_plus s (span_digits s) else None.

(** Leftmost non-overlapping matches; [skip] counts the characters of the
    current match still to be passed over. *)
Fixpoint findall_aux (prev : option ascii) (s : list ascii) (skip : nat)
  : list (list ascii) :=
  match s with
  | [] => []
  | c :: r =>
      match skip with
      | S k => findall_aux (Some c) r k
      | O =>
          match match_at prev s with
          | Some (S len) => firstn (S len) s :: findall_aux (Some c) r len
          | _ => findall_aux (Some c) r O
          end
      end
  end.

Definition findall_numbers (text : string) : list string :=
  map string_of_list_ascii (findall_aux None (list_ascii_of_string text) O).

End Re.

(** ** [src/config/constants.py] *)

Module Constants.

Inductive ClaimCategory : Type := SUPPORTED | CONTRADICTED | UNVERIFIABLE.

Definition ClaimCategory_eqb (a b : ClaimCategory) : bool :=
  match a, b with
  | SUPPORTED, SUPPORTED | CONTRADICTED, CONTRADICTED
  | UNVERIFIABLE, UNVERIFIABLE => true
  | _, _ => false
  end.

Inductive Domain : Type := HEALTHCARE | LAW | FINANCE | GENERAL.

(** [DOMAIN_CONFIGS[domain]["severity_multiplier"]] *)
Definition severity_multiplier (d : Domain) : Q :=
  match d with
  | HEALTHCARE => 2
  | LAW => 18 # 10
  | FINANCE => 19 # 10
  | GENERAL => 1
  end.

Inductive ConfidenceLevel : Type := CERTAIN | LIKELY | UNCERTAIN.

(** [ConfidenceLevel.from_score] *)
Definition from_score (score : Q) : ConfidenceLevel :=
  if Py.Qleb (85 # 100) score then CERTAIN
  else if Py.Qleb (6 # 10) score then LIKELY
  else UNCERTAIN.

(** [TrustZone]: [(min, max, label, colour)]. *)
Definition TrustZone : Type := (Z * Z * string * string)%type.
Definition TrustZone_HIGH : TrustZone := (80%Z, 100%Z, "Good", "#10b981").
Definition TrustZone_MEDIUM : TrustZone := (50%Z, 80%Z, "Review Needed", "#f59e0b").
Definition TrustZone_LOW : TrustZone := (0%Z, 50%Z, "Unreliable", "#ef4444").

Definition get_zone (score : Q) : TrustZone :=
  if Py.Qleb 80 score then TrustZone_HIGH
  else if Py.Qleb 50 score then TrustZone_MEDIUM
  else TrustZone_LOW.

Definition DEFAULT_TOP_K : nat := 7.
Definition DEFAULT_SIMILARITY_THRESHOLD : Q := 5 # 10.
Definition DEFAULT_HYBRID_WEIGHT_VECTOR : Q := 6 # 10.
Definition DEFAULT_HYBRID_WEIGHT_KEYWORD : Q := 4 # 10.
Definition DEFAULT_ENTITY_MATCH_THRESHOLD : Q := 9 # 10.
Definition DEFAULT_DRIFT_VARIANCE_THRESHOLD : Q := 2 # 10.
Definition DEFAULT_DRIFT_CONFIDENCE_PENALTY : Q := 1 # 10.
Definition DEFAULT_WEIGHT_SUPPORTED_RATIO : Q := 4 # 10.
Definition DEFAULT_WEIGHT_AVG_CONFIDENCE : Q := 3 # 10.
Definition DEFAULT_WEIGHT_DRIFT_SCORE : Q := 2 # 10.
Definition DEFAULT_WEIGHT_SEVERITY : Q := 1 # 10.

End Constants.

(** ** [src/layers/ingestion.py]: the chunk record *)

Module Ingestion.

(** [IndexedChunk]; a [metadata] value is an integer or [None]. *)
Record IndexedChunk : Type := mkIndexedChunk {
  chunk_id : string;
  content : string;
  embedding : list Q;
  document_id : string;
  document_name : string;
  chunk_index : Z;
  start_char : Z;
  end_char : Z;
  page_number : option Z;
  metadata : list (string * option Z)
}.

(** [d.get(key)] on the metadata dictionary. *)
Fixpoint dict_get {V} (d : list (string * V)) (key : string) : option V :=
  match d with
  | [] => None
  | (k, v) :: r => if String.eqb k key then Some v else dict_get r key
  end.

End Ingestion.

(** ** [src/layers/claim_intelligence.py]: claims and entities *)

Module ClaimIntelligence.

Inductive ClaimType : Type :=
  FACTUAL | NUMERICAL | ENTITY | TEMPORAL | CAUSAL | COMPARATIVE.

Record Entity : Type := mkEntity {
  text : string;
  label : string;
  start : Z;
  end_ : Z;
  severity_weight : Q
}.

Local Unset Elimination Schemes.
Inductive Claim : Type := mkClaim {
  claim_id : string;
  claim_text : string;
  source_sentence : string;
  source_start : Z;
  source_end : Z;
  claim_type : ClaimType;
  entities : list Entity;
  is_atomic : bool;
  sub_claims : list Claim;
  claim_metadata : list (string * string)
}.
Local Set Elimination Schemes.

(** The [max_severity_weight] property. *)
Definition max_severity_weight (c : Claim) : Q :=
  match Py.max_list (map severity_weight (entities c)) with
  | None => 1
  | Some m => m
  end.

End ClaimIntelligence.

(** ** [src/layers/retrieval.py] *)

Module Retrieval.
Import Ingestion ClaimIntelligence.

(** [EvidenceResult] *)
Record EvidenceResult : Type := mkEvidenceResult {
  er_claim_id : string;
  er_claim_text : string;
  evidence_chunks : list IndexedChunk;
  scores : list Q;
  retrieval_method : string;
  top_evidence : option string;
  citation : option string
}.

(** [EvidenceResult.get_combined_evidence] *)
Definition get_combined_evidence (self : EvidenceResult) (max_chunks : nat) : string :=
  let top_chunks := Py.slice_to max_chunks (evidence_chunks self) in
  Py.join (String "010" (String "010" EmptyString)) (map content top_chunks).

(** Truth value of an optional integer: [None] and [0] are false. *)
Definition truthy_Z (v : option Z) : bool :=
  match v with
  | Some n => negb (n =? 0)%Z
  | None => false
  end.

(** [str(v)] of an optional integer. *)
Definition str_of_opt_Z (v : option Z) : string :=
  match v with
  | Some n => Py.str_of_Z n
  | None => "None"
  end.

(** [EvidenceResult.get_citation_string] *)
Definition get_citation_string (self : EvidenceResult) : string :=
  match evidence_chunks self with
  | [] => "No evidence found"
  | chunk :: _ =>
      let parts := [document_name chunk] in
      let parts :=
        if truthy_Z (page_number chunk)
        then app parts ["Page " ++ str_of_opt_Z (page_number chunk)]
        else parts in
      let parts :=
        match dict_get (metadata chunk) "line_start" with
        | Some ls =>
            if truthy_Z ls
            then app parts ["Lines " ++ str_of_opt_Z ls ++ "-" ++
                            match dict_get (metadata chunk) "line_end" with
                            | Some le => str_of_opt_Z le
                            | None => "?"
                            end]
            else parts
        | None => parts
        end in
      Py.join ", " parts
  end.

(** One value of the [combined] dictionary of [hybrid_search]. *)
Record Combined : Type := mkCombined {
  cb_chunk : IndexedChunk;
  vector_score : Q;
  keyword_score : Q
}.

(** [d[key] = v] on an insertion-ordered dictionary: an existing key keeps
    its place, a new key goes last. *)
Fixpoint dict_set {V} (d : list (string * V)) (key : string) (v : V)
  : list (string * V) :=
  match d with
  | [] => [(key, v)]
  | (k, w) :: r =>
      if String.eqb k key then (k, v) :: r else (k, w) :: dict_set r key v
  end.

(** [score / max_score if max_score > 0 else 0] *)
Definition normalize (score max_score : Q) : Q :=
  if Py.Qltb 0 max_score then score / max_score else 0.

(** [max(r[1] for r in results)], under the guard [if results]. *)
Definition max_score (results : list (IndexedChunk * Q)) : Q :=
  match Py.max_list (map snd results) with
  | Some m => m
  | None => 1
  end.

(** One turn of the loop over [vector_results] of [hybrid_search]. *)
Definition vstep (max_vec_score : Q) (combined : list (string * Combined))
  (r : IndexedChunk * Q) : list (string * Combined) :=
  let '(chunk, score) := r in
  let normalized := normalize score max_vec_score in
  dict_set combined (chunk_id chunk) (mkCombined chunk normalized 0).

(** One turn of the loop over [keyword_results] of [hybrid_search]. *)
Definition kstep (max_kw_score : Q) (combined : list (string * Combined))
  (r : IndexedChunk * Q) : list (string * Combined) :=
  let '(chunk, score) := r in
  let normalized := normalize score max_kw_score in
  match dict_get combined (chunk_id chunk) with
  | Some data =>
      dict_set combined (chunk_id chunk)
        (mkCombined (cb_chunk data) (vector_score data) normalized)
  | None => dict_set combined (chunk_id chunk) (mkCombined chunk 0 normalized)
  end.

(** The loop over [vector_results] of [hybrid_search]. *)
Definition process_vector (vector_results : list (IndexedChunk * Q))
  (combined : list (string * Combined)) : list (string * Combined) :=
  let max_vec_score := max_score vector_results in
  fold_left (vstep max_vec_score) vector_results combined.

(** The loop over [keyword_results] of [hybrid_search]. *)
Definition process_keyword (keyword_results : list (IndexedChunk * Q))
  (combined : list (string * Combined)) : list (string * Combined) :=
  let max_kw_score := max_score keyword_results in
  fold_left (kstep max_kw_score) keyword_results combined.

(** The body of [hybrid_search] between the two searches and the final
    sort: the list [results] of [(chunk, final_score)] in insertion order. *)
Definition fuse (vector_weight keyword_weight : Q)
  (vector_results keyword_results : list (IndexedChunk * Q))
  : list (IndexedChunk * Q) :=
  let combined := process_vector vector_results [] in
  let combined := process_keyword keyword_results combined in
  map (fun '(_, data) =>
         (cb_chunk data,
          vector_weight * vector_score data + keyword_weight * keyword_score data))
      combined.

(** The fused score [results] holds for the chunk of a given id. *)
Definition fused_score (cid : string) (results : list (IndexedChunk * Q)) : option Q :=
  match find (fun r => String.eqb (chunk_id (fst r)) cid) results with
  | Some r => Some (snd r)
  | None => None
  end.

(** Two views of the [combined] dictionary used to reason about [fuse]:
    every entry sits under the id of its own chunk; and the keyword score
    the keyword loop leaves under key [k], starting from [ks0]. *)
Definition keys_ok (d : list (string * Combined)) : Prop :=
  Forall (fun kv => chunk_id (cb_chunk (snd kv)) = fst kv) d.

Definition kw_of (M : Q) (k : string) (l : list (IndexedChunk * Q)) (ks0 : Q) : Q :=
  fold_left
    (fun acc r => if String.eqb (chunk_id (fst r)) k then normalize (snd r) M else acc)
    l ks0.

(** [np.argsort(scores)[::-1]], paired with the chunks: ascending order,
    reversed.  (The order numpy gives to equal scores is not specified; a
    stable ascending sort is taken here.) *)
Fixpoint insert_asc {A} (key : A -> Q) (x : A) (l : list A) : list A :=
  match l with
  | [] => [x]
  | y :: r => if Py.Qltb (key y) (key x) then y :: insert_asc key x r else x :: l
  end.

Definition argsort_rev {A} (key : A -> Q) (l : list A) : list A :=
  rev (fold_right (insert_asc key) [] l).

(** [x or default] for an optional count. *)
Definition or_nat (x : option nat) (default : nat) : nat :=
  match x with
  | Some (S n) => S n
  | _ => default
  end.

Section Layer.

(** The collaborators: the embedding model, FAISS and [rank_bm25]. *)
Variable Emb : Type.
Variable BM25 : Type.
Variable BM25Okapi : list (list string) -> BM25.
(** [get_scores]: one score per indexed document, in corpus order. *)
Variable get_scores : BM25 -> list string -> list Q.

(** [DocumentIndex] (without its dictionary of parsed documents);
    [faiss_index q k] is [zip(indices[0], scores[0])] of
    [faiss_index.search(q, k)]. *)
Record DocumentIndex : Type := mkDocumentIndex {
  index_id : string;
  chunks : list IndexedChunk;
  faiss_index : Emb -> nat -> list (Z * Q);
  embedding_dimension : nat;
  total_chunks : nat;
  total_documents : nat
}.

(** [DocumentIndex.search] *)
Definition search (self : DocumentIndex) (query_embedding : Emb) (top_k : nat)
  : list (IndexedChunk * Q) :=
  flat_map
    (fun '(idx, score) =>
       if ((idx <? Z.of_nat (List.length (chunks self))) && (0 <=? idx))%Z
       then match nth_error (chunks self) (Z.to_nat idx) with
            | Some chunk => [(chunk, score)]
            | None => []
            end
       else [])
    (faiss_index self query_embedding top_k).

Record RetrievalLayer : Type := mkRetrievalLayer {
  embedding_model : string -> Emb;
  top_k : nat;
  similarity_threshold : Q;
  vector_weight : Q;
  keyword_weight : Q;
  _bm25_index : option BM25;
  _bm25_chunks : option (list IndexedChunk)
}.

(** [BM25Okapi(tokenized)].  The constructor of [rank_bm25] divides the
    number of words by the number of documents (the average document
    length), then the sum of the idf values by the number of distinct words
    (the average idf).  Without a document the first division raises
    [ZeroDivisionError], with documents that hold no word at all the second
    does.  The variable [BM25Okapi] is the index it builds from a corpus that
    has a word. *)
Definition new_BM25Okapi (tokenized : list (list string)) : Py.PyResult BM25 :=
  match List.concat tokenized with
  | [] => Py.Raise (Py.ZeroDivisionError "division by zero")
  | _ :: _ => Py.Return (BM25Okapi tokenized)
  end.

(** [[chunk.content.lower().split() for chunk in chunks]] *)
Definition tokenize (chunks : list IndexedChunk) : list (list string) :=
  map (fun chunk => Py.split (Py.lower (content chunk))) chunks.

(** [build_bm25_index]; when the constructor raises, neither field has been
    assigned. *)
Definition build_bm25_index (self : RetrievalLayer) (chunks : list IndexedChunk)
  : Py.PyResult RetrievalLayer :=
  let tokenized := tokenize chunks in
  index <- new_BM25Okapi tokenized ;;
  Py.Return
    (mkRetrievalLayer (embedding_model self) (top_k self) (similarity_threshold self)
       (vector_weight self) (keyword_weight self) (Some index) (Some chunks)).

(** [if not self._bm25_index: self.build_bm25_index(doc_index.chunks)] *)
Definition ensure_bm25_index (self : RetrievalLayer) (doc_index : DocumentIndex)
  : Py.PyResult RetrievalLayer :=
  match _bm25_index self with
  | None => build_bm25_index self (chunks doc_index)
  | Some _ => Py.Return self
  end.

(** [vector_search] *)
Definition vector_search (self : RetrievalLayer) (query : string)
  (doc_index : DocumentIndex) (top_k_arg : option nat) : list (IndexedChunk * Q) :=
  let k := or_nat top_k_arg (top_k self) in
  let query_embedding := embedding_model self query in
  search doc_index query_embedding k.

(** [keyword_search] *)
Definition keyword_search (self : RetrievalLayer) (query : string)
  (chunks_arg : option (list IndexedChunk)) (top_k_arg : option nat)
  : Py.PyResult (list (IndexedChunk * Q) * RetrievalLayer) :=
  let k := or_nat top_k_arg (top_k self) in
  self <- match chunks_arg with
          | Some (c :: r) => build_bm25_index self (c :: r)
          | _ => Py.Return self
          end ;;
  match _bm25_index self, _bm25_chunks self with
  | Some index, Some (c :: r) =>
      let query_tokens := Py.split (Py.lower query) in
      let scores := get_scores index query_tokens in
      let top := Py.slice_to k (argsort_rev snd (combine (c :: r) scores)) in
      Py.Return (filter (fun r => Py.Qltb 0 (snd r)) top, self)
  | _, _ => Py.Return ([], self)
  end.

(** [hybrid_search] *)
Definition hybrid_search (self : RetrievalLayer) (query : string)
  (doc_index : DocumentIndex) (top_k_arg : option nat)
  : Py.PyResult (list (IndexedChunk * Q) * RetrievalLayer) :=
  let k := or_nat top_k_arg (top_k self) in
  self <- ensure_bm25_index self doc_index ;;
  let vector_results := vector_search self query doc_index (Some (k * 2)%nat) in
  '(keyword_results, self) <- keyword_search self query None (Some (k * 2)%nat) ;;
  let results :=
    fuse (vector_weight self) (keyword_weight self) vector_results keyword_results in
  Py.Return (Py.slice_to k (Py.sort_desc snd results), self).

(** The search step of [retrieve_evidence]. *)
Definition run_search (self : RetrievalLayer) (query : string)
  (doc_index : DocumentIndex) (method : string)
  : Py.PyResult (list (IndexedChunk * Q) * RetrievalLayer) :=
  if String.eqb method "vector" then
    Py.Return (vector_search self query doc_index None, self)
  else if String.eqb method "keyword" then
    self <- ensure_bm25_index self doc_index ;;
    keyword_search self query None None
  else hybrid_search self query doc_index None.

(** Chunks that hold no word: none at all, or all of them empty or blank. *)
Definition wordless (chunks : list IndexedChunk) : bool :=
  match List.concat (tokenize chunks) with
  | [] => true
  | _ :: _ => false
  end.

(** Whether a search of this method has to build the keyword index, and has
    to build it from chunks that hold no word: no index is cached yet, the
    method is not "vector", and [doc_index.chunks] is wordless. *)
Definition builds_wordless_index (self : RetrievalLayer) (doc_index : DocumentIndex)
  (method : string) : bool :=
  negb (String.eqb method "vector")
  && match _bm25_index self with None => true | Some _ => false end
  && wordless (chunks doc_index).

(** The part of [retrieve_evidence] after the search: threshold filter,
    top-1 fallback, result record and citation. *)
Definition evidence_of_results (self : RetrievalLayer) (claim : Claim)
  (method : string) (results : list (IndexedChunk * Q)) : EvidenceResult :=
  let filtered_results :=
    filter (fun r => Py.Qleb (similarity_threshold self) (snd r)) results in
  let filtered_results :=
    match filtered_results with
    | [] => match results with [] => [] | _ => Py.slice_to 1 results end
    | _ => filtered_results
    end in
  let chunks := map fst filtered_results in
  let scores := map snd filtered_results in
  let evidence_result :=
    mkEvidenceResult (claim_id claim) (claim_text claim) chunks scores method
      (match chunks with c :: _ => Some (content c) | [] => None end) None in
  match chunks with
  | _ :: _ =>
      mkEvidenceResult (claim_id claim) (claim_text claim) chunks scores method
        (top_evidence evidence_result) (Some (get_citation_string evidence_result))
  | [] => evidence_result
  end.

(** [retrieve_evidence] *)
Definition retrieve_evidence (self : RetrievalLayer) (claim : Claim)
  (doc_index : DocumentIndex) (method : string)
  : Py.PyResult (EvidenceResult * RetrievalLayer) :=
  '(results, self) <- run_search self (claim_text claim) doc_index method ;;
  Py.Return (evidence_of_results self claim method results, self).

End Layer.

(** [set(e.text.lower() for e in claim.entities)] *)
Definition claim_entity_set (claim : Claim) : list string :=
  nodup string_dec (map (fun e => Py.lower (text e)) (entities claim)).

(** The new score [rerank_by_entity_match] gives a chunk. *)
Definition rerank_score (claim_entities : list string) (chunk : IndexedChunk)
  (base_score : Q) : Q :=
  let chunk_text := Py.lower (content chunk) in
  let entity_matches :=
    List.length (filter (fun e => Py.contains e chunk_text) claim_entities) in
  let entity_bonus := inject_Z (Z.of_nat entity_matches) * (1 # 10) in
  Py.min (base_score + entity_bonus) 1.

(** [rerank_by_entity_match] *)
Definition rerank_by_entity_match (claim : Claim) (evidence_result : EvidenceResult)
  : EvidenceResult :=
  match entities claim, evidence_chunks evidence_result with
  | [], _ | _, [] => evidence_result
  | _, _ =>
      let claim_entities := claim_entity_set claim in
      let reranked :=
        map (fun '(chunk, base_score) =>
               (chunk, rerank_score claim_entities chunk base_score))
            (combine (evidence_chunks evidence_result) (scores evidence_result)) in
      let reranked := Py.sort_desc snd reranked in
      mkEvidenceResult
        (er_claim_id evidence_result)
        (er_claim_text evidence_result)
        (map fst reranked)
        (map snd reranked)
        (retrieval_method evidence_result ++ "+entity_rerank")
        (match reranked with r :: _ => Some (content (fst r)) | [] => None end)
        (match reranked with
         | _ :: _ => Some (get_citation_string evidence_result)
         | [] => None
         end)
  end.

End Retrieval.

(** ** [src/layers/verification.py] *)

Module Verification.
Import Constants Ingestion ClaimIntelligence Retrieval.

(** [NLIResult], the record the NLI classifier returns, with the fields
    [_create_unverifiable_result] gives it. *)
Record NLIResult : Type := mkNLIResult {
  nli_category : ClaimCategory;
  nli_confidence : Q;
  nli_confidence_level : ConfidenceLevel;
  entailment_score : Q;
  contradiction_score : Q;
  neutral_score : Q;
  raw_scores : list (string * Q)
}.

Record EntityMatch : Type := mkEntityMatch {
  claim_entity : Entity;
  evidence_match : option string;
  similarity : Q;
  is_match : bool;
  is_contradiction : bool;
  details : string
}.

Record VerificationResult : Type := mkVerificationResult {
  vr_claim_id : string;
  vr_claim_text : string;
  category : ClaimCategory;
  confidence : Q;
  confidence_level : ConfidenceLevel;
  nli_result : NLIResult;
  entity_matches : list EntityMatch;
  evidence_used : string;
  vr_citation : string;
  explanation : string;
  entity_consistency_score : Q;
  numerical_accuracy_score : Q;
  temporal_consistency_score : Q
}.

(** One call of [classify_with_multiple_evidences]: claim text, evidence
    texts, aggregation. *)
Definition NLICall : Type := (string * list string * string)%type.

(** The NLI classifier, through the one method the layer calls. *)
Definition NLIModel : Type := string -> list string -> string -> NLIResult.

Record VerificationLayer : Type := mkVerificationLayer {
  nli_model : NLIModel;
  domain : Domain;
  entity_match_threshold : Q
}.

Section Layer.

(** [SequenceMatcher(None, a, b).ratio()] of [difflib], and the [:.2f]
    format of a float. *)
Variable SequenceMatcher_ratio : string -> string -> Q.
Variable format_2f : Q -> string.

(** [_find_similar_entity] *)
Definition _find_similar_entity (entity text : string) : string * Q :=
  let words := Py.split text in
  fold_left
    (fun best n =>
       fold_left
         (fun '(best_match, best_score) i =>
            let candidate := Py.join " " (Py.slice i n words) in
            let score := SequenceMatcher_ratio (Py.lower entity) (Py.lower candidate) in
            if Py.Qltb best_score score then (candidate, score)
            else (best_match, best_score))
         (seq 0 (List.length words - n + 1)) best)
    (seq 1 (Nat.min 4 (List.length words + 1) - 1))
    ("", 0).

(** The [EntityMatch] the loop of [_check_entity_consistency] appends for
    one entity. *)
Definition match_entity (self : VerificationLayer) (evidence : string)
  (entity : Entity) : EntityMatch :=
  let evidence_lower := Py.lower evidence in
  let entity_lower := Py.lower (text entity) in
  if Py.contains entity_lower evidence_lower then
    mkEntityMatch entity (Some (text entity)) 1 true false
      "Exact match found in evidence"
  else
    let '(best_match, best_score) := _find_similar_entity (text entity) evidence in
    if Py.Qleb (entity_match_threshold self) best_score then
      mkEntityMatch entity (Some best_match) best_score true false
        ("Similar match: '" ++ best_match ++ "' (similarity: "
           ++ format_2f best_score ++ ")")
    else if Py.Qleb (5 # 10) best_score then
      mkEntityMatch entity (Some best_match) best_score false true
        ("Possible entity mismatch: claim has '" ++ text entity
           ++ "', evidence has '" ++ best_match ++ "'")
    else
      mkEntityMatch entity None 0 false false
        ("Entity '" ++ text entity ++ "' not found in evidence").

(** [_check_entity_consistency] *)
Definition _check_entity_consistency (self : VerificationLayer) (claim : Claim)
  (evidence : string) : list EntityMatch :=
  map (match_entity self evidence) (entities claim).

(** [_check_numerical_consistency] *)
Definition _check_numerical_consistency (claim : Claim) (evidence : string) : Q :=
  let claim_numbers := Re.findall_numbers (claim_text claim) in
  let evidence_numbers := Re.findall_numbers evidence in
  match claim_numbers with
  | [] => 1
  | _ =>
      let matches :=
        List.length (filter (fun num => Py.mem num evidence_numbers) claim_numbers) in
      Py.div_nat matches (List.length claim_numbers)
  end.

(** [_calculate_entity_score] *)
Definition _calculate_entity_score (matches : list EntityMatch) : Q :=
  match matches with
  | [] => 1
  | _ =>
      let total_weight :=
        Py.sum (map (fun m => severity_weight (claim_entity m)) matches) in
      let weighted_score :=
        Py.sum (map (fun m => similarity m * severity_weight (claim_entity m))
                    (filter is_match matches)) in
      if Py.Qltb 0 total_weight then weighted_score / total_weight else 1
  end.

(** [_fuse_signals] *)
Definition _fuse_signals (nli_result : NLIResult) (entity_score numerical_score : Q)
  (entity_matches : list EntityMatch) : ClaimCategory * Q :=
  let has_entity_contradiction := existsb is_contradiction entity_matches in
  if Py.Qltb (8 # 10) (entailment_score nli_result)
     && Py.Qltb (9 # 10) entity_score
     && Py.Qltb (8 # 10) numerical_score
     && negb has_entity_contradiction
  then (SUPPORTED, Py.min (entailment_score nli_result) entity_score)
  else if Py.Qltb (7 # 10) (contradiction_score nli_result)
  then (CONTRADICTED, contradiction_score nli_result)
  else if has_entity_contradiction && Py.Qltb entity_score (7 # 10)
  then (CONTRADICTED, Py.max (contradiction_score nli_result) (1 - entity_score))
  else if Py.Qltb numerical_score (5 # 10)
  then (CONTRADICTED, 7 # 10)
  else if Py.Qltb (6 # 10) (entailment_score nli_result)
          && Py.Qltb (7 # 10) entity_score
          && negb has_entity_contradiction
  then (SUPPORTED, entailment_score nli_result * entity_score)
  else (UNVERIFIABLE, Py.max (neutral_score nli_result) (5 # 10)).

(** [_generate_explanation] *)
Definition _generate_explanation (claim : Claim) (category : ClaimCategory)
  (nli_result : NLIResult) (entity_matches : list EntityMatch) (evidence : string)
  : string :=
  let explanation :=
    match category with
    | SUPPORTED =>
        let explanation := "The claim is supported by the evidence. " in
        let explanation :=
          if Py.Qltb (9 # 10) (entailment_score nli_result)
          then explanation ++ "Strong semantic alignment detected. "
          else explanation in
        match filter is_match entity_matches with
        | [] => explanation
        | matched_entities =>
            let entities :=
              map (fun m => text (claim_entity m)) (Py.slice_to 3 matched_entities) in
            explanation ++ "Key entities verified: " ++ Py.join ", " entities ++ "."
        end
    | CONTRADICTED =>
        let explanation := "The claim contradicts the evidence. " in
        let explanation :=
          if Py.Qltb (7 # 10) (contradiction_score nli_result)
          then explanation ++ "Semantic contradiction detected. "
          else explanation in
        let contradictions := filter is_contradiction entity_matches in
        fold_left
          (fun explanation m =>
             explanation ++ "Entity mismatch: claim says '" ++ text (claim_entity m)
               ++ "' but evidence has '"
               ++ match evidence_match m with Some e => e | None => "None" end
               ++ "'. ")
          (Py.slice_to 2 contradictions) explanation
    | UNVERIFIABLE =>
        let explanation :=
          "The claim cannot be fully verified from the available evidence. " in
        match filter (fun m => negb (is_match m) && negb (is_contradiction m))
                     entity_matches with
        | [] => explanation
        | unmatched =>
            let entities :=
              map (fun m => text (claim_entity m)) (Py.slice_to 3 unmatched) in
            explanation ++ "Missing information for: " ++ Py.join ", " entities ++ "."
        end
    end in
  Py.strip explanation.

(** [_create_unverifiable_result] *)
Definition _create_unverifiable_result (claim : Claim) (evidence : EvidenceResult)
  (reason : string) : VerificationResult :=
  mkVerificationResult
    (claim_id claim)
    (claim_text claim)
    UNVERIFIABLE
    (5 # 10)
    UNCERTAIN
    (mkNLIResult UNVERIFIABLE (5 # 10) UNCERTAIN 0 0 1 [])
    []
    ""
    "No citation available"
    reason
    0
    0
    1.

(** [verify_claim]; the second component lists the calls made to the NLI
    classifier, in order.  ([temporal_consistency_score] is never passed and
    keeps its default 1.0.) *)
Definition verify_claim (self : VerificationLayer) (claim : Claim)
  (evidence : EvidenceResult) : VerificationResult * list NLICall :=
  let evidence_text := get_combined_evidence evidence 3 in
  match evidence_text with
  | EmptyString =>
      (_create_unverifiable_result claim evidence "No evidence found", [])
  | _ =>
      let nli_args :=
        (claim_text claim,
         map content (Py.slice_to 3 (evidence_chunks evidence)), "max") in
      let nli_result :=
        nli_model self (fst (fst nli_args)) (snd (fst nli_args)) (snd nli_args) in
      let entity_matches := _check_entity_consistency self claim evidence_text in
      let entity_score := _calculate_entity_score entity_matches in
      let numerical_score := _check_numerical_consistency claim evidence_text in
      let '(final_category, final_confidence) :=
        _fuse_signals nli_result entity_score numerical_score entity_matches in
      let explanation :=
        _generate_explanation claim final_category nli_result entity_matches
          evidence_text in
      (mkVerificationResult
         (claim_id claim)
         (claim_text claim)
         final_category
         final_confidence
         (from_score final_confidence)
         nli_result
         entity_matches
         evidence_text
         (match citation evidence with
          | Some (String c r) => String c r
          | _ => "No citation available"
          end)
         explanation
         entity_score
         numerical_score
         1,
       [nli_args])
  end.

(** The loop of [verify_claims_batch] over [zip(claims, evidences)]. *)
Fixpoint verify_each (self : VerificationLayer)
  (pairs : list (Claim * EvidenceResult)) : list VerificationResult * list NLICall :=
  match pairs with
  | [] => ([], [])
  | (claim, evidence) :: rest =>
      let '(result, calls) := verify_claim self claim evidence in
      let '(results, calls') := verify_each self rest in
      (result :: results, app calls calls')
  end.

(** [verify_claims_batch] *)
Definition verify_claims_batch (self : VerificationLayer) (claims : list Claim)
  (evidences : list EvidenceResult)
  : Py.PyResult (list VerificationResult) * list NLICall :=
  if negb (List.length claims =? List.length evidences)%nat
  then (Py.Raise (Py.ValueError "Claims and evidences must have same length"), [])
  else
    let '(results, calls) := verify_each self (combine claims evidences) in
    (Py.Return results, calls).

End Layer.

End Verification.

(** ** [src/layers/drift.py] *)

Module Drift.
Import Constants Verification.

(** [ClaimDrift] and [DriftReport] of the drift detector, with the fields
    the layer reads. *)
Record ClaimDrift : Type := mkClaimDrift {
  claim : string;
  drift_score : Q;
  is_stable : bool
}.

Record DriftReport : Type := mkDriftReport {
  claim_drifts : list ClaimDrift;
  stable_claims : nat;
  total_claims : nat
}.

Record DriftAdjustedResult : Type := mkDriftAdjustedResult {
  original_result : VerificationResult;
  drift_analysis : option ClaimDrift;
  adjusted_confidence : Q;
  drift_penalty : Q;
  dar_is_stable : bool;
  stability_note : string
}.

Record DriftMitigationLayer : Type := mkDriftMitigationLayer {
  variance_threshold : Q;
  confidence_penalty : Q;
  _drift_report : option DriftReport
}.

Section Layer.

(** [EmbeddingModel().similarity] and the [:.2f] format of a float. *)
Variable similarity : string -> string -> Q.
Variable format_2f : Q -> string.

(** [_find_claim_drift] *)
Definition _find_claim_drift (claim_text : string) (report : option DriftReport)
  : option ClaimDrift :=
  match report with
  | None => None
  | Some report =>
      match find (fun drift => String.eqb (claim drift) claim_text)
                 (claim_drifts report) with
      | Some drift => Some drift
      | None =>
          find (fun drift => Py.Qltb (9 # 10) (similarity claim_text (claim drift)))
               (claim_drifts report)
      end
  end.

(** [_calculate_penalty] *)
Definition _calculate_penalty (self : DriftMitigationLayer) (drift_score : Q) : Q :=
  if Py.Qleb drift_score (variance_threshold self) then 0
  else
    let excess_drift := drift_score - variance_threshold self in
    Py.min (excess_drift * confidence_penalty self * 5) (5 # 10).

(** The body of the loop of [adjust_verification_results]. *)
Definition adjust_one (self : DriftMitigationLayer) (report : option DriftReport)
  (result : VerificationResult) : DriftAdjustedResult :=
  let claim_drift := _find_claim_drift (vr_claim_text result) report in
  match claim_drift with
  | Some cd =>
      if negb (is_stable cd) then
        let penalty := _calculate_penalty self (drift_score cd) in
        mkDriftAdjustedResult result claim_drift
          (confidence result * (1 - penalty)) penalty false
          ("Claim shows variance across regenerations (drift score: "
             ++ format_2f (drift_score cd) ++ ")")
      else
        mkDriftAdjustedResult result claim_drift (confidence result) 0 true
          "Claim is stable across regenerations"
  | None =>
      mkDriftAdjustedResult result claim_drift (confidence result) 0 true
        "Claim is stable across regenerations"
  end.

(** [drift_report or self._drift_report] *)
Definition effective_report (self : DriftMitigationLayer)
  (drift_report : option DriftReport) : option DriftReport :=
  match drift_report with
  | Some r => Some r
  | None => _drift_report self
  end.

(** [adjust_verification_results] *)
Definition adjust_verification_results (self : DriftMitigationLayer)
  (verification_results : list VerificationResult)
  (drift_report : option DriftReport) : list DriftAdjustedResult :=
  let report := effective_report self drift_report in
  map (adjust_one self report) verification_results.

(** [should_flag_for_review] *)
Definition should_flag_for_review (adjusted_result : DriftAdjustedResult) : bool :=
  if negb (dar_is_stable adjusted_result) then true
  else if ClaimCategory_eqb (category (original_result adjusted_result)) CONTRADICTED
          && Py.Qltb (adjusted_confidence adjusted_result) (7 # 10)
  then true
  else
    let confidence_drop :=
      confidence (original_result adjusted_result)
      - adjusted_confidence adjusted_result in
    Py.Qltb (2 # 10) confidence_drop.

End Layer.

End Drift.

(** ** [src/layers/scoring.py] *)

Module Scoring.
Import Constants ClaimIntelligence Verification Drift.

Inductive TrustLevel : Type := HIGH | MEDIUM | LOW | CRITICAL.

Record ScoreBreakdown : Type := mkScoreBreakdown {
  supported_ratio : Q;
  supported_contribution : Q;
  avg_confidence : Q;
  confidence_contribution : Q;
  sb_drift_score : Q;
  drift_contribution : Q;
  severity_score : Q;
  severity_contribution : Q
}.

Record TrustScore : Type := mkTrustScore {
  score : Q;
  level : TrustLevel;
  breakdown : ScoreBreakdown;
  category_counts : list (string * nat);
  ts_total_claims : nat;
  flagged_claims : list string;
  recommendations : list string;
  zone : TrustZone
}.

Record CategoryStats : Type := mkCategoryStats {
  supported : nat;
  contradicted : nat;
  unverifiable : nat
}.

(** The [total] property. *)
Definition total (stats : CategoryStats) : nat :=
  (supported stats + contradicted stats + unverifiable stats)%nat.

Record ScoringLayer : Type := mkScoringLayer {
  sl_domain : Domain;
  weight_supported : Q;
  weight_confidence : Q;
  weight_drift : Q;
  weight_severity : Q
}.

(** [round(x, 1)]: to the nearest tenth, a tie going to the even one. *)
Definition round1 (x : Q) : Q :=
  let t := x * 10 in
  let n := Qfloor t in
  let frac := t - inject_Z n in
  let up :=
    if Py.Qltb frac (1 # 2) then false
    else if Py.Qltb (1 # 2) frac then true
    else Z.odd n in
  inject_Z (if up then n + 1 else n) / 10.

(** [_calculate_category_stats] *)
Definition _calculate_category_stats (results : list VerificationResult)
  : CategoryStats :=
  fold_left
    (fun stats result =>
       match category result with
       | SUPPORTED =>
           mkCategoryStats (supported stats + 1) (contradicted stats) (unverifiable stats)
       | CONTRADICTED =>
           mkCategoryStats (supported stats) (contradicted stats + 1) (unverifiable stats)
       | UNVERIFIABLE =>
           mkCategoryStats (supported stats) (contradicted stats) (unverifiable stats + 1)
       end)
    results (mkCategoryStats 0 0 0).

(** [claim_map.get(claim_id)] for [claim_map = {c.claim_id: c for c in claims}]:
    the last claim of that id. *)
Definition claim_map_get (claims : list Claim) (id : string) : option Claim :=
  find (fun c => String.eqb (claim_id c) id) (rev claims).

(** [_calculate_severity_score] *)
Definition _calculate_severity_score (self : ScoringLayer)
  (results : list VerificationResult) (claims : option (list Claim)) : Q :=
  match claims with
  | None | Some [] =>
      let contradicted :=
        filter (fun r => ClaimCategory_eqb (category r) CONTRADICTED) results in
      match contradicted, results with
      | [], _ | _, [] => 0
      | _, _ => Py.div_nat (List.length contradicted) (List.length results)
      end
  | Some claims =>
      let '(total_severity, contradicted_severity) :=
        fold_left
          (fun '(total_severity, contradicted_severity) result =>
             match claim_map_get claims (vr_claim_id result) with
             | Some claim =>
                 let weight :=
                   max_severity_weight claim * severity_multiplier (sl_domain self) in
                 (total_severity + weight,
                  if ClaimCategory_eqb (category result) CONTRADICTED
                  then contradicted_severity + weight
                  else contradicted_severity)
             | None => (total_severity, contradicted_severity)
             end)
          results (0, 0) in
      if Qeq_bool total_severity 0 then 0
      else contradicted_severity / total_severity
  end.

(** [_determine_trust_level] *)
Definition _determine_trust_level (score : Q) (stats : CategoryStats) : TrustLevel :=
  if Py.Qleb 80 score && (contradicted stats =? 0)%nat then HIGH
  else if Py.Qleb 50 score then MEDIUM
  else if Py.Qltb (inject_Z (Z.of_nat (total stats)) * (3 # 10))
                  (inject_Z (Z.of_nat (contradicted stats)))
  then CRITICAL
  else LOW.

(** [_get_flagged_claims] *)
Definition _get_flagged_claims (results : list VerificationResult) : list string :=
  flat_map
    (fun result =>
       match category result with
       | CONTRADICTED => [vr_claim_text result]
       | UNVERIFIABLE =>
           if Py.Qltb (confidence result) (6 # 10) then [vr_claim_text result] else []
       | SUPPORTED => []
       end)
    results.

Definition str_of_nat (n : nat) : string := Py.str_of_Z (Z.of_nat n).

(** [_generate_recommendations] *)
Definition _generate_recommendations (score : Q) (stats : CategoryStats)
  (results : list VerificationResult) : list string :=
  let r1 :=
    if (0 <? contradicted stats)%nat
    then ["Review " ++ str_of_nat (contradicted stats)
            ++ " contradicted claim(s) and consider corrections."]
    else [] in
  let r2 :=
    if Py.Qltb (inject_Z (Z.of_nat (total stats)) * (3 # 10))
               (inject_Z (Z.of_nat (unverifiable stats)))
    then ["Many claims lack sufficient evidence. Consider adding more source documents."]
    else [] in
  let r3 :=
    if Py.Qltb score 50
    then ["Low trust score indicates significant issues. Manual review strongly recommended."]
    else [] in
  let low_confidence := filter (fun r => Py.Qltb (confidence r) (6 # 10)) results in
  let r4 :=
    if (3 <? List.length low_confidence)%nat
    then [str_of_nat (List.length low_confidence)
            ++ " claims have low confidence scores. Consider reviewing these."]
    else [] in
  match app r1 (app r2 (app r3 r4)) with
  | [] =>
      if Py.Qleb 80 score
      then ["Document passes verification with high confidence."]
      else ["Document passes verification. Minor review suggested."]
  | recommendations => recommendations
  end.

(** [_empty_trust_score] *)
Definition _empty_trust_score : TrustScore :=
  mkTrustScore 0 LOW (mkScoreBreakdown 0 0 0 0 0 0 0 0)
    [("supported", O); ("contradicted", O); ("unverifiable", O)]
    O [] ["No claims to verify."] TrustZone_LOW.

(** [final_score] of [calculate_trust_score]: the weighted sum scaled to
    0..100 and clamped, before it is rounded for the [score] field. *)
Definition final_score_of (self : ScoringLayer)
  (supported_ratio avg_confidence drift_score severity_score : Q) : Q :=
  let score_components :=
    supported_ratio * weight_supported self
    + avg_confidence * weight_confidence self
    + (1 - drift_score) * weight_drift self
    + (1 - severity_score) * weight_severity self in
  let final_score := score_components * 100 in
  Py.max 0 (Py.min 100 final_score).

(** The component values [calculate_trust_score] computes for a non-empty
    input: [(supported_ratio, avg_confidence, drift_score, severity_score)]. *)
Definition components (self : ScoringLayer)
  (verification_results : list VerificationResult)
  (drift_adjusted_results : option (list DriftAdjustedResult))
  (claims : option (list Claim)) : Q * Q * Q * Q :=
  let stats := _calculate_category_stats verification_results in
  let supported_ratio :=
    if (0 <? total stats)%nat then Py.div_nat (supported stats) (total stats) else 0 in
  let '(avg_confidence, drift_score) :=
    match drift_adjusted_results with
    | Some (d :: ds) =>
        let n := inject_Z (Z.of_nat (List.length (d :: ds))) in
        (Py.sum (map adjusted_confidence (d :: ds)) / n,
         Py.sum (map drift_penalty (d :: ds)) / n)
    | _ =>
        (Py.sum (map confidence verification_results)
         / inject_Z (Z.of_nat (List.length verification_results)), 0)
    end in
  let severity_score := _calculate_severity_score self verification_results claims in
  (supported_ratio, avg_confidence, drift_score, severity_score).

(** [calculate_trust_score] *)
Definition calculate_trust_score (self : ScoringLayer)
  (verification_results : list VerificationResult)
  (drift_adjusted_results : option (list DriftAdjustedResult))
  (claims : option (list Claim)) : TrustScore :=
  match verification_results with
  | [] => _empty_trust_score
  | _ =>
      let stats := _calculate_category_stats verification_results in
      let '(supported_ratio, avg_confidence, drift_score, severity_score) :=
        components self verification_results drift_adjusted_results claims in
      let final_score :=
        final_score_of self supported_ratio avg_confidence drift_score severity_score in
      let level := _determine_trust_level final_score stats in
      let breakdown :=
        mkScoreBreakdown
          supported_ratio (supported_ratio * weight_supported self * 100)
          avg_confidence (avg_confidence * weight_confidence self * 100)
          drift_score ((1 - drift_score) * weight_drift self * 100)
          severity_score ((1 - severity_score) * weight_severity self * 100) in
      let flagged := _get_flagged_claims verification_results in
      let recommendations :=
        _generate_recommendations final_score stats verification_results in
      let zone := get_zone final_score in
      mkTrustScore (round1 final_score) level breakdown
        [("supported", supported stats); ("contradicted", contradicted stats);
         ("unverifiable", unverifiable stats)]
        (total stats) flagged recommendations zone
  end.

(** The number of results of a category. *)
Definition count_category (c : ClaimCategory) (results : list VerificationResult) : nat :=
  List.length (filter (fun r => ClaimCategory_eqb (category r) c) results).

(** The unrounded [final_score] of [calculate_trust_score]. *)
Definition final_score (self : ScoringLayer)
  (verification_results : list VerificationResult)
  (drift_adjusted_results : option (list DriftAdjustedResult))
  (claims : option (list Claim)) : Q :=
  let '(supported_ratio, avg_confidence, drift_score, severity_score) :=
    components self verification_results drift_adjusted_results claims in
  final_score_of self supported_ratio avg_confidence drift_score severity_score.

(** The priority of levels as the specification words it: high, then
    critical, then medium, then low. *)
Definition level_by_spec_priority (score : Q) (contradicted total : nat) : TrustLevel :=
  if Py.Qleb 80 score && (contradicted =? 0)%nat then HIGH
  else if Py.Qltb (inject_Z (Z.of_nat total) * (3 # 10))
                  (inject_Z (Z.of_nat contradicted))
  then CRITICAL
  else if Py.Qleb 50 score then MEDIUM
  else LOW.

End Scoring.

(** ** [src/layers/retrieval.py] and [src/layers/ingestion.py]: the rest *)

Module RetrievalBatch.
Import Ingestion ClaimIntelligence Retrieval.

Section Layer.
Variable Emb : Type.
Variable BM25 : Type.
Variable BM25Okapi : list (list string) -> BM25.
Variable get_scores : BM25 -> list string -> list Q.

(** [DocumentIndex.get_chunk_by_id] *)
Definition get_chunk_by_id (self : DocumentIndex Emb) (id : string)
  : option IndexedChunk :=
  find (fun chunk => String.eqb (chunk_id chunk) id) (chunks Emb self).

(** [DocumentIndex.get_chunks_by_document] *)
Definition get_chunks_by_document (self : DocumentIndex Emb) (id : string)
  : list IndexedChunk :=
  filter (fun c => String.eqb (document_id c) id) (chunks Emb self).

(** The loop of [retrieve_evidence_batch]. *)
Fixpoint retrieve_each (self : RetrievalLayer Emb BM25) (claims : list Claim)
  (doc_index : DocumentIndex Emb) (method : string)
  : Py.PyResult (list EvidenceResult * RetrievalLayer Emb BM25) :=
  match claims with
  | [] => Py.Return ([], self)
  | claim :: rest =>
      '(evidence, self) <-
        retrieve_evidence Emb BM25 BM25Okapi get_scores self claim doc_index method ;;
      '(results, self) <- retrieve_each self rest doc_index method ;;
      Py.Return (evidence :: results, self)
  end.

(** [retrieve_evidence_batch] *)
Definition retrieve_evidence_batch (self : RetrievalLayer Emb BM25)
  (claims : list Claim) (doc_index : DocumentIndex Emb) (method : string)
  : Py.PyResult (list EvidenceResult * RetrievalLayer Emb BM25) :=
  self <- (if String.eqb method "hybrid" || String.eqb method "keyword"
           then ensure_bm25_index Emb BM25 BM25Okapi self doc_index
           else Py.Return self) ;;
  retrieve_each self claims doc_index method.

End Layer.

End RetrievalBatch.

(** ** [src/layers/drift.py]: summaries and regeneration comparison *)

Module DriftReports.
Import Constants ClaimIntelligence Verification Drift.

(** [get_high_drift_claims] *)
Definition get_high_drift_claims (adjusted_results : list DriftAdjustedResult)
  : list DriftAdjustedResult :=
  filter (fun r => negb (dar_is_stable r)) adjusted_results.

(** The dictionary [get_stability_summary] returns. *)
Record StabilitySummary : Type := mkStabilitySummary {
  ss_total_claims : nat;
  ss_stable_claims : nat;
  ss_unstable_claims : nat;
  stability_percentage : Q;
  average_drift_penalty : Q;
  high_drift_claims : list string
}.

(** [get_stability_summary] *)
Definition get_stability_summary (adjusted_results : list DriftAdjustedResult)
  : StabilitySummary :=
  let stable_count := List.length (filter dar_is_stable adjusted_results) in
  let unstable_count := (List.length adjusted_results - stable_count)%nat in
  let avg_penalty :=
    match adjusted_results with
    | [] => 0
    | _ => Py.sum (map drift_penalty adjusted_results)
           / inject_Z (Z.of_nat (List.length adjusted_results))
    end in
  mkStabilitySummary
    (List.length adjusted_results)
    stable_count
    unstable_count
    (match adjusted_results with
     | [] => 100
     | _ => Py.div_nat stable_count (List.length adjusted_results) * 100
     end)
    avg_penalty
    (Py.slice_to 5
       (map (fun r => vr_claim_text (original_result r))
            (filter (fun r => negb (dar_is_stable r)) adjusted_results))).

(** [set(text.lower().split())], as a list without repetition. *)
Definition word_set (text : string) : list string :=
  nodup string_dec (Py.split (Py.lower text)).

(** [_text_similarity]: the Jaccard index of the two word sets. *)
Definition _text_similarity (text1 text2 : string) : Q :=
  let words1 := word_set text1 in
  let words2 := word_set text2 in
  match words1, words2 with
  | [], _ | _, [] => 0
  | _, _ =>
      let intersection := filter (fun w => Py.mem w words2) words1 in
      let union := nodup string_dec (app words1 words2) in
      Py.div_nat (List.length intersection) (List.length union)
  end.

(** [s[:n]] on a string. *)
Fixpoint str_slice_to (n : nat) (s : string) : string :=
  match n, s with
  | S k, String c r => String c (str_slice_to k r)
  | _, _ => EmptyString
  end.

(** One entry of ["claim_consistency"]. *)
Record Consistency : Type := mkConsistency {
  cc_claim : string;
  found_in_regenerations : nat;
  consistency : Q
}.

(** The dictionary [compare_regenerations] returns. *)
Record Comparison : Type := mkComparison {
  original_count : nat;
  regeneration_counts : list nat;
  claim_consistency : list Consistency;
  missing_claims : list string;
  new_claims : list string
}.

(** The indices [found_in] of the regenerations holding a claim similar to
    [orig_claim]. *)
Definition found_in (orig_claim : Claim) (regenerated_claims : list (list Claim))
  : list nat :=
  flat_map
    (fun '(i, regen_claims) =>
       if existsb
            (fun regen_claim =>
               Py.Qltb (8 # 10)
                 (_text_similarity (claim_text orig_claim) (claim_text regen_claim)))
            regen_claims
       then [i] else [])
    (combine (seq 0 (List.length regenerated_claims)) regenerated_claims).

(** The value of [consistency] for one original claim. *)
Definition consistency_of (orig_claim : Claim) (regenerated_claims : list (list Claim))
  : Q :=
  match regenerated_claims with
  | [] => 0
  | _ => Py.div_nat (List.length (found_in orig_claim regenerated_claims))
           (List.length regenerated_claims)
  end.

(** [compare_regenerations] *)
Definition compare_regenerations (original_claims : list Claim)
  (regenerated_claims : list (list Claim)) : Comparison :=
  mkComparison
    (List.length original_claims)
    (map (fun c => List.length c) regenerated_claims)
    (map (fun orig_claim =>
            mkConsistency (str_slice_to 100 (claim_text orig_claim))
              (List.length (found_in orig_claim regenerated_claims))
              (consistency_of orig_claim regenerated_claims))
         original_claims)
    (flat_map
       (fun orig_claim =>
          if Py.Qltb (consistency_of orig_claim regenerated_claims) (5 # 10)
          then [str_slice_to 100 (claim_text orig_claim)] else [])
       original_claims)
    [].

End DriftReports.

(** ** [src/layers/scoring.py]: comparisons *)

Module ScoreReports.
Import Constants Scoring.

(** [CategoryStats.get_percentages]:
    [(supported, contradicted, unverifiable)]. *)
Definition get_percentages (self : CategoryStats) : Q * Q * Q :=
  if (total self =? 0)%nat then (0, 0, 0)
  else (Py.div_nat (supported self) (total self) * 100,
        Py.div_nat (contradicted self) (total self) * 100,
        Py.div_nat (unverifiable self) (total self) * 100).

Definition TrustLevel_eqb (a b : TrustLevel) : bool :=
  match a, b with
  | HIGH, HIGH | MEDIUM, MEDIUM | LOW, LOW | CRITICAL, CRITICAL => true
  | _, _ => false
  end.

(** [category_counts.get(key, 0)] *)
Definition count_of (counts : list (string * nat)) (key : string) : Z :=
  match Ingestion.dict_get counts key with
  | Some n => Z.of_nat n
  | None => 0%Z
  end.

(** The dictionary [compare_scores] returns. *)
Record ScoreComparison : Type := mkScoreComparison {
  score_difference : Q;
  level_changed : bool;
  supported_difference : Z;
  contradicted_difference : Z;
  improvement : bool
}.

(** [compare_scores] *)
Definition compare_scores (score1 score2 : TrustScore) : ScoreComparison :=
  mkScoreComparison
    (score score1 - score score2)
    (negb (TrustLevel_eqb (level score1) (level score2)))
    (count_of (category_counts score1) "supported"
     - count_of (category_counts score2) "supported")%Z
    (count_of (category_counts score1) "contradicted"
     - count_of (category_counts score2) "contradicted")%Z
    (Py.Qltb (score score2) (score score1)).

(** The ["flagged_claims"] entry of [TrustScore.to_dict]. *)
Definition to_dict_flagged (self : TrustScore) : list string :=
  Py.slice_to 5 (flagged_claims self).

End ScoreReports.

(** ** [src/layers/correction.py] and [src/layers/ui_integration.py]:
    what is built from the verification results *)

Module Reporting.
Import Constants ClaimIntelligence Verification Scoring.

(** [Colors.get_claim_color] *)
Definition get_claim_color (category : ClaimCategory) : string :=
  match category with
  | SUPPORTED => "#10b981"
  | CONTRADICTED => "#ef4444"
  | UNVERIFIABLE => "#f59e0b"
  end.

(** [citation.split(",")[0]] *)
Fixpoint first_field (s : string) : string :=
  match s with
  | EmptyString => EmptyString
  | String c r => if Ascii.eqb c ","%char then EmptyString else String c (first_field r)
  end.

Section Correction.

(** The corrections come from the correction model. *)
Variable CorrectionResult : Type.

Record AnnotatedClaim : Type := mkAnnotatedClaim {
  ac_claim : Claim;
  verification : VerificationResult;
  correction : option CorrectionResult;
  color : string
}.

(** [result_map.get(id)] for [result_map = {r.claim_id: r for r in results}]:
    the last result of that id. *)
Definition result_map_get (results : list VerificationResult) (id : string)
  : option VerificationResult :=
  find (fun r => String.eqb (vr_claim_id r) id) (rev results).

(** [create_annotated_claims]; [corrections] is the dictionary passed in
    ([None] and the empty dictionary are alike). *)
Definition create_annotated_claims (claims : list Claim)
  (verification_results : list VerificationResult)
  (corrections : list (string * CorrectionResult)) : list AnnotatedClaim :=
  flat_map
    (fun claim =>
       match result_map_get verification_results (claim_id claim) with
       | None => []
       | Some verification =>
           [mkAnnotatedClaim claim verification
              (Ingestion.dict_get corrections (claim_id claim))
              (get_claim_color (category verification))]
       end)
    claims.

(** The ["statistics"] entry of [AuditReport.to_dict]:
    [(total_claims, supported, contradicted, unverifiable)]. *)
Definition statistics (annotated_claims : list AnnotatedClaim) : nat * nat * nat * nat :=
  let count c :=
    List.length
      (filter (fun ac => ClaimCategory_eqb (category (verification ac)) c)
         annotated_claims) in
  (List.length annotated_claims, count SUPPORTED, count CONTRADICTED,
   count UNVERIFIABLE).

(** [filter_claims_by_category] *)
Definition filter_claims_by_category (annotated_claims : list AnnotatedClaim)
  (category_arg : option ClaimCategory) : list AnnotatedClaim :=
  match category_arg with
  | None => annotated_claims
  | Some c =>
      filter (fun ac => ClaimCategory_eqb (category (verification ac)) c)
        annotated_claims
  end.

(** The dictionary [get_evidence_for_claim] returns. *)
Record EvidenceView : Type := mkEvidenceView {
  evidence_text : string;
  ev_citation : string;
  document : string;
  ev_confidence : Q
}.

(** [get_evidence_for_claim] *)
Definition get_evidence_for_claim (id : string)
  (annotated_claims : list AnnotatedClaim) : option EvidenceView :=
  match find (fun ac => String.eqb (claim_id (ac_claim ac)) id) annotated_claims with
  | Some ac =>
      Some (mkEvidenceView
              (evidence_used (verification ac))
              (vr_citation (verification ac))
              (match vr_citation (verification ac) with
               | EmptyString => "Unknown"
               | c => first_field c
               end)
              (confidence (verification ac)))
  | None => None
  end.

End Correction.

End Reporting.

(** ** [src/layers/verification.py]: the candidates of the fuzzy match *)

Module VerificationViews.

(** The candidates [_find_similar_entity] scores, in the order of its two
    loops: every run of [n] consecutive words joined by a space, for
    [n] = 1, 2, 3. *)
Definition ngrams (words : list string) : list string :=
  flat_map
    (fun n =>
       map (fun i => Py.join " " (Py.slice i n words))
           (seq 0 (List.length words - n + 1)))
    (seq 1 (Nat.min 4 (List.length words + 1) - 1)).

End VerificationViews.

(** * Concrete inputs

    The inputs at which the properties below are instantiated. *)

Module Examples.
Import Constants Ingestion ClaimIntelligence Retrieval Verification Drift Scoring.

(** *** Retrieval *)

Definition chunk_a : IndexedChunk :=
  mkIndexedChunk "1" "London is big" [] "d1" "a.txt" 0 0 13 None [].

Definition chunk_b : IndexedChunk :=
  mkIndexedChunk "2" "Paris is nice" [] "d2" "b.txt" 0 0 13 None [].

Definition paris_claim : Claim :=
  mkClaim "c1" "Paris is nice" "Paris is nice" 0 13 FACTUAL
    [mkEntity "Paris" "GPE" 0 5 (11 # 10)] true [] [].

(** The retrieval result for that claim: [chunk_a] first with 0.5, then
    [chunk_b] with 0.45, the citation naming [chunk_a]'s document. *)
Definition retrieved : EvidenceResult :=
  mkEvidenceResult "c1" "Paris is nice" [chunk_a; chunk_b] [5 # 10; 45 # 100]
    "hybrid" (Some "London is big") (Some "a.txt").

(** A two-chunk index whose vector search ranks [chunk_a] (0.3) before
    [chunk_b] (0.2), and a keyword scorer that counts the query words a
    document contains. *)
Definition two_chunk_index : DocumentIndex unit :=
  mkDocumentIndex unit "index" [chunk_a; chunk_b]
    (fun _ k => firstn k [(0%Z, 3 # 10); (1%Z, 2 # 10)]) 384 2 2.

Definition word_overlap (corpus : list (list string)) (query : list string) : list Q :=
  map (fun doc =>
         inject_Z (Z.of_nat (List.length (filter (fun w => Py.mem w doc) query))))
      corpus.

Definition default_retrieval : RetrievalLayer unit (list (list string)) :=
  mkRetrievalLayer unit (list (list string)) (fun _ => tt)
    DEFAULT_TOP_K DEFAULT_SIMILARITY_THRESHOLD
    DEFAULT_HYBRID_WEIGHT_VECTOR DEFAULT_HYBRID_WEIGHT_KEYWORD None None.

Definition empty_index : DocumentIndex unit :=
  mkDocumentIndex unit "empty" [] (fun _ _ => []) 384 0 0.

(** *** Verification *)

(** A crude [ratio]: 1 on equal strings, 0 otherwise; and a stand-in for
    the [:.2f] format. *)
Definition exact_ratio (a b : string) : Q := if String.eqb a b then 1 else 0.
Definition no_format (q : Q) : string := "?".

Definition tower_chunk : IndexedChunk :=
  mkIndexedChunk "t1" "The tower is 330 metres tall" [] "d3" "tower.txt" 0 0 28
    None [].

Definition tower_claim : Claim :=
  mkClaim "c2" "The tower is 324 meters tall" "The tower is 324 meters tall" 0 28
    NUMERICAL [mkEntity "324 meters" "QUANTITY" 13 23 1] true [] [].

Definition tower_evidence : EvidenceResult :=
  mkEvidenceResult "c2" "The tower is 324 meters tall" [tower_chunk] [8 # 10]
    "hybrid" (Some "The tower is 330 metres tall") (Some "tower.txt").

Definition no_evidence : EvidenceResult :=
  mkEvidenceResult "c2" "The tower is 324 meters tall" [] [] "hybrid" None None.

(** A classifier that answers the same scores whatever it is asked. *)
Definition constant_nli (entailment contradiction neutral : Q) : NLIModel :=
  fun _ _ _ =>
    mkNLIResult UNVERIFIABLE neutral LIKELY entailment contradiction neutral [].

Definition neutral_layer : VerificationLayer :=
  mkVerificationLayer (constant_nli (1 # 10) (2 # 10) (7 # 10)) GENERAL
    DEFAULT_ENTITY_MATCH_THRESHOLD.

Definition contradicting_layer : VerificationLayer :=
  mkVerificationLayer (constant_nli (5 # 100) (9 # 10) (5 # 100)) GENERAL
    DEFAULT_ENTITY_MATCH_THRESHOLD.

(** *** Scoring and drift *)

(** Three supported and two contradicted results, each of confidence 0.8. *)
Definition result_of (id : string) (c : ClaimCategory) : VerificationResult :=
  mkVerificationResult id ("Claim " ++ id) c (8 # 10) LIKELY
    (mkNLIResult c (8 # 10) LIKELY (8 # 10) (1 # 10) (1 # 10) [])
    [] "evidence" "Source" "explanation" 1 1 1.

Definition five_results : list VerificationResult :=
  [result_of "0" SUPPORTED; result_of "1" SUPPORTED; result_of "2" SUPPORTED;
   result_of "3" CONTRADICTED; result_of "4" CONTRADICTED].

Definition default_layer : ScoringLayer :=
  mkScoringLayer GENERAL DEFAULT_WEIGHT_SUPPORTED_RATIO DEFAULT_WEIGHT_AVG_CONFIDENCE
    DEFAULT_WEIGHT_DRIFT_SCORE DEFAULT_WEIGHT_SEVERITY.

Definition default_drift : DriftMitigationLayer :=
  mkDriftMitigationLayer DEFAULT_DRIFT_VARIANCE_THRESHOLD
    DEFAULT_DRIFT_CONFIDENCE_PENALTY None.

Definition no_similarity (a b : string) : Q := 0.

(** A report in which "Claim 3" drifts by 0.6. *)
Definition unstable_report : DriftReport :=
  mkDriftReport [mkClaimDrift "Claim 3" (6 # 10) false] 0 1.

End Examples.

Module MoreExamples.
Import Constants Ingestion ClaimIntelligence Retrieval Verification Drift Scoring.
Import Examples.

(** The default retrieval layer once its keyword index holds the two chunks
    ([BM25Okapi] keeping the tokenised corpus as it is). *)
Definition indexed_retrieval : RetrievalLayer unit (list (list string)) :=
  mkRetrievalLayer unit (list (list string)) (fun _ => tt)
    DEFAULT_TOP_K DEFAULT_SIMILARITY_THRESHOLD
    DEFAULT_HYBRID_WEIGHT_VECTOR DEFAULT_HYBRID_WEIGHT_KEYWORD
    (Some [["london"; "is"; "big"]; ["paris"; "is"; "nice"]])
    (Some [chunk_a; chunk_b]).

(** Raw result lists of a vector and of a keyword search. *)
Definition vector_hits : list (IndexedChunk * Q) :=
  [(chunk_a, 3 # 10); (chunk_b, 2 # 10)].

Definition keyword_hits : list (IndexedChunk * Q) := [(chunk_b, 3)].

(** Two claims with their verification results. *)
Definition two_claims : list Claim := [paris_claim; tower_claim].

Definition two_results : list VerificationResult :=
  [result_of "c1" SUPPORTED; result_of "c2" CONTRADICTED].

End MoreExamples.

(** * Properties *)

(** ** Facts about the Python primitives *)

Module PyFacts.
Import Py.

Lemma Qltb_lt (a b : Q) : Qltb a b = true <-> a < b.
Proof.
  unfold Qltb. rewrite negb_true_iff. split; intro H.
  - apply Qnot_le_lt. intro Hle. apply Qle_bool_iff in Hle. congruence.
  - destruct (Qle_bool b a) eqn:E; trivial.
    apply Qle_bool_iff in E. apply Qle_not_lt in E. contradiction.
Qed.

Lemma Qltb_ge (a b : Q) : Qltb a b = false <-> b <= a.
Proof.
  unfold Qltb. rewrite negb_false_iff. apply Qle_bool_iff.
Qed.

Lemma Qleb_le (a b : Q) : Qleb a b = true <-> a <= b.
Proof. apply Qle_bool_iff. Qed.

Lemma Qleb_gt (a b : Q) : Qleb a b = false <-> b < a.
Proof.
  unfold Qleb. split; intro H.
  - apply Qnot_le_lt. intro Hle. apply Qle_bool_iff in Hle. congruence.
  - destruct (Qle_bool a b) eqn:E; trivial.
    apply Qle_bool_iff in E. apply Qle_not_lt in E. contradiction.
Qed.

(** Turn the boolean comparisons among the hypotheses into propositions. *)
Ltac q_bool :=
  repeat match goal with
    | H : Qltb _ _ = true |- _ => apply Qltb_lt in H
    | H : Qltb _ _ = false |- _ => apply Qltb_ge in H
    | H : Qleb _ _ = true |- _ => apply Qleb_le in H
    | H : Qleb _ _ = false |- _ => apply Qleb_gt in H
    | H : _ && _ = true |- _ => apply andb_true_iff in H; destruct H
    end.

Lemma max_Qmax (a b : Q) : max a b == Qmax a b.
Proof.
  unfold max. destruct (Qltb a b) eqn:E; q_bool.
  - symmetry. apply Q.max_r. apply Qlt_le_weak, E.
  - symmetry. apply Q.max_l. exact E.
Qed.

Lemma min_Qmin (a b : Q) : min a b == Qmin a b.
Proof.
  unfold min. destruct (Qltb b a) eqn:E; q_bool.
  - symmetry. apply Q.min_r. apply Qlt_le_weak, E.
  - symmetry. apply Q.min_l. exact E.
Qed.

Lemma max_cases (a b : Q) : (a < b /\ max a b = b) \/ (b <= a /\ max a b = a).
Proof.
  unfold max. destruct (Qltb a b) eqn:E; q_bool; [left | right]; split; trivial.
Qed.

Lemma min_cases (a b : Q) : (b < a /\ min a b = b) \/ (a <= b /\ min a b = a).
Proof.
  unfold min. destruct (Qltb b a) eqn:E; q_bool; [left | right]; split; trivial.
Qed.

Lemma fold_plus_shift (l : list Q) (a : Q) :
  fold_left Qplus l a == a + fold_left Qplus l 0.
Proof.
  revert a. induction l as [|x l IH]; intro a; simpl.
  - lra.
  - rewrite (IH (a + x)), (IH (0 + x)). lra.
Qed.

Lemma sum_cons (x : Q) (l : list Q) : sum (x :: l) == x + sum l.
Proof.
  unfold sum. simpl. rewrite fold_plus_shift. lra.
Qed.

Lemma sum_nil : sum [] = 0.
Proof. reflexivity. Qed.

(** An invariant carried through a [for] loop. *)
Lemma fold_left_inv {A B} (P : A -> Prop) (f : A -> B -> A) (l : list B) (a : A) :
  P a -> (forall a b, P a -> P (f a b)) -> P (fold_left f l a).
Proof.
  revert a. induction l as [|b l IH]; intros a Ha Hf; simpl; auto.
Qed.

End PyFacts.

(** ** Verification fusion *)

Module VerificationSpec.
Import Py PyFacts Constants Ingestion ClaimIntelligence Retrieval Verification.

Section Facts.
Variable ratio : string -> string -> Q.
Variable fmt : Q -> string.

Lemma no_chunks_no_text (evidence : EvidenceResult) (n : nat) :
  evidence_chunks evidence = [] -> get_combined_evidence evidence n = "".
Proof.
  intro H. unfold get_combined_evidence, slice_to. rewrite H.
  destruct n; reflexivity.
Qed.

(** What [verify_claim] does once the evidence text is not empty. *)
Lemma verify_claim_nonempty (self : VerificationLayer) (claim : Claim)
  (evidence : EvidenceResult) :
  get_combined_evidence evidence 3 <> "" ->
  let text := get_combined_evidence evidence 3 in
  let nli := nli_model self (claim_text claim)
               (map content (slice_to 3 (evidence_chunks evidence))) "max" in
  let ms := _check_entity_consistency ratio fmt self claim text in
  let es := _calculate_entity_score ms in
  let ns := _check_numerical_consistency claim text in
  let r := fst (verify_claim ratio fmt self claim evidence) in
  category r = fst (_fuse_signals nli es ns ms)
  /\ confidence r = snd (_fuse_signals nli es ns ms)
  /\ nli_result r = nli /\ entity_matches r = ms
  /\ entity_consistency_score r = es /\ numerical_accuracy_score r = ns.
Proof.
  intros Hne. cbv zeta. unfold verify_claim.
  destruct (get_combined_evidence evidence 3) as [|c s] eqn:E; [congruence|].
  cbn [fst snd].
  destruct (_fuse_signals _ _ _ _) as [cat conf]. cbn. repeat split.
Qed.

(** The short-circuit of [verify_claim]. *)
Lemma verify_claim_empty (self : VerificationLayer) (claim : Claim)
  (evidence : EvidenceResult) :
  get_combined_evidence evidence 3 = "" ->
  verify_claim ratio fmt self claim evidence
  = (_create_unverifiable_result claim evidence "No evidence found", []).
Proof.
  intro H. unfold verify_claim. now rewrite H.
Qed.

(** C3. A claim whose combined evidence text is empty (in particular one
    with no evidence chunks) is answered [UNVERIFIABLE] with confidence
    exactly 0.5 and the explanation "No evidence found", and the NLI
    classifier is not called. *)
Theorem verify_claim_without_evidence (self : VerificationLayer) (claim : Claim)
  (evidence : EvidenceResult) :
  get_combined_evidence evidence 3 = "" ->
  let (r, calls) := verify_claim ratio fmt self claim evidence in
  category r = UNVERIFIABLE
  /\ confidence r = 5 # 10
  /\ explanation r = "No evidence found"
  /\ calls = [].
Proof.
  intro H. rewrite (verify_claim_empty self claim evidence H). cbn. repeat split.
Qed.

(** The first rule of [_fuse_signals] needs a numeric score above 0.8. *)
Lemma fuse_numeric_mismatch (nli : NLIResult) (es ns : Q) (ms : list EntityMatch) :
  ns < 5 # 10 ->
  _fuse_signals nli es ns ms =
    if Qltb (7 # 10) (contradiction_score nli)
    then (CONTRADICTED, contradiction_score nli)
    else if existsb is_contradiction ms && Qltb es (7 # 10)
    then (CONTRADICTED, max (contradiction_score nli) (1 - es))
    else (CONTRADICTED, 7 # 10).
Proof.
  intro Hns. unfold _fuse_signals.
  assert (Qltb (8 # 10) ns = false) as ->.
  { apply Qltb_ge. lra. }
  assert (Qltb ns (5 # 10) = true) as ->.
  { apply Qltb_lt. exact Hns. }
  rewrite andb_false_r, andb_false_l. reflexivity.
Qed.

(** C2 (amended). With non-empty evidence and a numeric consistency score
    below 0.5 the category is [CONTRADICTED] whatever the NLI classifier
    answers.  The confidence is 0.7 when neither of the two earlier
    contradiction rules fires (NLI contradiction score at most 0.7, and no
    entity contradiction together with an entity score below 0.7); it is the
    NLI contradiction score when that exceeds 0.7, and otherwise the larger
    of the contradiction score and 1 - entity score. *)
Theorem numeric_mismatch_is_contradicted (self : VerificationLayer) (claim : Claim)
  (evidence : EvidenceResult) :
  get_combined_evidence evidence 3 <> "" ->
  _check_numerical_consistency claim (get_combined_evidence evidence 3) < 5 # 10 ->
  let nli := nli_model self (claim_text claim)
               (map content (slice_to 3 (evidence_chunks evidence))) "max" in
  let r := fst (verify_claim ratio fmt self claim evidence) in
  let entity_rule :=
    existsb is_contradiction (entity_matches r) = true
    /\ entity_consistency_score r < 7 # 10 in
  category r = CONTRADICTED
  /\ (contradiction_score nli <= 7 # 10 -> ~ entity_rule -> confidence r == 7 # 10)
  /\ (7 # 10 < contradiction_score nli -> confidence r == contradiction_score nli)
  /\ (contradiction_score nli <= 7 # 10 -> entity_rule ->
      confidence r == Qmax (contradiction_score nli) (1 - entity_consistency_score r)).
Proof.
  intros Hne Hns.
  destruct (verify_claim_nonempty self claim evidence Hne)
    as (Hcat & Hconf & _ & Hms & Hes & _).
  cbv zeta. rewrite Hcat, Hconf, Hms, Hes.
  rewrite (fuse_numeric_mismatch _ _ _ _ Hns).
  set (nli := nli_model self _ _ _).
  set (ms := _check_entity_consistency _ _ _ _ _).
  set (es := _calculate_entity_score ms).
  destruct (Qltb (7 # 10) (contradiction_score nli)) eqn:Ec.
  - q_bool. cbn [fst snd].
    split; [reflexivity|]. split; [intros; lra|].
    split; [intros; reflexivity | intros; lra].
  - q_bool.
    destruct (existsb is_contradiction ms) eqn:Ex;
      [destruct (Qltb es (7 # 10)) eqn:Ee|]; cbn [andb fst snd]; q_bool.
    + split; [reflexivity|].
      split; [intros _ Hn; exfalso; apply Hn; split; trivial|].
      split; [intros; lra|]. intros; apply max_Qmax.
    + split; [reflexivity|]. split; [intros; reflexivity|].
      split; [intros; lra|]. intros _ [_ Hlt]. lra.
    + split; [reflexivity|]. split; [intros; reflexivity|].
      split; [intros; lra|]. intros _ [Hx _]. discriminate.
Qed.

Lemma verify_each_map (self : VerificationLayer) (pairs : list (Claim * EvidenceResult)) :
  fst (verify_each ratio fmt self pairs)
  = map (fun p => fst (verify_claim ratio fmt self (fst p) (snd p))) pairs.
Proof.
  induction pairs as [|[c e] pairs IH]; cbn [verify_each map fst snd]; trivial.
  destruct (verify_claim ratio fmt self c e) as [r calls].
  destruct (verify_each ratio fmt self pairs) as [rs calls'].
  cbn [fst] in *. now rewrite IH.
Qed.

(** C9. Lists of unequal length make [verify_claims_batch] raise
    [ValueError] before any claim is verified; lists of equal length give
    one result per claim, the i-th being [verify_claim] of the i-th claim
    with the i-th evidence. *)
Theorem verify_claims_batch_spec (self : VerificationLayer) (claims : list Claim)
  (evidences : list EvidenceResult) :
  (List.length claims <> List.length evidences ->
   verify_claims_batch ratio fmt self claims evidences
   = (Raise (ValueError "Claims and evidences must have same length"), []))
  /\ (List.length claims = List.length evidences ->
      exists results calls,
        verify_claims_batch ratio fmt self claims evidences = (Return results, calls)
        /\ List.length results = List.length claims
        /\ forall i c e,
             nth_error claims i = Some c -> nth_error evidences i = Some e ->
             nth_error results i = Some (fst (verify_claim ratio fmt self c e))).
Proof.
  unfold verify_claims_batch. split; intro H.
  - apply Nat.eqb_neq in H. now rewrite H.
  - rewrite (proj2 (Nat.eqb_eq _ _) H). cbn [negb].
    pose proof (verify_each_map self (combine claims evidences)) as Hmap.
    destruct (verify_each ratio fmt self (combine claims evidences)) as [rs calls].
    cbn [fst] in Hmap. exists rs, calls. split; [reflexivity|]. subst rs. split.
    + rewrite length_map, length_combine, <- H. apply Nat.min_id.
    + intros i c e Hc He.
      rewrite nth_error_map.
      assert (nth_error (combine claims evidences) i = Some (c, e)) as ->; trivial.
      clear H. revert i evidences Hc He.
      induction claims as [|c0 cs IH]; intros [|i] [|e0 es] Hc He; cbn in *;
        try discriminate.
      * congruence.
      * now apply IH.
Qed.
End Facts.

Section Bounds.
Variable ratio : string -> string -> Q.
Variable fmt : Q -> string.

(** [SequenceMatcher.ratio] is a number between 0 and 1. *)
Hypothesis ratio_unit : forall a b, 0 <= ratio a b <= 1.

Lemma _find_similar_entity_unit (entity text : string) :
  0 <= snd (_find_similar_entity ratio entity text) <= 1.
Proof.
  unfold _find_similar_entity.
  apply (fold_left_inv (fun best : string * Q => 0 <= snd best <= 1)).
  - cbn. lra.
  - intros best n Hbest.
    apply (fold_left_inv (fun best : string * Q => 0 <= snd best <= 1)); trivial.
    intros [bm bs] i Hb. cbn [snd] in *.
    destruct (Qltb bs _); cbn [snd]; [apply ratio_unit | exact Hb].
Qed.

Lemma match_entity_unit (self : VerificationLayer) (evidence : string) (entity : Entity) :
  let m := match_entity ratio fmt self evidence entity in
  0 <= similarity m <= 1 /\ claim_entity m = entity.
Proof.
  cbv zeta. unfold match_entity.
  pose proof (_find_similar_entity_unit (ClaimIntelligence.text entity) evidence) as Hb.
  destruct (contains _ _); [cbn; split; [lra | reflexivity]|].
  destruct (_find_similar_entity ratio _ _) as [bm bs]. cbn [snd] in Hb.
  destruct (Qleb (entity_match_threshold self) bs); [cbn; split; [lra | reflexivity]|].
  destruct (Qleb (5 # 10) bs); cbn; (split; [lra | reflexivity]).
Qed.

(** The weighted sums of [_calculate_entity_score]. *)
Lemma weighted_sum_bounds (ms : list EntityMatch) :
  (forall m, In m ms -> 0 <= severity_weight (claim_entity m)) ->
  (forall m, In m ms -> 0 <= similarity m <= 1) ->
  0 <= sum (map (fun m => similarity m * severity_weight (claim_entity m))
                (filter is_match ms))
    <= sum (map (fun m => severity_weight (claim_entity m)) ms).
Proof.
  induction ms as [|m ms IH]; intros Hw Hs.
  - cbn. lra.
  - assert (Hm : 0 <= severity_weight (claim_entity m)) by (apply Hw; now left).
    assert (Hsm : 0 <= similarity m <= 1) by (apply Hs; now left).
    destruct IH as [IH0 IH1].
    { intros; apply Hw; now right. }
    { intros; apply Hs; now right. }
    cbn [filter map]. rewrite (sum_cons (severity_weight (claim_entity m))).
    destruct (is_match m); cbn [map].
    + rewrite sum_cons. split; nra.
    + split; lra.
Qed.

Lemma _calculate_entity_score_unit (ms : list EntityMatch) :
  (forall m, In m ms -> 0 <= severity_weight (claim_entity m)) ->
  (forall m, In m ms -> 0 <= similarity m <= 1) ->
  0 <= _calculate_entity_score ms <= 1.
Proof.
  intros Hw Hs. unfold _calculate_entity_score.
  destruct ms as [|m0 ms0]; [lra|].
  pose proof (weighted_sum_bounds _ Hw Hs) as [H0 H1].
  set (tw := sum (map _ (m0 :: ms0))) in *.
  set (ws := sum (map _ (filter is_match (m0 :: ms0)))) in *.
  destruct (Qltb 0 tw) eqn:E; [|lra]. q_bool. split.
  - apply Qle_shift_div_l; trivial. lra.
  - apply Qle_shift_div_r; trivial. lra.
Qed.

(** The six rules of [_fuse_signals] keep the confidence in the unit
    interval. *)
Lemma _fuse_signals_unit (nli : NLIResult) (es ns : Q) (ms : list EntityMatch) :
  0 <= entailment_score nli <= 1 ->
  0 <= contradiction_score nli <= 1 ->
  0 <= neutral_score nli <= 1 ->
  0 <= es <= 1 ->
  0 <= snd (_fuse_signals nli es ns ms) <= 1.
Proof.
  intros He Hc Hn Hes. unfold _fuse_signals.
  repeat match goal with
         | |- context [if ?b then _ else _] => destruct b eqn:?; cbn [snd]
         end; q_bool;
    try (destruct (min_cases (entailment_score nli) es) as [[? ->]|[? ->]]; lra);
    try (destruct (max_cases (contradiction_score nli) (1 - es)) as [[? ->]|[? ->]]; lra);
    try (destruct (max_cases (neutral_score nli) (5 # 10)) as [[? ->]|[? ->]]; lra);
    try lra; try nra.
Qed.

(** C8. Every result of [verify_claim] has one of the three categories and
    a confidence in [0,1], provided the NLI scores are in [0,1] (and, as
    everywhere in the system, severity weights are not negative and
    [SequenceMatcher.ratio] is a ratio). *)
Theorem verify_claim_category_and_confidence (self : VerificationLayer)
  (claim : Claim) (evidence : EvidenceResult) :
  (forall c es a,
      0 <= entailment_score (nli_model self c es a) <= 1
      /\ 0 <= contradiction_score (nli_model self c es a) <= 1
      /\ 0 <= neutral_score (nli_model self c es a) <= 1) ->
  (forall e, In e (entities claim) -> 0 <= severity_weight e) ->
  let r := fst (verify_claim ratio fmt self claim evidence) in
  (category r = SUPPORTED \/ category r = CONTRADICTED \/ category r = UNVERIFIABLE)
  /\ 0 <= confidence r <= 1.
Proof.
  intros Hnli Hw. cbv zeta. split.
  - destruct (category _); auto.
  - destruct (string_dec (get_combined_evidence evidence 3) "") as [E|E].
    + rewrite (verify_claim_empty ratio fmt self claim evidence E). cbn. lra.
    + destruct (verify_claim_nonempty ratio fmt self claim evidence E)
        as (_ & -> & _).
      destruct (Hnli (claim_text claim)
                  (map content (slice_to 3 (evidence_chunks evidence))) "max")
        as (He & Hc & Hn).
      apply _fuse_signals_unit; trivial.
      apply _calculate_entity_score_unit; unfold _check_entity_consistency;
        intros m Hm; apply in_map_iff in Hm; destruct Hm as (e & <- & He');
        destruct (match_entity_unit self (get_combined_evidence evidence 3) e)
          as [Hs Hce]; trivial.
      rewrite Hce. now apply Hw.
Qed.

End Bounds.

End VerificationSpec.

(** ** Sorting *)

Module SortFacts.
Import Py PyFacts.

Section Order.
Context {A : Type} (key : A -> Q).

Lemma insert_desc_perm (x : A) (l : list A) :
  Permutation (insert_desc key x l) (x :: l).
Proof.
  induction l as [|y l IH]; cbn; trivial.
  destruct (Qltb (key x) (key y)); trivial.
  rewrite IH. apply perm_swap.
Qed.

Lemma sort_desc_perm (l : list A) : Permutation (sort_desc key l) l.
Proof.
  induction l as [|x l IH]; cbn; trivial.
  rewrite insert_desc_perm. now constructor.
Qed.

Lemma insert_desc_sorted (x : A) (l : list A) :
  Descending key l -> Descending key (insert_desc key x l).
Proof.
  induction 1 as [|y l Hs IH Hall]; cbn.
  - repeat constructor.
  - destruct (Qltb (key x) (key y)) eqn:E; q_bool.
    + constructor; trivial.
      apply Forall_forall. intros z Hz.
      apply (Permutation_in _ (insert_desc_perm x l)) in Hz.
      destruct Hz as [<-|Hz]; [lra|].
      rewrite Forall_forall in Hall. now apply Hall.
    + constructor; [now constructor|].
      constructor; trivial.
      eapply Forall_impl; [|exact Hall]. cbn. intros; lra.
Qed.

Lemma sort_desc_sorted (l : list A) : Descending key (sort_desc key l).
Proof.
  induction l as [|x l IH]; cbn; [constructor | now apply insert_desc_sorted].
Qed.

Lemma insert_asc_perm (x : A) (l : list A) :
  Permutation (Retrieval.insert_asc key x l) (x :: l).
Proof.
  induction l as [|y l IH]; cbn; trivial.
  destruct (Qltb (key y) (key x)); trivial.
  rewrite IH. apply perm_swap.
Qed.

Lemma insert_asc_sorted (x : A) (l : list A) :
  Ascending key l -> Ascending key (Retrieval.insert_asc key x l).
Proof.
  induction 1 as [|y l Hs IH Hall]; cbn.
  - repeat constructor.
  - destruct (Qltb (key y) (key x)) eqn:E; q_bool.
    + constructor; trivial.
      apply Forall_forall. intros z Hz.
      apply (Permutation_in _ (insert_asc_perm x l)) in Hz.
      destruct Hz as [<-|Hz]; [lra|].
      rewrite Forall_forall in Hall. now apply Hall.
    + constructor; [now constructor|].
      constructor; trivial.
      eapply Forall_impl; [|exact Hall]. cbn. intros; lra.
Qed.

Lemma sorted_app (R : A -> A -> Prop) (l1 l2 : list A) :
  StronglySorted R l1 -> StronglySorted R l2 ->
  (forall a b, In a l1 -> In b l2 -> R a b) ->
  StronglySorted R (l1 ++ l2)%list.
Proof.
  induction 1 as [|x l1 Hs IH Hall]; intros H2 Hc; cbn; trivial.
  constructor.
  - apply IH; trivial. intros; apply Hc; trivial. now right.
  - apply Forall_app. split; trivial.
    apply Forall_forall. intros b Hb. apply Hc; trivial. now left.
Qed.

Lemma rev_ascending (l : list A) : Ascending key l -> Descending key (rev l).
Proof.
  induction 1 as [|x l Hs IH Hall]; cbn; [constructor|].
  apply sorted_app; trivial.
  - repeat constructor.
  - intros a b Ha [<-|[]]. apply in_rev in Ha.
    rewrite Forall_forall in Hall. now apply Hall.
Qed.

Lemma argsort_rev_sorted (l : list A) : Descending key (Retrieval.argsort_rev key l).
Proof.
  unfold Retrieval.argsort_rev. apply rev_ascending.
  induction l as [|x l IH]; cbn; [constructor | now apply insert_asc_sorted].
Qed.

Lemma in_firstn (n : nat) (l : list A) (y : A) : In y (firstn n l) -> In y l.
Proof.
  revert n. induction l as [|x l IH]; intros [|n]; cbn; try tauto.
  intros [->|H]; [now left | right; eauto].
Qed.

Lemma firstn_sorted (n : nat) (l : list A) : Descending key l -> Descending key (firstn n l).
Proof.
  intro H. revert n. induction H as [|x l Hs IH Hall]; intros [|n]; cbn;
    try (constructor; fail).
  constructor; [apply IH|].
  apply Forall_forall. intros y Hy. apply in_firstn in Hy.
  rewrite Forall_forall in Hall. now apply Hall.
Qed.

Lemma filter_sorted (f : A -> bool) (l : list A) :
  Descending key l -> Descending key (filter f l).
Proof.
  induction 1 as [|x l Hs IH Hall]; cbn; [constructor|].
  destruct (f x); trivial. constructor; trivial.
  apply Forall_forall. intros y Hy. apply filter_In in Hy.
  rewrite Forall_forall in Hall. now apply Hall.
Qed.

(** The head of a descending list has the highest score. *)
Lemma descending_head (x : A) (l : list A) :
  Descending key (x :: l) -> forall y, In y (x :: l) -> key y <= key x.
Proof.
  intros H y [<-|Hy]; [lra|].
  inversion H as [|? ? _ Hall]; subst.
  rewrite Forall_forall in Hall. now apply Hall.
Qed.

End Order.

End SortFacts.

(** ** Retrieval *)

Module RetrievalSpec.
Import Py PyFacts SortFacts Ingestion ClaimIntelligence Retrieval.

Section Search.
Variable Emb : Type.
Variable BM25 : Type.
Variable BM25Okapi : list (list string) -> BM25.
Variable get_scores : BM25 -> list string -> list Q.

Local Abbreviation Layer := (RetrievalLayer Emb BM25).
Local Abbreviation Index := (DocumentIndex Emb).

Local Abbreviation division_by_zero := (ZeroDivisionError "division by zero").

(** Building the index fails on chunks without a word, and otherwise sets
    the two index fields and nothing else. *)
Lemma build_bm25_index_outcome (self : Layer) (chunks : list IndexedChunk) :
  if wordless chunks
  then build_bm25_index Emb BM25 BM25Okapi self chunks = Raise division_by_zero
  else exists index,
         build_bm25_index Emb BM25 BM25Okapi self chunks
         = Return (mkRetrievalLayer Emb BM25 (embedding_model _ _ self)
                     (top_k _ _ self) (similarity_threshold _ _ self)
                     (vector_weight _ _ self) (keyword_weight _ _ self)
                     (Some index) (Some chunks)).
Proof.
  unfold build_bm25_index, new_BM25Okapi, wordless. cbv zeta.
  destruct (List.concat (tokenize chunks)); cbn [bind];
    [reflexivity | eexists; reflexivity].
Qed.

(** The index is built when none is cached. *)
Lemma ensure_bm25_index_outcome (self : Layer) (doc_index : Index) :
  if match _bm25_index _ _ self with None => true | Some _ => false end
     && wordless (chunks _ doc_index)
  then ensure_bm25_index Emb BM25 BM25Okapi self doc_index = Raise division_by_zero
  else exists self',
         ensure_bm25_index Emb BM25 BM25Okapi self doc_index = Return self'
         /\ similarity_threshold _ _ self' = similarity_threshold _ _ self
         /\ top_k _ _ self' = top_k _ _ self
         /\ _bm25_index _ _ self' <> None
         /\ (_bm25_index _ _ self <> None -> self' = self).
Proof.
  unfold ensure_bm25_index.
  destruct (_bm25_index _ _ self) as [index|] eqn:Ei; cbn [andb].
  - exists self. rewrite Ei. repeat split; discriminate.
  - pose proof (build_bm25_index_outcome self (chunks _ doc_index)) as Hb.
    destruct (wordless (chunks _ doc_index)); [exact Hb|].
    destruct Hb as (index & ->). eexists. split; [reflexivity|].
    cbn. repeat split; congruence.
Qed.

(** With no chunks passed in, [keyword_search] reads the cached index: it
    returns, and leaves the layer as it is. *)
Lemma keyword_search_cached (self : Layer) query k :
  exists results,
    keyword_search Emb BM25 BM25Okapi get_scores self query None k
    = Return (results, self)
    /\ Descending snd results.
Proof.
  unfold keyword_search. cbn [bind].
  destruct (_bm25_index _ _ self); [|eexists; split; [reflexivity | constructor]].
  destruct (_bm25_chunks _ _ self) as [[|c r]|];
    eexists; (split; [reflexivity|]); try constructor.
  apply filter_sorted, firstn_sorted, argsort_rev_sorted.
Qed.

Lemma search_sorted (doc_index : Index) (q : Emb) (k : nat) :
  Descending snd (faiss_index _ doc_index q k) ->
  Descending snd (search Emb doc_index q k).
Proof.
  unfold search. generalize (faiss_index _ doc_index q k) as l.
  induction 1 as [|[idx s] l Hs IH Hall]; cbn [flat_map]; [constructor|].
  assert (Hin : forall y,
             In y (flat_map
                     (fun '(idx, score) =>
                        if ((idx <? Z.of_nat (List.length (chunks _ doc_index)))
                            && (0 <=? idx))%Z
                        then match nth_error (chunks _ doc_index) (Z.to_nat idx) with
                             | Some chunk => [(chunk, score)]
                             | None => []
                             end
                        else []) l) -> snd y <= s).
  { intros y Hy. apply in_flat_map in Hy. destruct Hy as ([idx' s'] & Hin & Hy).
    rewrite Forall_forall in Hall. specialize (Hall _ Hin). cbn in Hall.
    destruct (_ && _)%bool; [|destruct Hy].
    destruct (nth_error _ _); [|destruct Hy].
    destruct Hy as [<-|[]]. exact Hall. }
  destruct (_ && _)%bool; cbn [app]; trivial.
  destruct (nth_error _ _); cbn [app]; trivial.
  constructor; trivial. apply Forall_forall. exact Hin.
Qed.

(** What a search comes to.  It raises exactly when it has to build the
    keyword index from chunks without a word.  Otherwise it hands back a
    ranked list (the keyword and hybrid searches sort their results
    themselves, the vector search passes on the order of FAISS, which
    returns nearest neighbours first) and a layer with the same threshold
    that will not have to build the index again. *)
Lemma run_search_outcome (self : Layer) query (doc_index : Index) method :
  if builds_wordless_index Emb BM25 self doc_index method
  then run_search Emb BM25 BM25Okapi get_scores self query doc_index method
       = Raise division_by_zero
  else exists results self',
         run_search Emb BM25 BM25Okapi get_scores self query doc_index method
         = Return (results, self')
         /\ similarity_threshold _ _ self' = similarity_threshold _ _ self
         /\ builds_wordless_index Emb BM25 self' doc_index method = false
         /\ ((method = "vector" ->
              forall q k, Descending snd (faiss_index _ doc_index q k)) ->
             Descending snd results).
Proof.
  unfold run_search, builds_wordless_index.
  destruct (String.eqb method "vector") eqn:Em; cbn [negb andb].
  - exists (vector_search Emb BM25 self query doc_index None), self.
    repeat split. intro Hfaiss. apply String.eqb_eq in Em.
    unfold vector_search. apply search_sorted, Hfaiss, Em.
  - pose proof (ensure_bm25_index_outcome self doc_index) as Hens.
    unfold hybrid_search.
    destruct (match _bm25_index _ _ self with None => true | Some _ => false end
              && wordless (chunks _ doc_index)).
    + destruct (String.eqb method "keyword"); rewrite Hens; reflexivity.
    + destruct Hens as (s1 & E1 & Ht1 & _ & Hi1 & _).
      assert (Hb : match _bm25_index _ _ s1 with None => true | Some _ => false end
                   && wordless (chunks _ doc_index) = false).
      { destruct (_bm25_index _ _ s1); [reflexivity | congruence]. }
      destruct (String.eqb method "keyword"); rewrite E1; cbn [bind].
      * destruct (keyword_search_cached s1 query None) as (results & E & Hs).
        exists results, s1. repeat split; trivial.
      * destruct (keyword_search_cached s1 query
                    (Some (or_nat None (top_k _ _ self) * 2)%nat))
          as (kr & E & _).
        rewrite E. cbn [bind]. eexists. exists s1.
        split; [reflexivity|]. split; [exact Ht1|]. split; [exact Hb|]. intros _.
        apply firstn_sorted, sort_desc_sorted.
Qed.

(** C7. [retrieve_evidence] keeps the search results that meet the
    similarity threshold; when there are results but none meets it, exactly
    the first, highest-scoring one is kept; when the search returned
    nothing, the result has an empty chunk list.  The keyword and hybrid
    searches rank their results themselves; for the vector search the
    ranking is that of FAISS, which returns nearest neighbours first.
    An error is raised in one case, and only there: no keyword index is
    cached, the method is not "vector" and the document index has no chunk,
    or only chunks without a word; [build_bm25_index] then hands a corpus
    without a word to [rank_bm25], whose constructor raises
    [ZeroDivisionError], where the claim has an empty chunk list and no
    error. *)
Theorem retrieve_evidence_threshold (self : Layer) (claim : Claim)
  (doc_index : Index) (method : string) :
  (method = "vector" -> forall q k, Descending snd (faiss_index _ doc_index q k)) ->
  if builds_wordless_index Emb BM25 self doc_index method
  then retrieve_evidence Emb BM25 BM25Okapi get_scores self claim doc_index method
       = Raise (ZeroDivisionError "division by zero")
  else exists results er self',
         run_search Emb BM25 BM25Okapi get_scores self (claim_text claim)
           doc_index method
         = Return (results, self')
         /\ retrieve_evidence Emb BM25 BM25Okapi get_scores self claim doc_index method
            = Return (er, self')
         /\ let kept :=
              filter (fun r => Qleb (similarity_threshold _ _ self) (snd r)) results in
            (kept <> [] ->
             evidence_chunks er = map fst kept /\ scores er = map snd kept)
            /\ (results <> [] -> kept = [] ->
                exists c s,
                  hd_error results = Some (c, s)
                  /\ evidence_chunks er = [c] /\ scores er = [s]
                  /\ forall c' s', In (c', s') results -> s' <= s)
            /\ (results = [] -> evidence_chunks er = [] /\ scores er = []).
Proof.
  intros Hfaiss.
  pose proof (run_search_outcome self (claim_text claim) doc_index method) as Hrun.
  unfold retrieve_evidence.
  destruct (builds_wordless_index Emb BM25 self doc_index method).
  - rewrite Hrun. reflexivity.
  - destruct Hrun as (results & self' & E & Hthr & _ & Hsorted).
    specialize (Hsorted Hfaiss). rewrite E. cbn [bind].
    exists results. eexists. exists self'.
    split; [reflexivity|]. split; [reflexivity|]. cbv zeta.
    unfold evidence_of_results. rewrite Hthr.
    set (kept := filter _ results).
    split; [|split].
    + intro Hk. destruct kept as [|k0 kept']; [congruence|]. cbn. split; reflexivity.
    + intros Hr Hk. rewrite Hk.
      destruct results as [|[c s] rest]; [congruence|].
      exists c, s. cbn. repeat split.
      intros c' s' Hin.
      apply (descending_head snd _ _ Hsorted (c', s') Hin).
    + intros ->. cbn. split; reflexivity.
Qed.

End Search.

(** *** Hybrid fusion *)

Lemma dict_get_set {V} (d : list (string * V)) (k : string) (v : V) (k' : string) :
  dict_get (dict_set d k v) k' = if String.eqb k k' then Some v else dict_get d k'.
Proof.
  induction d as [|[k0 w] d IH]; cbn; trivial.
  destruct (String.eqb k0 k) eqn:E0; cbn.
  - apply String.eqb_eq in E0. subst k0. destruct (String.eqb k k'); trivial.
  - rewrite IH. destruct (String.eqb k0 k') eqn:E1; trivial.
    destruct (String.eqb k k') eqn:E2; trivial.
    apply String.eqb_eq in E1, E2. subst. rewrite String.eqb_refl in E0. discriminate.
Qed.

Lemma dict_set_keys_ok (d : list (string * Combined)) (k : string) (v : Combined) :
  keys_ok d -> chunk_id (cb_chunk v) = k -> keys_ok (dict_set d k v).
Proof.
  intros Hd Hv. induction Hd as [|[k0 w] d H0 Hd IH]; cbn.
  - repeat constructor. exact Hv.
  - destruct (String.eqb k0 k) eqn:E; constructor; trivial.
    apply String.eqb_eq in E. cbn. congruence.
Qed.

Lemma dict_get_keys_ok (d : list (string * Combined)) (k : string) (data : Combined) :
  keys_ok d -> dict_get d k = Some data -> chunk_id (cb_chunk data) = k.
Proof.
  induction 1 as [|[k0 w] d H0 Hd IH]; cbn; [discriminate|].
  destruct (String.eqb k0 k) eqn:E; trivial.
  intros [= <-]. apply String.eqb_eq in E. cbn in H0. congruence.
Qed.

Lemma fused_score_get (f : Combined -> Q) (d : list (string * Combined)) (cid : string) :
  keys_ok d ->
  fused_score cid (map (fun '(_, data) => (cb_chunk data, f data)) d)
  = option_map f (dict_get d cid).
Proof.
  unfold fused_score. induction 1 as [|[k0 w] d H0 Hd IH]; cbn; trivial.
  cbn in H0. rewrite H0. destruct (String.eqb k0 cid); trivial.
Qed.

Lemma process_vector_fold vr d :
  process_vector vr d = fold_left (vstep (max_score vr)) vr d.
Proof. reflexivity. Qed.

Lemma process_keyword_fold kr d :
  process_keyword kr d = fold_left (kstep (max_score kr)) kr d.
Proof. reflexivity. Qed.

Lemma vstep_keys_ok M l d : keys_ok d -> keys_ok (fold_left (vstep M) l d).
Proof.
  intro H. apply (fold_left_inv keys_ok); trivial.
  intros a [c s] Ha. now apply dict_set_keys_ok.
Qed.

Lemma kstep_keys_ok M l d : keys_ok d -> keys_ok (fold_left (kstep M) l d).
Proof.
  intro H. apply (fold_left_inv keys_ok); trivial.
  intros a [c s] Ha. unfold kstep.
  destruct (dict_get a (chunk_id c)) as [data|] eqn:E;
    apply dict_set_keys_ok; trivial.
  cbn. now apply (dict_get_keys_ok a).
Qed.

Lemma vstep_get_other M l d k :
  (forall r, In r l -> chunk_id (fst r) <> k) ->
  dict_get (fold_left (vstep M) l d) k = dict_get d k.
Proof.
  revert d. induction l as [|[c s] l IH]; intros d H; cbn [fold_left]; trivial.
  rewrite IH by (intros; apply H; now right).
  unfold vstep. rewrite dict_get_set.
  destruct (String.eqb (chunk_id c) k) eqn:E; trivial.
  apply String.eqb_eq in E. exfalso. apply (H (c, s)); [now left | exact E].
Qed.

(** After the vector loop, a chunk that occurs once holds its own
    normalized score and no keyword score. *)
Lemma vstep_get M pre c s post d :
  NoDup (map (fun r => chunk_id (fst r)) (pre ++ (c, s) :: post)) ->
  dict_get (fold_left (vstep M) (pre ++ (c, s) :: post) d) (chunk_id c)
  = Some (mkCombined c (normalize s M) 0).
Proof.
  intro Hnd. rewrite fold_left_app. cbn [fold_left].
  rewrite vstep_get_other.
  - unfold vstep. rewrite dict_get_set, String.eqb_refl. reflexivity.
  - intros r Hr Heq. rewrite map_app in Hnd. cbn [map fst] in Hnd.
    apply NoDup_remove_2 in Hnd. apply Hnd, in_or_app. right.
    rewrite <- Heq. apply (in_map (fun r => chunk_id (fst r))), Hr.
Qed.

(** The keyword loop never touches the chunk or the vector score of an
    entry that is already there. *)
Lemma kstep_get M k l d data :
  dict_get d k = Some data ->
  dict_get (fold_left (kstep M) l d) k
  = Some (mkCombined (cb_chunk data) (vector_score data)
            (kw_of M k l (keyword_score data))).
Proof.
  revert d data. induction l as [|[c s] l IH]; intros d data Hd; cbn [fold_left].
  - cbn. rewrite Hd. now destruct data.
  - unfold kw_of. cbn [fold_left fst snd].
    destruct (String.eqb (chunk_id c) k) eqn:E.
    + apply String.eqb_eq in E. subst k.
      rewrite (IH _ (mkCombined (cb_chunk data) (vector_score data) (normalize s M))).
      * reflexivity.
      * unfold kstep. rewrite Hd, dict_get_set, String.eqb_refl. reflexivity.
    + rewrite (IH _ data); [reflexivity|].
      unfold kstep. destruct (dict_get d (chunk_id c));
        rewrite dict_get_set, E; exact Hd.
Qed.

Lemma fold_max_ge (l : list Q) (a : Q) :
  a <= fold_left max l a /\ forall x, In x l -> x <= fold_left max l a.
Proof.
  revert a. induction l as [|y l IH]; intro a; cbn.
  - split; [lra | tauto].
  - destruct (IH (max a y)) as [H1 H2].
    destruct (max_cases a y) as [[Hlt Hm]|[Hle Hm]]; rewrite Hm in *.
    + split; [lra|]. intros x [<-|Hx]; [exact H1 | now apply H2].
    + split; [exact H1|]. intros x [<-|Hx]; [lra | now apply H2].
Qed.

Lemma fold_max_in (l : list Q) (a : Q) :
  fold_left max l a = a \/ In (fold_left max l a) l.
Proof.
  revert a. induction l as [|y l IH]; intro a; cbn; [now left|].
  destruct (IH (max a y)) as [H|H]; [|right; now right].
  rewrite H. destruct (max_cases a y) as [[_ ->]|[_ ->]]; [right; now left | now left].
Qed.

Lemma max_score_spec (vr : list (IndexedChunk * Q)) :
  vr <> [] ->
  In (max_score vr) (map snd vr) /\ forall s, In s (map snd vr) -> s <= max_score vr.
Proof.
  destruct vr as [|[c0 s0] vr]; [congruence|]. intros _.
  unfold max_score. cbn [map snd max_list].
  destruct (fold_max_ge (map snd vr) s0) as [H1 H2].
  split.
  - destruct (fold_max_in (map snd vr) s0) as [->|H]; [now left | now right].
  - intros s [<-|Hs]; [exact H1 | now apply H2].
Qed.

(** Dividing by the maximum: raising one score cannot lower its share. *)
Lemma normalize_mono (v v' M M' : Q) :
  0 <= v -> v <= v' -> v <= M -> v' <= M' -> M <= M' ->
  (M' <= M \/ M' <= v') ->
  normalize v M <= normalize v' M'.
Proof.
  intros H0 Hv HM HM' HMM Hc. unfold normalize.
  destruct (Qltb 0 M) eqn:E; q_bool.
  - assert (Qltb 0 M' = true) as -> by (apply Qltb_lt; lra).
    apply Qle_shift_div_r; trivial.
    assert (Hx : v' / M' * M' == v') by (field; lra).
    assert (Hx0 : 0 <= v' / M') by (apply Qle_shift_div_l; lra).
    set (x := v' / M') in *.
    destruct Hc as [Hc|Hc].
    + assert (M' == M) by lra. nra.
    + assert (1 <= x) by nra. nra.
  - destruct (Qltb 0 M') eqn:E'; q_bool; [|lra].
    apply Qle_shift_div_l; lra.
Qed.

(** C6. Hybrid fusion is monotonic in the vector signal: with non-negative
    raw vector scores over distinct chunks (and a vector weight that is not
    negative), raising the raw vector score of one chunk, every other
    vector score and all keyword scores staying as they are, never lowers
    that chunk's fused score
    [vector_weight * vector_score + keyword_weight * keyword_score]. *)
Theorem hybrid_fusion_monotone (vector_weight keyword_weight : Q)
  (before after : list (IndexedChunk * Q)) (c : IndexedChunk) (v v' : Q)
  (keyword_results : list (IndexedChunk * Q)) :
  0 <= vector_weight ->
  NoDup (map (fun r => chunk_id (fst r)) (before ++ (c, v) :: after)) ->
  (forall r, In r (before ++ (c, v) :: after) -> 0 <= snd r) ->
  v <= v' ->
  exists s s',
    fused_score (chunk_id c)
      (fuse vector_weight keyword_weight (before ++ (c, v) :: after) keyword_results)
    = Some s
    /\ fused_score (chunk_id c)
         (fuse vector_weight keyword_weight (before ++ (c, v') :: after) keyword_results)
       = Some s'
    /\ s <= s'.
Proof.
  intros Hw Hnd Hpos Hv.
  set (vr := (before ++ (c, v) :: after)%list) in *.
  set (vr' := (before ++ (c, v') :: after)%list).
  assert (Hnd' : NoDup (map (fun r => chunk_id (fst r)) vr')).
  { unfold vr', vr in *. rewrite map_app in *. exact Hnd. }
  assert (G : forall l x,
             l = (before ++ (c, x) :: after)%list ->
             NoDup (map (fun r => chunk_id (fst r)) l) ->
             keys_ok (process_keyword keyword_results (process_vector l []))
             /\ dict_get (process_keyword keyword_results (process_vector l []))
                  (chunk_id c)
                = Some (mkCombined c (normalize x (max_score l))
                          (kw_of (max_score keyword_results) (chunk_id c)
                             keyword_results 0))).
  { intros l x El Hn. rewrite process_vector_fold, process_keyword_fold. split.
    - apply kstep_keys_ok, vstep_keys_ok. constructor.
    - subst l.
      rewrite (kstep_get _ _ _ _ _ (vstep_get _ before c x after [] Hn)).
      reflexivity. }
  destruct (G vr v eq_refl Hnd) as [Hk Hg].
  destruct (G vr' v' eq_refl Hnd') as [Hk' Hg'].
  unfold fuse. rewrite !fused_score_get by trivial. rewrite Hg, Hg'.
  cbn [option_map cb_chunk vector_score keyword_score].
  eexists _, _. split; [reflexivity|]. split; [reflexivity|].
  set (K := kw_of _ _ _ _).
  assert (Hn : normalize v (max_score vr) <= normalize v' (max_score vr')).
  { destruct (max_score_spec vr) as [Hin Hmax]; [unfold vr; now destruct before|].
    destruct (max_score_spec vr') as [Hin' Hmax']; [unfold vr'; now destruct before|].
    assert (Hv0 : 0 <= v).
    { apply (Hpos (c, v)). unfold vr. apply in_or_app. right. now left. }
    assert (HvM : v <= max_score vr).
    { apply Hmax. unfold vr. rewrite map_app. apply in_or_app. right. now left. }
    assert (HvM' : v' <= max_score vr').
    { apply Hmax'. unfold vr'. rewrite map_app. apply in_or_app. right. now left. }
    assert (Hothers : forall s, In s (map snd before) \/ In s (map snd after) ->
                                s <= max_score vr /\ s <= max_score vr').
    { intros s Hs. split; [apply Hmax | apply Hmax'];
        unfold vr, vr'; rewrite map_app; apply in_or_app;
        (destruct Hs; [now left | right; now right]). }
    assert (Hdec : forall x l s,
               l = (before ++ (c, x) :: after)%list -> In s (map snd l) ->
               In s (map snd before) \/ s = x \/ In s (map snd after)).
    { intros x l s -> Hs. rewrite map_app in Hs. apply in_app_or in Hs.
      destruct Hs as [Hs|[Hs|Hs]]; auto. }
    apply normalize_mono; trivial.
    - destruct (Hdec v vr _ eq_refl Hin) as [H|[H|H]].
      + apply Hothers. now left.
      + rewrite H. lra.
      + apply Hothers. now right.
    - destruct (Hdec v' vr' _ eq_refl Hin') as [H|[H|H]].
      + left. apply Hothers. now left.
      + right. rewrite H. lra.
      + left. apply Hothers. now right. }
  nra.
Qed.

(** *** Entity rerank *)

(** What [rerank_by_entity_match] does to the scores: each chunk gets its
    old score plus 0.1 for every distinct lowercased entity text found in
    its lowercased content, capped at 1, and the pairs are sorted by the new
    score, highest first. *)
Lemma rerank_rescores_and_sorts (claim : Claim) (evidence_result : EvidenceResult) :
  entities claim <> [] -> evidence_chunks evidence_result <> [] ->
  let r := rerank_by_entity_match claim evidence_result in
  let rescored :=
    map (fun p => (fst p, rerank_score (claim_entity_set claim) (fst p) (snd p)))
        (combine (evidence_chunks evidence_result) (scores evidence_result)) in
  evidence_chunks r = map fst (sort_desc snd rescored)
  /\ scores r = map snd (sort_desc snd rescored)
  /\ Descending snd (sort_desc snd rescored)
  /\ Permutation (sort_desc snd rescored) rescored.
Proof.
  intros He Hc. cbv zeta. unfold rerank_by_entity_match.
  destruct (entities claim) as [|e es]; [congruence|].
  destruct (evidence_chunks evidence_result) as [|c cs]; [congruence|].
  assert (Hmap :
            map (fun '(chunk, base_score) =>
                   (chunk, rerank_score (claim_entity_set claim) chunk base_score))
                (combine (c :: cs) (scores evidence_result))
            = map (fun p => (fst p,
                             rerank_score (claim_entity_set claim) (fst p) (snd p)))
                  (combine (c :: cs) (scores evidence_result))).
  { apply map_ext. now intros [a b]. }
  rewrite Hmap. cbn [evidence_chunks Retrieval.scores].
  repeat split.
  - apply sort_desc_sorted.
  - apply sort_desc_perm.
Qed.

Lemma rerank_score_capped (es : list string) (chunk : IndexedChunk) (base : Q) :
  rerank_score es chunk base <= 1
  /\ (base <= 1 -> base <= rerank_score es chunk base).
Proof.
  unfold rerank_score.
  set (n := List.length _).
  assert (0 <= inject_Z (Z.of_nat n)).
  { change 0 with (inject_Z 0). rewrite <- Zle_Qle. lia. }
  destruct (min_cases (base + inject_Z (Z.of_nat n) * (1 # 10)) 1) as [[? ->]|[? ->]];
    split; intros; lra.
Qed.

End RetrievalSpec.

(** ** A rerank that changes the top chunk *)

Module RerankExample.
Import Ingestion ClaimIntelligence Retrieval Examples.

(** C4, at this input.  The entity bonus lifts [chunk_b] (0.45 + 0.1) above
    [chunk_a] (0.5): the returned result lists [chunk_b] first and takes
    [top_evidence] from it, yet its citation is still built from the chunk
    that was on top before the rerank ("a.txt"), not from its own top chunk
    ("b.txt"). *)
Theorem rerank_citation_names_old_top_chunk :
  let r := rerank_by_entity_match paris_claim retrieved in
  evidence_chunks r = [chunk_b; chunk_a]
  /\ scores r = [(45 # 100) + 1 * (1 # 10); (5 # 10) + 0 * (1 # 10)]
  /\ top_evidence r = Some (content chunk_b)
  /\ citation r = Some "a.txt"
  /\ get_citation_string r = "b.txt"
  /\ citation r <> Some (get_citation_string r).
Proof.
  cbv zeta. vm_compute. repeat split. discriminate.
Qed.

End RerankExample.

(** ** Drift mitigation *)

Module DriftSpec.
Import Py PyFacts Constants Verification Drift.

Lemma _calculate_penalty_above (self : DriftMitigationLayer) (d : Q) :
  variance_threshold self < d ->
  _calculate_penalty self d
  = min ((d - variance_threshold self) * confidence_penalty self * 5) (5 # 10).
Proof.
  intro H. unfold _calculate_penalty.
  assert (Qleb d (variance_threshold self) = false) as ->; trivial.
  apply Qleb_gt. exact H.
Qed.

Lemma _calculate_penalty_range (self : DriftMitigationLayer) (d : Q) :
  0 <= confidence_penalty self ->
  0 <= _calculate_penalty self d <= 5 # 10.
Proof.
  intro Hf. unfold _calculate_penalty.
  destruct (Qleb d (variance_threshold self)) eqn:E; q_bool; [lra|].
  destruct (min_cases ((d - variance_threshold self) * confidence_penalty self * 5)
              (5 # 10)) as [[? ->]|[? ->]]; split; try lra; nra.
Qed.

Section Layer.
Variable similarity : string -> string -> Q.
Variable fmt : Q -> string.

Lemma adjust_nth (self : DriftMitigationLayer) (results : list VerificationResult)
  (drift_report : option DriftReport) (i : nat) :
  nth_error (adjust_verification_results similarity fmt self results drift_report) i
  = option_map (adjust_one similarity fmt self (effective_report self drift_report))
      (nth_error results i).
Proof.
  unfold adjust_verification_results. apply nth_error_map.
Qed.

(** C5. The drift penalty is 0 up to the variance threshold and
    [min((d - threshold) * confidence_penalty * 5, 0.5)] above it; with a
    positive penalty factor it is strictly increasing in [d] from the
    threshold on for as long as the linear term has not passed the 0.5 cap;
    and a result matched with an unstable drift entry gets the adjusted
    confidence [confidence * (1 - penalty)]. *)
Theorem drift_penalty_spec (self : DriftMitigationLayer) :
  let t := variance_threshold self in
  let f := confidence_penalty self in
  (forall d, d <= t -> _calculate_penalty self d = 0)
  /\ (forall d, t < d -> _calculate_penalty self d == Qmin ((d - t) * f * 5) (5 # 10))
  /\ (0 < f -> forall d1 d2,
        t <= d1 -> d1 < d2 -> (d2 - t) * f * 5 <= 5 # 10 ->
        _calculate_penalty self d1 < _calculate_penalty self d2)
  /\ (forall results drift_report i result cd,
        nth_error results i = Some result ->
        _find_claim_drift similarity (vr_claim_text result)
          (effective_report self drift_report) = Some cd ->
        is_stable cd = false ->
        exists a,
          nth_error
            (adjust_verification_results similarity fmt self results drift_report) i
          = Some a
          /\ drift_penalty a = _calculate_penalty self (drift_score cd)
          /\ adjusted_confidence a
             = confidence result * (1 - _calculate_penalty self (drift_score cd))).
Proof.
  cbv zeta. split; [|split; [|split]].
  - intros d Hd. unfold _calculate_penalty.
    assert (Qleb d (variance_threshold self) = true) as ->; trivial.
    apply Qleb_le. exact Hd.
  - intros d Hd. rewrite (_calculate_penalty_above _ _ Hd). apply min_Qmin.
  - intros Hf d1 d2 H1 H12 Hcap.
    rewrite (_calculate_penalty_above self d2) by lra.
    destruct (min_cases ((d2 - variance_threshold self) * confidence_penalty self * 5)
                (5 # 10)) as [[? ->]|[? ->]]; [lra|].
    unfold _calculate_penalty.
    destruct (Qleb d1 (variance_threshold self)) eqn:E; q_bool; [nra|].
    destruct (min_cases ((d1 - variance_threshold self) * confidence_penalty self * 5)
                (5 # 10)) as [[? ->]|[? ->]]; nra.
  - intros results drift_report i result cd Hi Hfind Hst.
    rewrite adjust_nth, Hi. cbn [option_map].
    eexists. split; [reflexivity|].
    unfold adjust_one. rewrite Hfind, Hst. cbn. split; reflexivity.
Qed.

(** C10. [adjust_verification_results] gives one [DriftAdjustedResult] per
    input result, in the same order, each wrapping its input unchanged; and
    (the penalty factor and the confidences not being negative) the adjusted
    confidence lies between half the original confidence and the original
    confidence. *)
Theorem adjust_verification_results_frame (self : DriftMitigationLayer)
  (results : list VerificationResult) (drift_report : option DriftReport) :
  0 <= confidence_penalty self ->
  (forall r, In r results -> 0 <= confidence r) ->
  let adjusted :=
    adjust_verification_results similarity fmt self results drift_report in
  List.length adjusted = List.length results
  /\ map original_result adjusted = results
  /\ forall a, In a adjusted ->
       confidence (original_result a) * (5 # 10) <= adjusted_confidence a
       /\ adjusted_confidence a <= confidence (original_result a).
Proof.
  intros Hf Hc. cbv zeta. unfold adjust_verification_results.
  set (report := effective_report self drift_report).
  split; [apply length_map|]. split.
  - rewrite map_map. rewrite <- (map_id results) at 2. apply map_ext.
    intro r. unfold adjust_one.
    destruct (_find_claim_drift _ _ _) as [cd|]; [destruct (is_stable cd)|];
      reflexivity.
  - intros a Ha. apply in_map_iff in Ha. destruct Ha as (r & <- & Hr).
    specialize (Hc r Hr). unfold adjust_one.
    destruct (_find_claim_drift _ _ _) as [cd|]; [destruct (is_stable cd)|];
      cbn; try lra.
    pose proof (_calculate_penalty_range self (drift_score cd) Hf). nra.
Qed.

End Layer.

End DriftSpec.

(** ** Scoring *)

Module ScoringSpec.
Import Py PyFacts Constants ClaimIntelligence Verification Drift Scoring Examples.

Lemma stats_fold (results : list VerificationResult) (s0 : CategoryStats) :
  let s :=
    fold_left
      (fun stats result =>
         match category result with
         | SUPPORTED =>
             mkCategoryStats (supported stats + 1) (contradicted stats)
               (unverifiable stats)
         | CONTRADICTED =>
             mkCategoryStats (supported stats) (contradicted stats + 1)
               (unverifiable stats)
         | UNVERIFIABLE =>
             mkCategoryStats (supported stats) (contradicted stats)
               (unverifiable stats + 1)
         end) results s0 in
  supported s = (supported s0 + count_category SUPPORTED results)%nat
  /\ contradicted s = (contradicted s0 + count_category CONTRADICTED results)%nat
  /\ unverifiable s = (unverifiable s0 + count_category UNVERIFIABLE results)%nat.
Proof.
  cbv zeta. revert s0. induction results as [|r results IH]; intro s0.
  - cbn. repeat split; lia.
  - cbn [fold_left]. unfold count_category in *. cbn [filter].
    destruct (category r); cbn [ClaimCategory_eqb List.length];
      match goal with
      | |- context [fold_left _ _ ?s] => destruct (IH s) as (H1 & H2 & H3)
      end; rewrite H1, H2, H3; cbn; repeat split; lia.
Qed.

Lemma count_total (results : list VerificationResult) :
  (count_category SUPPORTED results + count_category CONTRADICTED results
   + count_category UNVERIFIABLE results)%nat = List.length results.
Proof.
  unfold count_category. induction results as [|r results IH]; cbn; trivial.
  destruct (category r); cbn; lia.
Qed.

(** [_calculate_category_stats] counts each category; the total is the
    number of results. *)
Lemma _calculate_category_stats_counts (results : list VerificationResult) :
  let stats := _calculate_category_stats results in
  supported stats = count_category SUPPORTED results
  /\ contradicted stats = count_category CONTRADICTED results
  /\ unverifiable stats = count_category UNVERIFIABLE results
  /\ total stats = List.length results.
Proof.
  cbv zeta. unfold _calculate_category_stats, total.
  destruct (stats_fold results (mkCategoryStats 0 0 0)) as (H1 & H2 & H3).
  cbn in H1, H2, H3. rewrite H1, H2, H3. repeat split. apply count_total.
Qed.

Lemma level_of_calculate (self : ScoringLayer)
  (results : list VerificationResult)
  (drift : option (list DriftAdjustedResult)) (claims : option (list Claim)) :
  results <> [] ->
  level (calculate_trust_score self results drift claims)
  = _determine_trust_level (final_score self results drift claims)
      (_calculate_category_stats results).
Proof.
  intro Hne. unfold calculate_trust_score, final_score.
  destruct results as [|r rs]; [congruence|].
  destruct (components self (r :: rs) drift claims) as [[[sr ac] ds] ss].
  reflexivity.
Qed.

Lemma score_of_calculate (self : ScoringLayer)
  (results : list VerificationResult)
  (drift : option (list DriftAdjustedResult)) (claims : option (list Claim)) :
  results <> [] ->
  score (calculate_trust_score self results drift claims)
  = round1 (final_score self results drift claims).
Proof.
  intro Hne. unfold calculate_trust_score, final_score.
  destruct results as [|r rs]; [congruence|].
  destruct (components self (r :: rs) drift claims) as [[[sr ac] ds] ss].
  reflexivity.
Qed.

(** C1 (amended). For a non-empty list of results the level is: high if
    the final score (the value whose rounding to one decimal is the [score]
    field) is at least 80 and nothing is contradicted; otherwise medium if
    the score is at least 50; otherwise critical if the contradicted claims
    exceed 30% of all claims; otherwise low. *)
Theorem trust_level_priority (self : ScoringLayer)
  (results : list VerificationResult)
  (drift : option (list DriftAdjustedResult)) (claims : option (list Claim)) :
  results <> [] ->
  let ts := calculate_trust_score self results drift claims in
  let s := final_score self results drift claims in
  let contradicted := inject_Z (Z.of_nat (count_category CONTRADICTED results)) in
  let total := inject_Z (Z.of_nat (List.length results)) in
  score ts = round1 s
  /\ (80 <= s -> contradicted == 0 -> level ts = HIGH)
  /\ (~ (80 <= s /\ contradicted == 0) -> 50 <= s -> level ts = MEDIUM)
  /\ (s < 50 -> total * (3 # 10) < contradicted -> level ts = CRITICAL)
  /\ (s < 50 -> contradicted <= total * (3 # 10) -> level ts = LOW).
Proof.
  intro Hne. cbv zeta. split; [now apply score_of_calculate|].
  rewrite (level_of_calculate _ _ _ _ Hne).
  destruct (_calculate_category_stats_counts results) as (_ & Hc & _ & Ht).
  unfold _determine_trust_level. rewrite Hc, Ht.
  set (s := final_score self results drift claims).
  set (n := count_category CONTRADICTED results).
  assert (Hz : inject_Z (Z.of_nat n) == 0 <-> (n =? 0)%nat = true).
  { rewrite Nat.eqb_eq. split; intro H; [|now rewrite H].
    unfold Qeq in H. cbn in H. lia. }
  destruct (Qleb 80 s) eqn:E80; destruct (n =? 0)%nat eqn:En; cbn [andb];
    destruct (Qleb 50 s) eqn:E50;
    destruct (Qltb (inject_Z (Z.of_nat (List.length results)) * (3 # 10))
                (inject_Z (Z.of_nat n))) eqn:Ec;
    q_bool;
    repeat split; intros; trivial;
    try (exfalso; lra);
    try (exfalso; tauto);
    try (exfalso; assert (false = true) by tauto; discriminate).
Qed.

(** C1, as stated, fails: three supported and two contradicted results of
    confidence 0.8 under the default weights score 74; the level is not
    high and the contradicted claims are more than 30% of the five, so the
    stated priority asks for critical, but [calculate_trust_score] answers
    medium. *)
Lemma critical_does_not_precede_medium :
  let ts := calculate_trust_score default_layer five_results None None in
  let s := final_score default_layer five_results None None in
  s == 74
  /\ count_category CONTRADICTED five_results = 2%nat
  /\ level_by_spec_priority s 2 5 = CRITICAL
  /\ level ts = MEDIUM
  /\ level ts <> level_by_spec_priority s 2 5.
Proof.
  cbv zeta. repeat split; try (vm_compute; reflexivity).
  vm_compute. discriminate.
Qed.

End ScoringSpec.

(** ** The model on sample inputs *)

Module Scenarios.
Import Py Constants Ingestion ClaimIntelligence Retrieval Verification Examples.

(** The number pattern: a trailing dot is kept only before a word
    character, and a number glued to letters is not a number. *)
Example findall_decimal_before_letters : Re.findall_numbers "3.14abc" = ["3."].
Proof. reflexivity. Qed.

Example findall_units :
  Re.findall_numbers "324 meters vs 330m, 12.5.6 and 7." = ["324"; "12.5"; "6"; "7"].
Proof. reflexivity. Qed.

Example split_drops_blank_runs :
  split (" the  tower" ++ String "010" "is tall ") = ["the"; "tower"; "is"; "tall"].
Proof. reflexivity. Qed.

Example citation_with_location :
  get_citation_string
    (mkEvidenceResult "c" "t"
       [mkIndexedChunk "1" "x" [] "d" "doc.pdf" 0 0 1 (Some 3%Z)
          [("line_start", Some 10%Z); ("line_end", Some 12%Z)]]
       [1] "hybrid" None None)
  = "doc.pdf, Page 3, Lines 10-12".
Proof. reflexivity. Qed.

(** No entities, no numbers, entailment 0.9: rule (a), supported at 0.9. *)
Example plain_claim_supported :
  let claim := mkClaim "c3" "The tower is tall" "The tower is tall" 0 17 FACTUAL
                 [] true [] [] in
  let layer := mkVerificationLayer (constant_nli (9 # 10) (5 # 100) (5 # 100))
                 GENERAL DEFAULT_ENTITY_MATCH_THRESHOLD in
  let r := fst (verify_claim exact_ratio no_format layer claim tower_evidence) in
  category r = SUPPORTED /\ confidence r = 9 # 10
  /\ explanation r = "The claim is supported by the evidence.".
Proof. vm_compute. repeat split. Qed.

End Scenarios.

(** ** The properties at concrete inputs *)

Module Instances.
Import Py Constants Ingestion ClaimIntelligence Retrieval Verification Drift Scoring.
Import Examples.

(** Scoring: the five results of [Examples] are not empty, score 74 and are
    rated medium by the second rule. *)
Lemma trust_level_priority_witness :
  five_results <> []
  /\ level (calculate_trust_score default_layer five_results None None) = MEDIUM.
Proof.
  split; [discriminate|].
  destruct (ScoringSpec.trust_level_priority default_layer five_results None None)
    as (_ & _ & H & _); [discriminate|].
  apply H.
  - vm_compute. intros [H1 _]. apply H1. reflexivity.
  - vm_compute. discriminate.
Defined.

(** Verification: 324 against 330 with a classifier that sees no
    contradiction gives contradicted at 0.7. *)
Lemma numeric_mismatch_is_contradicted_witness :
  let r :=
    fst (verify_claim exact_ratio no_format neutral_layer tower_claim tower_evidence) in
  get_combined_evidence tower_evidence 3 <> ""
  /\ _check_numerical_consistency tower_claim (get_combined_evidence tower_evidence 3)
     < 5 # 10
  /\ category r = CONTRADICTED
  /\ confidence r == 7 # 10.
Proof.
  cbv zeta.
  assert (H1 : get_combined_evidence tower_evidence 3 <> "")
    by (vm_compute; discriminate).
  assert (H2 : _check_numerical_consistency tower_claim
                 (get_combined_evidence tower_evidence 3) < 5 # 10)
    by (vm_compute; reflexivity).
  destruct (VerificationSpec.numeric_mismatch_is_contradicted exact_ratio no_format
              neutral_layer tower_claim tower_evidence H1 H2) as (Hc & H07 & _).
  split; [exact H1|]. split; [exact H2|]. split; [exact Hc|]. apply H07.
  - vm_compute. discriminate.
  - vm_compute. intros [Hx _]. discriminate.
Defined.

(** C2, as stated, fails: on the same claim and evidence a classifier whose
    contradiction score is 0.9 makes rule (b) fire before the numeric rule,
    and the confidence is 0.9, not 0.7: it does depend on the NLI output. *)
Lemma numeric_mismatch_confidence_follows_nli :
  let r :=
    fst (verify_claim exact_ratio no_format contradicting_layer tower_claim
           tower_evidence) in
  get_combined_evidence tower_evidence 3 <> ""
  /\ _check_numerical_consistency tower_claim (get_combined_evidence tower_evidence 3)
     < 5 # 10
  /\ category r = CONTRADICTED
  /\ confidence r == 9 # 10
  /\ ~ confidence r == 7 # 10.
Proof.
  cbv zeta. repeat split; try (vm_compute; reflexivity); vm_compute; discriminate.
Qed.

Lemma verify_claim_without_evidence_witness :
  get_combined_evidence no_evidence 3 = ""
  /\ let (r, calls) :=
       verify_claim exact_ratio no_format neutral_layer tower_claim no_evidence in
     category r = UNVERIFIABLE
     /\ confidence r = 5 # 10
     /\ explanation r = "No evidence found"
     /\ calls = [].
Proof.
  split; [reflexivity|].
  apply (VerificationSpec.verify_claim_without_evidence exact_ratio no_format
           neutral_layer tower_claim no_evidence).
  reflexivity.
Defined.

Lemma verify_claim_category_and_confidence_witness :
  let r :=
    fst (verify_claim exact_ratio no_format neutral_layer tower_claim tower_evidence) in
  (category r = SUPPORTED \/ category r = CONTRADICTED \/ category r = UNVERIFIABLE)
  /\ 0 <= confidence r <= 1.
Proof.
  apply (VerificationSpec.verify_claim_category_and_confidence exact_ratio no_format).
  - intros a b. unfold exact_ratio.
    destruct (String.eqb a b); split; vm_compute; discriminate.
  - intros c es a. vm_compute. repeat split; discriminate.
  - intros e [<-|[]]. vm_compute. discriminate.
Defined.

Lemma verify_claims_batch_spec_witness :
  verify_claims_batch exact_ratio no_format neutral_layer [tower_claim] []
  = (Raise (ValueError "Claims and evidences must have same length"), [])
  /\ exists results calls,
       verify_claims_batch exact_ratio no_format neutral_layer
         [tower_claim] [tower_evidence] = (Return results, calls)
       /\ List.length results = 1%nat.
Proof.
  split.
  - apply (proj1 (VerificationSpec.verify_claims_batch_spec exact_ratio no_format
                    neutral_layer [tower_claim] [])).
    cbn. discriminate.
  - destruct (proj2 (VerificationSpec.verify_claims_batch_spec exact_ratio no_format
                       neutral_layer [tower_claim] [tower_evidence]) eq_refl)
      as (rs & calls & Heq & Hlen & _).
    exists rs, calls. split; trivial.
Defined.

(** Drift: with the default threshold 0.2 and factor 0.1. *)
Lemma drift_penalty_spec_witness :
  _calculate_penalty default_drift (1 # 10) = 0
  /\ _calculate_penalty default_drift (6 # 10)
     == Qmin (((6 # 10) - (2 # 10)) * (1 # 10) * 5) (5 # 10)
  /\ _calculate_penalty default_drift (3 # 10) < _calculate_penalty default_drift (6 # 10)
  /\ exists a,
       nth_error
         (adjust_verification_results no_similarity no_format default_drift
            five_results (Some unstable_report)) 3 = Some a
       /\ adjusted_confidence a
          = (8 # 10) * (1 - _calculate_penalty default_drift (6 # 10)).
Proof.
  destruct (DriftSpec.drift_penalty_spec no_similarity no_format default_drift)
    as (H1 & H2 & H3 & H4).
  split; [apply H1; vm_compute; discriminate|].
  split; [apply (H2 (6 # 10)); vm_compute; reflexivity|].
  split.
  { apply H3; vm_compute; try reflexivity; discriminate. }
  destruct (H4 five_results (Some unstable_report) 3%nat
              (result_of "3" CONTRADICTED) (mkClaimDrift "Claim 3" (6 # 10) false))
    as (a & Ha & _ & Hadj); try reflexivity.
  exists a. split; [exact Ha | exact Hadj].
Defined.

Lemma adjust_verification_results_frame_witness :
  let adjusted :=
    adjust_verification_results no_similarity no_format default_drift five_results
      (Some unstable_report) in
  List.length adjusted = List.length five_results
  /\ map original_result adjusted = five_results
  /\ forall a, In a adjusted ->
       confidence (original_result a) * (5 # 10) <= adjusted_confidence a
       /\ adjusted_confidence a <= confidence (original_result a).
Proof.
  apply (DriftSpec.adjust_verification_results_frame no_similarity no_format
           default_drift five_results (Some unstable_report)).
  - vm_compute. discriminate.
  - intros r Hr.
    repeat (destruct Hr as [<-|Hr]; [vm_compute; discriminate|]).
    destruct Hr.
Defined.

(** Retrieval: raising [chunk_a]'s vector score from 0.2 to 0.3 next to
    [chunk_b] at 0.4. *)
Lemma hybrid_fusion_monotone_witness :
  exists s s',
    fused_score "1"
      (fuse (6 # 10) (4 # 10) [(chunk_a, 2 # 10); (chunk_b, 4 # 10)] [(chunk_b, 3)])
    = Some s
    /\ fused_score "1"
         (fuse (6 # 10) (4 # 10) [(chunk_a, 3 # 10); (chunk_b, 4 # 10)] [(chunk_b, 3)])
       = Some s'
    /\ s <= s'.
Proof.
  apply (RetrievalSpec.hybrid_fusion_monotone (6 # 10) (4 # 10) []
           [(chunk_b, 4 # 10)] chunk_a (2 # 10) (3 # 10) [(chunk_b, 3)]).
  - vm_compute. discriminate.
  - cbn. repeat constructor; cbn; intuition discriminate.
  - intros r [<-|[<-|[]]]; vm_compute; discriminate.
  - vm_compute. discriminate.
Defined.

(** With the default threshold 0.5 the vector search over
    [two_chunk_index] finds two chunks, both below the threshold: the
    first is kept.  Over [empty_index] the vector search finds nothing and
    nothing is kept, while the hybrid search of a layer that has no keyword
    index yet raises. *)
Lemma retrieve_evidence_threshold_witness :
  (exists er self',
     retrieve_evidence unit (list (list string)) (fun c => c) word_overlap
       default_retrieval paris_claim two_chunk_index "vector"
     = Return (er, self')
     /\ evidence_chunks er = [chunk_a])
  /\ (exists er self',
        retrieve_evidence unit (list (list string)) (fun c => c) word_overlap
          default_retrieval paris_claim empty_index "vector"
        = Return (er, self')
        /\ evidence_chunks er = [])
  /\ retrieve_evidence unit (list (list string)) (fun c => c) word_overlap
       default_retrieval paris_claim empty_index "hybrid"
     = Raise (ZeroDivisionError "division by zero").
Proof.
  split; [|split].
  - pose proof (RetrievalSpec.retrieve_evidence_threshold unit (list (list string))
                  (fun c => c) word_overlap default_retrieval paris_claim
                  two_chunk_index "vector") as H.
    assert (Hb : builds_wordless_index unit (list (list string)) default_retrieval
                   two_chunk_index "vector" = false) by reflexivity.
    rewrite Hb in H.
    destruct H as (results & er & self' & Erun & Eret & _ & H2 & _).
    { intros _ q k. apply SortFacts.firstn_sorted.
      repeat constructor; vm_compute; discriminate. }
    exists er, self'. split; [exact Eret|].
    vm_compute in Erun. injection Erun as Hr _. subst results.
    destruct H2 as (c & s & Hhd & Hc & _).
    { discriminate. }
    { reflexivity. }
    vm_compute in Hhd. injection Hhd as Hc' _. rewrite Hc, <- Hc'. reflexivity.
  - pose proof (RetrievalSpec.retrieve_evidence_threshold unit (list (list string))
                  (fun c => c) word_overlap default_retrieval paris_claim
                  empty_index "vector") as H.
    assert (Hb : builds_wordless_index unit (list (list string)) default_retrieval
                   empty_index "vector" = false) by reflexivity.
    rewrite Hb in H.
    destruct H as (results & er & self' & Erun & Eret & _ & _ & H3).
    { intros _ q k. constructor. }
    exists er, self'. split; [exact Eret|].
    vm_compute in Erun. injection Erun as Hr _. subst results.
    apply H3. reflexivity.
  - pose proof (RetrievalSpec.retrieve_evidence_threshold unit (list (list string))
                  (fun c => c) word_overlap default_retrieval paris_claim
                  empty_index "hybrid") as H.
    assert (Hb : builds_wordless_index unit (list (list string)) default_retrieval
                   empty_index "hybrid" = true) by reflexivity.
    rewrite Hb in H. apply H. discriminate.
Defined.

End Instances.

(** * Further properties of the layers *)

Module ListFacts.

(** An invariant carried through a loop, the step being taken only at
    elements of the list. *)
Lemma fold_left_inv_in {A B} (P : A -> Prop) (f : A -> B -> A) (l : list B) (a : A) :
  P a -> (forall a b, In b l -> P a -> P (f a b)) -> P (fold_left f l a).
Proof.
  revert a. induction l as [|b l IH]; intros a Ha Hf; cbn; trivial.
  apply IH.
  - apply Hf; [now left | exact Ha].
  - intros a' b' Hb'. apply Hf. now right.
Qed.

Lemma NoDup_firstn {A} (n : nat) (l : list A) : NoDup l -> NoDup (firstn n l).
Proof.
  intro H. revert n. induction H as [|x l Hx Hl IH]; intros [|n]; cbn;
    try constructor.
  - intro Hin. apply Hx. revert Hin. apply (SortFacts.in_firstn (fun _ => 0)).
  - apply IH.
Qed.

Lemma div_nat_unit (a b : nat) : (a <= b)%nat -> (0 < b)%nat ->
  0 <= Py.div_nat a b <= 1.
Proof.
  intros Hab Hb. unfold Py.div_nat.
  assert (H0 : 0 <= inject_Z (Z.of_nat a)).
  { change 0 with (inject_Z 0). rewrite <- Zle_Qle. lia. }
  assert (H1 : inject_Z (Z.of_nat a) <= inject_Z (Z.of_nat b)).
  { rewrite <- Zle_Qle. lia. }
  assert (H2 : 0 < inject_Z (Z.of_nat b)).
  { change 0 with (inject_Z 0). rewrite <- Zlt_Qlt. lia. }
  split.
  - apply Qle_shift_div_l; trivial; lra.
  - apply Qle_shift_div_r; trivial; lra.
Qed.

Lemma div_nat_self (a : nat) : (0 < a)%nat -> Py.div_nat a a == 1.
Proof.
  intro Ha. unfold Py.div_nat. field.
  intro H. unfold Qeq in H. cbn in H. lia.
Qed.

(** What [find] returns is the first element that passes the test. *)
Lemma find_first {A} (f : A -> bool) (l : list A) (x : A) :
  find f l = Some x ->
  exists before after,
    l = app before (x :: after)
    /\ f x = true /\ Forall (fun y => f y = false) before.
Proof.
  induction l as [|y l IH]; cbn [find]; [discriminate|].
  destruct (f y) eqn:Ey.
  - intro E. injection E as <-. exists [], l. repeat split; trivial.
  - intro E. destruct (IH E) as (before & after & -> & Hx & Hb).
    exists (y :: before), after. repeat split; trivial. now constructor.
Qed.

End ListFacts.

Module RetrievalMore.
Import Py PyFacts SortFacts ListFacts Ingestion ClaimIntelligence Retrieval.
Import RetrievalBatch.

Lemma dict_set_Forall {V} (P : string * V -> Prop) (d : list (string * V))
  (k : string) (v : V) :
  Forall P d -> P (k, v) -> Forall P (dict_set d k v).
Proof.
  intros Hd Hv. induction Hd as [|[k0 w] d H0 Hd IH]; cbn.
  - repeat constructor. exact Hv.
  - destruct (String.eqb k0 k) eqn:E; constructor; trivial.
    apply String.eqb_eq in E. now subst k0.
Qed.

Lemma dict_get_In {V} (d : list (string * V)) (k : string) (v : V) :
  dict_get d k = Some v -> In (k, v) d.
Proof.
  induction d as [|[k0 w] d IH]; cbn; [discriminate|].
  destruct (String.eqb k0 k) eqn:E.
  - intros [= <-]. apply String.eqb_eq in E. subst. now left.
  - intro H. right. now apply IH.
Qed.

Lemma dict_set_keys {V} (d : list (string * V)) (k : string) (v : V) (x : string) :
  In x (map fst (dict_set d k v)) -> x = k \/ In x (map fst d).
Proof.
  induction d as [|[k0 w] d IH]; cbn.
  - intros [<-|[]]. now left.
  - destruct (String.eqb k0 k); cbn; intros [<-|H]; auto.
    destruct (IH H); auto.
Qed.

Lemma dict_set_NoDup {V} (d : list (string * V)) (k : string) (v : V) :
  NoDup (map fst d) -> NoDup (map fst (dict_set d k v)).
Proof.
  induction d as [|[k0 w] d IH]; cbn; intro H.
  - repeat constructor. intros [].
  - inversion H as [|? ? Hk0 Hd]; subst.
    destruct (String.eqb k0 k) eqn:E; cbn; [exact H|].
    constructor; [|now apply IH].
    intro Hin. apply dict_set_keys in Hin. destruct Hin as [->|Hin]; [|contradiction].
    rewrite String.eqb_refl in E. discriminate.
Qed.

Lemma normalize_unit (s M : Q) : 0 <= s -> s <= M -> 0 <= normalize s M <= 1.
Proof.
  intros H0 HM. unfold normalize. destruct (Qltb 0 M) eqn:E; q_bool; [|lra].
  split.
  - apply Qle_shift_div_l; trivial; lra.
  - apply Qle_shift_div_r; trivial; lra.
Qed.

(** The keys of [combined] and the chunk ids of the fused list. *)
Lemma fuse_ids (vector_weight keyword_weight : Q)
  (vector_results keyword_results : list (IndexedChunk * Q)) :
  NoDup (map (fun r => chunk_id (fst r))
           (fuse vector_weight keyword_weight vector_results keyword_results)).
Proof.
  unfold fuse, process_vector, process_keyword.
  set (d := fold_left (kstep _) keyword_results _).
  assert (Hk : keys_ok d).
  { apply RetrievalSpec.kstep_keys_ok, RetrievalSpec.vstep_keys_ok. constructor. }
  assert (Hn : NoDup (map fst d)).
  { unfold d. apply (fold_left_inv (fun d => NoDup (map fst d))).
    - apply (fold_left_inv (fun d => NoDup (map fst d))); [constructor|].
      intros a [c s] Ha. now apply dict_set_NoDup.
    - intros a [c s] Ha. unfold kstep.
      destruct (dict_get a (chunk_id c)); now apply dict_set_NoDup. }
  rewrite map_map.
  assert (Heq : map (fun x : string * Combined =>
                       chunk_id (fst (let '(_, data) := x in
                                      (cb_chunk data,
                                       vector_weight * vector_score data
                                       + keyword_weight * keyword_score data)))) d
                = map fst d).
  { clear Hn. induction Hk as [|[k data] d' H0 Hd IH]; cbn; trivial.
    cbn in H0. now rewrite H0, IH. }
  rewrite Heq. exact Hn.
Qed.

(** X3. Every fused score of [hybrid_search] lies between 0 and
    [vector_weight + keyword_weight], the raw scores and the weights not
    being negative. *)
Theorem fused_scores_bounded (vector_weight keyword_weight : Q)
  (vector_results keyword_results : list (IndexedChunk * Q)) :
  0 <= vector_weight -> 0 <= keyword_weight ->
  Forall (fun r => 0 <= snd r) vector_results ->
  Forall (fun r => 0 <= snd r) keyword_results ->
  Forall (fun r => 0 <= snd r <= vector_weight + keyword_weight)
    (fuse vector_weight keyword_weight vector_results keyword_results).
Proof.
  intros Hvw Hkw Hv Hk.
  set (unit_entry := fun kv : string * Combined =>
                       (0 <= vector_score (snd kv) <= 1)
                       /\ (0 <= keyword_score (snd kv) <= 1)).
  assert (Hd : Forall unit_entry
                 (process_keyword keyword_results (process_vector vector_results []))).
  { unfold process_keyword, process_vector.
    apply fold_left_inv_in.
    - apply fold_left_inv_in; [constructor|].
      intros a [c s] Hin Ha. unfold vstep. apply dict_set_Forall; trivial.
      rewrite Forall_forall in Hv. specialize (Hv _ Hin). cbn in Hv.
      destruct (RetrievalSpec.max_score_spec vector_results) as [_ Hmax].
      { intro E. now rewrite E in Hin. }
      assert (s <= max_score vector_results).
      { apply Hmax. apply (in_map snd) in Hin. exact Hin. }
      split; cbn; [now apply normalize_unit | lra].
    - intros a [c s] Hin Ha. unfold kstep.
      rewrite Forall_forall in Hk. specialize (Hk _ Hin). cbn in Hk.
      destruct (RetrievalSpec.max_score_spec keyword_results) as [_ Hmax].
      { intro E. now rewrite E in Hin. }
      assert (s <= max_score keyword_results).
      { apply Hmax. apply (in_map snd) in Hin. exact Hin. }
      destruct (dict_get a (chunk_id c)) as [data|] eqn:E;
        apply dict_set_Forall; trivial.
      + apply dict_get_In in E. rewrite Forall_forall in Ha.
        destruct (Ha _ E) as [Hvs _]. cbn in Hvs.
        split; cbn; [exact Hvs | now apply normalize_unit].
      + split; cbn; [lra | now apply normalize_unit]. }
  unfold fuse. apply Forall_forall. intros r Hr.
  apply in_map_iff in Hr. destruct Hr as ([k data] & <- & Hin).
  rewrite Forall_forall in Hd. destruct (Hd _ Hin) as [Hvs Hks].
  cbn in *. split; nra.
Qed.

Section Search.
Variable Emb : Type.
Variable BM25 : Type.
Variable BM25Okapi : list (list string) -> BM25.
Variable get_scores : BM25 -> list string -> list Q.

Local Abbreviation Layer := (RetrievalLayer Emb BM25).
Local Abbreviation Index := (DocumentIndex Emb).

(** X2. [hybrid_search] returns a ranked list of at most [k] results
    ([k] being the [top_k] asked for, else the layer's), and never the same
    chunk id twice.  It raises only when no keyword index is cached and the
    document index has no chunk that holds a word. *)
Theorem hybrid_search_ranked (self : Layer) (query : string) (doc_index : Index)
  (top_k_arg : option nat) :
  match hybrid_search Emb BM25 BM25Okapi get_scores self query doc_index top_k_arg with
  | Return (results, _) =>
      Descending snd results
      /\ (List.length results <= or_nat top_k_arg (top_k _ _ self))%nat
      /\ NoDup (map (fun r => chunk_id (fst r)) results)
  | Raise e =>
      e = ZeroDivisionError "division by zero"
      /\ _bm25_index _ _ self = None /\ wordless (chunks _ doc_index) = true
  end.
Proof.
  unfold hybrid_search. cbv zeta.
  pose proof (RetrievalSpec.ensure_bm25_index_outcome Emb BM25 BM25Okapi self doc_index)
    as Hens.
  destruct (_bm25_index _ _ self) as [index|] eqn:Ei;
    destruct (wordless (chunks _ doc_index)) eqn:Ew; cbn [andb] in Hens;
    try (rewrite Hens; cbn [bind]; now repeat split);
    destruct Hens as (s1 & -> & _); cbn [bind];
    destruct (RetrievalSpec.keyword_search_cached Emb BM25 BM25Okapi get_scores s1
                query (Some (or_nat top_k_arg (top_k _ _ self) * 2)%nat))
      as (kr & -> & _);
    cbn [bind]; unfold slice_to; (split; [|split]);
    try (apply firstn_sorted, sort_desc_sorted);
    try apply firstn_le_length;
    rewrite <- firstn_map; apply NoDup_firstn;
    (eapply Permutation_NoDup;
     [apply Permutation_map; symmetry; apply sort_desc_perm | apply fuse_ids]).
Qed.

(** The chunks a keyword search can return: those just passed in, else
    those of the cached index.  It raises only when it is passed chunks
    that hold no word. *)
Lemma keyword_search_run (self : Layer) (query : string)
  (chunks_arg : option (list IndexedChunk)) (top_k_arg : option nat) :
  let indexed :=
    match chunks_arg with
    | Some (c :: r) => c :: r
    | _ => match _bm25_chunks _ _ self with Some l => l | None => [] end
    end in
  match keyword_search Emb BM25 BM25Okapi get_scores self query chunks_arg top_k_arg
  with
  | Return (results, _) =>
      (exists scores,
         results
         = filter (fun r => Qltb 0 (snd r))
             (firstn (or_nat top_k_arg (top_k _ _ self))
                (argsort_rev snd (combine indexed scores))))
      \/ results = []
  | Raise e =>
      e = ZeroDivisionError "division by zero"
      /\ exists c r, chunks_arg = Some (c :: r) /\ wordless (c :: r) = true
  end.
Proof.
  cbv zeta. unfold keyword_search.
  assert (Hcached :
            match
              match _bm25_index _ _ self, _bm25_chunks _ _ self with
              | Some index, Some (c :: r) =>
                  Return
                    (filter (fun r0 => Qltb 0 (snd r0))
                       (slice_to (or_nat top_k_arg (top_k _ _ self))
                          (argsort_rev snd
                             (combine (c :: r)
                                (get_scores index (split (lower query)))))), self)
              | _, _ => Return ([], self)
              end
            with
            | Return (results, _) =>
                (exists scores,
                   results
                   = filter (fun r => Qltb 0 (snd r))
                       (firstn (or_nat top_k_arg (top_k _ _ self))
                          (argsort_rev snd
                             (combine
                                match _bm25_chunks _ _ self with
                                | Some l => l
                                | None => []
                                end scores))))
                \/ results = []
            | Raise e =>
                e = ZeroDivisionError "division by zero"
                /\ exists c r, chunks_arg = Some (c :: r) /\ wordless (c :: r) = true
            end).
  { destruct (_bm25_index _ _ self) as [idx|]; [|now right].
    destruct (_bm25_chunks _ _ self) as [[|c r]|]; try (now right).
    left. eexists. reflexivity. }
  destruct chunks_arg as [[|c r]|]; cbn [bind]; try exact Hcached.
  pose proof (RetrievalSpec.build_bm25_index_outcome Emb BM25 BM25Okapi self (c :: r))
    as Hb.
  destruct (wordless (c :: r)) eqn:Ew.
  - rewrite Hb. cbn [bind]. split; [reflexivity|]. exists c, r. now split.
  - destruct Hb as (index & ->). cbn [bind _bm25_index _bm25_chunks].
    left. eexists. reflexivity.
Qed.

(** X4. [keyword_search] returns a ranked list of at most [k] results, all
    with a positive BM25 score, all chunks of the index searched.  It raises
    only when it is passed chunks to index that hold no word. *)
Theorem keyword_search_results (self : Layer) (query : string)
  (chunks_arg : option (list IndexedChunk)) (top_k_arg : option nat) :
  let indexed :=
    match chunks_arg with
    | Some (c :: r) => c :: r
    | _ => match _bm25_chunks _ _ self with Some l => l | None => [] end
    end in
  match keyword_search Emb BM25 BM25Okapi get_scores self query chunks_arg top_k_arg
  with
  | Return (results, _) =>
      Descending snd results
      /\ (List.length results <= or_nat top_k_arg (top_k _ _ self))%nat
      /\ Forall (fun r => 0 < snd r /\ In (fst r) indexed) results
  | Raise e =>
      e = ZeroDivisionError "division by zero"
      /\ exists c r, chunks_arg = Some (c :: r) /\ wordless (c :: r) = true
  end.
Proof.
  cbv zeta.
  pose proof (keyword_search_run self query chunks_arg top_k_arg) as Hrun.
  cbv zeta in Hrun.
  destruct (keyword_search _ _ _ _ self query chunks_arg top_k_arg)
    as [[results self']|e]; [|exact Hrun].
  destruct Hrun as [(scores & ->) | ->].
  - split; [|split].
    + apply filter_sorted, firstn_sorted, argsort_rev_sorted.
    + etransitivity; [apply filter_length_le | apply firstn_le_length].
    + apply Forall_forall. intros [c s] Hin.
      apply filter_In in Hin. destruct Hin as [Hin Hpos]. cbn in Hpos. q_bool.
      split; [exact Hpos|]. cbn.
      apply (in_firstn snd) in Hin. unfold argsort_rev in Hin. apply in_rev in Hin.
      assert (Hp : forall l : list (IndexedChunk * Q),
                 Permutation (fold_right (insert_asc snd) [] l) l).
      { induction l as [|x l IH]; cbn; trivial.
        rewrite insert_asc_perm. now constructor. }
      apply (Permutation_in _ (Hp _)) in Hin.
      apply in_combine_l in Hin. exact Hin.
  - split; [constructor|]. split; [cbn; lia | constructor].
Qed.

(** X5. Once the BM25 index is built the search never rebuilds it: a search
    of any method returns, the layer comes back unchanged, and the keyword
    search answers from the cached chunks whatever document index it is
    given. *)
Theorem built_index_is_reused (self : Layer) (query : string)
  (doc_index doc_index' : Index) (method : string) (index : BM25) :
  _bm25_index _ _ self = Some index ->
  (exists results,
     run_search Emb BM25 BM25Okapi get_scores self query doc_index method
     = Return (results, self))
  /\ run_search Emb BM25 BM25Okapi get_scores self query doc_index "keyword"
     = run_search Emb BM25 BM25Okapi get_scores self query doc_index' "keyword".
Proof.
  intro H. unfold run_search, hybrid_search, ensure_bm25_index, keyword_search.
  cbn [String.eqb Ascii.eqb Bool.eqb]. rewrite H. cbn [bind]. split; [|reflexivity].
  destruct (String.eqb method "vector"); [eexists; reflexivity|].
  destruct (String.eqb method "keyword"); rewrite ?H;
    destruct (_bm25_chunks _ _ self) as [[|c r]|]; cbn [bind];
    eexists; reflexivity.
Qed.

Lemma evidence_of_results_fields (self : Layer) (claim : Claim) (method : string)
  (results : list (IndexedChunk * Q)) :
  let er := evidence_of_results Emb BM25 self claim method results in
  er_claim_id er = claim_id claim
  /\ er_claim_text er = claim_text claim
  /\ retrieval_method er = method
  /\ List.length (evidence_chunks er) = List.length (scores er)
  /\ top_evidence er = option_map content (hd_error (evidence_chunks er))
  /\ citation er
     = match evidence_chunks er with
       | [] => None
       | _ => Some (get_citation_string er)
       end.
Proof.
  cbv zeta. unfold evidence_of_results.
  set (kept := match filter _ results with [] => _ | _ => _ end).
  assert (Hlen : List.length (map fst kept) = List.length (map snd kept))
    by (rewrite !length_map; reflexivity).
  destruct (map fst kept) as [|c cs] eqn:E; cbn;
    repeat split; try reflexivity; exact Hlen.
Qed.

(** X1. The result of [retrieve_evidence] is well formed: it carries the
    claim's id and text and the method, as many scores as chunks, the
    content of its first chunk as [top_evidence], and a citation exactly
    when it has a chunk, built from its own first chunk.  No result comes
    back only when the keyword index has to be built from chunks that hold
    no word. *)
Theorem retrieve_evidence_wellformed (self : Layer) (claim : Claim)
  (doc_index : Index) (method : string) :
  match retrieve_evidence Emb BM25 BM25Okapi get_scores self claim doc_index method with
  | Return (er, _) =>
      er_claim_id er = claim_id claim
      /\ er_claim_text er = claim_text claim
      /\ retrieval_method er = method
      /\ List.length (evidence_chunks er) = List.length (scores er)
      /\ top_evidence er = option_map content (hd_error (evidence_chunks er))
      /\ citation er
         = match evidence_chunks er with
           | [] => None
           | _ => Some (get_citation_string er)
           end
  | Raise e =>
      e = ZeroDivisionError "division by zero"
      /\ builds_wordless_index Emb BM25 self doc_index method = true
  end.
Proof.
  unfold retrieve_evidence.
  pose proof (RetrievalSpec.run_search_outcome Emb BM25 BM25Okapi get_scores self
                (claim_text claim) doc_index method) as Hrun.
  destruct (builds_wordless_index Emb BM25 self doc_index method).
  - rewrite Hrun. cbn [bind]. split; reflexivity.
  - destruct Hrun as (results & self' & -> & _). cbn [bind].
    apply evidence_of_results_fields.
Qed.

(** X6. [DocumentIndex.search] answers only with chunks of the index, at most
    one per FAISS hit: hits whose index is negative (FAISS pads with -1) or
    beyond the chunk list are dropped. *)
Theorem search_answers_from_index (doc_index : Index) (q : Emb) (k : nat) :
  let results := search Emb doc_index q k in
  Forall (fun r => In (fst r) (chunks _ doc_index)) results
  /\ (List.length results <= List.length (faiss_index _ doc_index q k))%nat
  /\ List.length results
     = List.length
         (filter (fun h => (0 <=? fst h)%Z
                           && (fst h <? Z.of_nat (List.length (chunks _ doc_index)))%Z)
            (faiss_index _ doc_index q k)).
Proof.
  cbv zeta. unfold search.
  induction (faiss_index _ doc_index q k) as [|[idx s] hits IH]; cbn [flat_map filter].
  - repeat split; constructor.
  - destruct IH as (IH1 & IH2 & IH3). cbn [fst].
    destruct (idx <? Z.of_nat (List.length (chunks _ doc_index)))%Z eqn:E1;
      destruct (0 <=? idx)%Z eqn:E2; cbn [andb app].
    + destruct (nth_error (chunks _ doc_index) (Z.to_nat idx)) as [c|] eqn:En.
      * cbn [app List.length]. repeat split; try lia.
        constructor; trivial. cbn. eapply nth_error_In, En.
      * exfalso. apply nth_error_None in En. lia.
    + repeat split; trivial; cbn; lia.
    + repeat split; trivial; cbn; lia.
    + repeat split; trivial; cbn; lia.
Qed.

(** The loop of the batch: one result per claim, in order; it stops with
    an exception only where a search does. *)
Lemma retrieve_each_outcome (self : Layer) (claims : list Claim)
  (doc_index : Index) (method : string) :
  match retrieve_each Emb BM25 BM25Okapi get_scores self claims doc_index method with
  | Return (results, _) =>
      map er_claim_id results = map claim_id claims
      /\ map er_claim_text results = map claim_text claims
      /\ map retrieval_method results = map (fun _ => method) claims
  | Raise e =>
      e = ZeroDivisionError "division by zero"
      /\ builds_wordless_index Emb BM25 self doc_index method = true
  end.
Proof.
  revert self. induction claims as [|claim rest IH]; intro s; cbn [retrieve_each].
  - repeat split.
  - unfold retrieve_evidence.
    pose proof (RetrievalSpec.run_search_outcome Emb BM25 BM25Okapi get_scores s
                  (claim_text claim) doc_index method) as Hrun.
    destruct (builds_wordless_index Emb BM25 s doc_index method).
    + rewrite Hrun. cbn [bind]. split; reflexivity.
    + destruct Hrun as (results & s' & -> & _ & Hb & _). cbn [bind].
      destruct (evidence_of_results_fields s' claim method results)
        as (H1 & H2 & H3 & _).
      specialize (IH s').
      destruct (retrieve_each _ _ _ _ s' rest doc_index method) as [[ers s'']|e];
        cbn [bind].
      * cbn [map]. destruct IH as (I1 & I2 & I3).
        rewrite H1, H2, H3, I1, I2, I3. repeat split.
      * destruct IH as [_ IH]. congruence.
Qed.

(** The index built ahead of the loop of the batch. *)
Lemma retrieve_evidence_batch_cases (self : Layer) (claims : list Claim)
  (doc_index : Index) (method : string) :
  (retrieve_evidence_batch Emb BM25 BM25Okapi get_scores self claims doc_index method
   = Raise (ZeroDivisionError "division by zero")
   /\ builds_wordless_index Emb BM25 self doc_index method = true)
  \/ exists self',
       retrieve_evidence_batch Emb BM25 BM25Okapi get_scores self claims doc_index
         method
       = retrieve_each Emb BM25 BM25Okapi get_scores self' claims doc_index method
       /\ (builds_wordless_index Emb BM25 self' doc_index method = true ->
           builds_wordless_index Emb BM25 self doc_index method = true).
Proof.
  unfold retrieve_evidence_batch.
  destruct (String.eqb method "hybrid" || String.eqb method "keyword") eqn:Em;
    [|right; exists self; split; [reflexivity | trivial]].
  assert (Hv : String.eqb method "vector" = false).
  { apply orb_true_iff in Em. destruct Em as [Em|Em];
      apply String.eqb_eq in Em; subst method; reflexivity. }
  pose proof (RetrievalSpec.ensure_bm25_index_outcome Emb BM25 BM25Okapi self doc_index)
    as Hens.
  unfold builds_wordless_index. rewrite Hv. cbn [negb andb].
  destruct (match _bm25_index _ _ self with None => true | Some _ => false end
            && wordless (chunks _ doc_index)).
  - left. rewrite Hens. split; reflexivity.
  - right. destruct Hens as (s1 & -> & _ & _ & Hi & _). exists s1.
    split; [reflexivity|].
    destruct (_bm25_index _ _ s1); [discriminate | congruence].
Qed.

(** X7. [retrieve_evidence_batch] answers with one [EvidenceResult] per claim,
    in the order of the claims, each carrying its claim's id and text and
    the method asked for.  It gives no answer only when the keyword index
    has to be built from chunks that hold no word. *)
Theorem retrieve_evidence_batch_per_claim (self : Layer) (claims : list Claim)
  (doc_index : Index) (method : string) :
  match retrieve_evidence_batch Emb BM25 BM25Okapi get_scores self claims
          doc_index method with
  | Return (results, _) =>
      map er_claim_id results = map claim_id claims
      /\ map er_claim_text results = map claim_text claims
      /\ map retrieval_method results = map (fun _ => method) claims
  | Raise e =>
      e = ZeroDivisionError "division by zero"
      /\ builds_wordless_index Emb BM25 self doc_index method = true
  end.
Proof.
  destruct (retrieve_evidence_batch_cases self claims doc_index method)
    as [[-> Hb] | (self' & -> & Hb)].
  - split; [reflexivity | exact Hb].
  - pose proof (retrieve_each_outcome self' claims doc_index method) as H.
    destruct (retrieve_each _ _ _ _ self' claims doc_index method) as [[ers s'']|e].
    + exact H.
    + destruct H as [He H]. split; [exact He | exact (Hb H)].
Qed.

End Search.

Lemma rerank_score_le_one (es : list string) (chunk : IndexedChunk) (base : Q) :
  rerank_score es chunk base <= 1.
Proof.
  unfold rerank_score.
  destruct (min_cases
              (base + inject_Z (Z.of_nat
                                  (List.length
                                     (filter (fun e => contains e (lower (content chunk)))
                                        es))) * (1 # 10)) 1)
    as [[? ->]|[? ->]]; lra.
Qed.

(** X8. When the claim has entities and the result has a score for each of
    its chunks, [rerank_by_entity_match] neither drops nor repeats a chunk:
    the reranked chunks are a rearrangement of the old ones, with as many
    scores, none above 1, in descending order; the claim id and text stay
    and the method gets the suffix "+entity_rerank". *)
Theorem rerank_rearranges (claim : Claim) (evidence_result : EvidenceResult) :
  entities claim <> [] ->
  evidence_chunks evidence_result <> [] ->
  List.length (evidence_chunks evidence_result)
  = List.length (scores evidence_result) ->
  let r := rerank_by_entity_match claim evidence_result in
  Permutation (evidence_chunks r) (evidence_chunks evidence_result)
  /\ List.length (scores r) = List.length (evidence_chunks r)
  /\ Forall (fun s => s <= 1) (scores r)
  /\ Descending (fun s => s) (scores r)
  /\ er_claim_id r = er_claim_id evidence_result
  /\ er_claim_text r = er_claim_text evidence_result
  /\ retrieval_method r = retrieval_method evidence_result ++ "+entity_rerank".
Proof.
  intros He Hc Hlen. cbv zeta. unfold rerank_by_entity_match.
  destruct (entities claim) as [|e es] eqn:Ee; [congruence|].
  destruct (evidence_chunks evidence_result) as [|c cs] eqn:Ec; [congruence|].
  set (f := fun '(chunk, base_score) =>
              (chunk, rerank_score (claim_entity_set claim) chunk base_score)).
  set (pairs := combine (c :: cs) (scores evidence_result)).
  cbn [evidence_chunks Retrieval.scores er_claim_id er_claim_text retrieval_method].
  assert (Hfst : map fst (map f pairs) = c :: cs).
  { rewrite map_map.
    assert (Hext : map (fun x => fst (f x)) pairs = map fst pairs).
    { apply map_ext. now intros [a b]. }
    rewrite Hext. unfold pairs.
    clear -Hlen. revert Hlen.
    generalize (c :: cs) as l. generalize (scores evidence_result) as l'.
    induction l' as [|y l' IH]; intros [|x l] H; cbn in *; try discriminate; trivial.
    f_equal. apply IH. lia. }
  pose proof (sort_desc_perm snd (map f pairs)) as Hp.
  pose proof (sort_desc_sorted snd (map f pairs)) as Hs.
  split; [|split; [|split; [|split]]].
  - rewrite <- Hfst. now apply Permutation_map.
  - now rewrite !length_map.
  - apply Forall_forall. intros s Hin. apply in_map_iff in Hin.
    destruct Hin as ([ch s'] & <- & Hin).
    apply (Permutation_in _ Hp) in Hin. apply in_map_iff in Hin.
    destruct Hin as ([ch0 b] & Heq & _). unfold f in Heq.
    injection Heq as <- <-. cbn. apply rerank_score_le_one.
  - clear -Hs. induction Hs as [|x l Hl IH Hall]; cbn; constructor; trivial.
    apply Forall_forall. intros s Hin. apply in_map_iff in Hin.
    destruct Hin as (y & <- & Hy). rewrite Forall_forall in Hall. now apply Hall.
  - repeat split.
Qed.

Lemma no_comma_cons (c : ascii) (name : string) :
  contains "," (String c name) = false ->
  Ascii.eqb c ","%char = false /\ contains "," name = false.
Proof.
  change (contains "," (String c name))
    with ((Ascii.eqb ","%char c && starts_with "" name) || contains "," name).
  assert (starts_with "" name = true) as -> by now destruct name.
  rewrite andb_true_r, Ascii.eqb_sym. intro H.
  apply orb_false_iff in H. exact H.
Qed.

Lemma first_field_app (name rest : string) :
  contains "," name = false ->
  Reporting.first_field (name ++ String ","%char rest) = name.
Proof.
  induction name as [|c name IH]; cbn [append Reporting.first_field].
  - intros _. reflexivity.
  - intro H. apply no_comma_cons in H. destruct H as [-> H].
    f_equal. now apply IH.
Qed.

Lemma first_field_plain (name : string) :
  contains "," name = false -> Reporting.first_field name = name.
Proof.
  induction name as [|c name IH]; cbn [Reporting.first_field]; trivial.
  intro H. apply no_comma_cons in H. destruct H as [-> H].
  f_equal. now apply IH.
Qed.

(** X9. The document a citation names can be read back from it: when the
    document name of the top chunk holds no comma, the first
    comma-separated field of [get_citation_string] (what the evidence view
    of the UI shows as the document) is that document name, whatever page
    and line fields follow. *)
Theorem citation_names_document (er : EvidenceResult) (chunk : IndexedChunk)
  (rest : list IndexedChunk) :
  evidence_chunks er = chunk :: rest ->
  contains "," (document_name chunk) = false ->
  Reporting.first_field (get_citation_string er) = document_name chunk.
Proof.
  intros Hc Hn. unfold get_citation_string. rewrite Hc.
  destruct (truthy_Z (page_number chunk));
    destruct (dict_get (metadata chunk) "line_start") as [ls|];
    try destruct (truthy_Z ls);
    cbn [app join];
    try (apply first_field_plain; exact Hn);
    apply (first_field_app _ _ Hn).
Qed.

End RetrievalMore.

Module VerificationMore.
Import Py PyFacts ListFacts Constants Ingestion ClaimIntelligence Retrieval.
Import Verification VerificationViews.

Lemma fold_left_flat_map {A B C} (f : A -> C -> A) (g : B -> list C) (l : list B)
  (a : A) :
  fold_left f (flat_map g l) a = fold_left (fun a x => fold_left f (g x) a) l a.
Proof.
  revert a. induction l as [|x l IH]; intro a; cbn; trivial.
  now rewrite fold_left_app, IH.
Qed.

Lemma fold_left_map {A B C} (f : A -> C -> A) (h : B -> C) (l : list B) (a : A) :
  fold_left f (map h l) a = fold_left (fun a i => f a (h i)) l a.
Proof.
  revert a. induction l as [|x l IH]; intro a; cbn; trivial.
Qed.

Lemma fold_left_ext {A B} (f g : A -> B -> A) (l : list B) (a : A) :
  (forall a b, f a b = g a b) -> fold_left f l a = fold_left g l a.
Proof.
  intro H. revert a. induction l as [|x l IH]; intro a; cbn; trivial.
  now rewrite H, IH.
Qed.

Section Facts.
Variable ratio : string -> string -> Q.
Variable fmt : Q -> string.

(** [_find_similar_entity] is one pass over the n-grams that keeps the
    first candidate of the highest ratio seen so far. *)
Lemma _find_similar_entity_fold (entity text : string) :
  _find_similar_entity ratio entity text
  = fold_left
      (fun best candidate =>
         if Qltb (snd best) (ratio (lower entity) (lower candidate))
         then (candidate, ratio (lower entity) (lower candidate))
         else best)
      (ngrams (split text)) ("", 0).
Proof.
  unfold _find_similar_entity, ngrams.
  rewrite fold_left_flat_map. apply fold_left_ext. intros best n.
  rewrite fold_left_map. apply fold_left_ext. intros [bm bs] i. reflexivity.
Qed.

(** X11. [_find_similar_entity] returns the best candidate: no n-gram of one
    to three consecutive evidence words has a higher ratio than the score
    returned, and the pair returned is either the initial [("", 0)] or one
    of those n-grams with its own ratio. *)
Theorem _find_similar_entity_is_best (entity text : string) :
  let best := _find_similar_entity ratio entity text in
  Forall (fun candidate => ratio (lower entity) (lower candidate) <= snd best)
    (ngrams (split text))
  /\ (best = ("", 0)
      \/ (In (fst best) (ngrams (split text))
          /\ snd best = ratio (lower entity) (lower (fst best)))).
Proof.
  cbv zeta. rewrite _find_similar_entity_fold.
  generalize (ngrams (split text)) as cands.
  intro cands.
  set (step := fun (best : string * Q) candidate =>
                 if Qltb (snd best) (ratio (lower entity) (lower candidate))
                 then (candidate, ratio (lower entity) (lower candidate))
                 else best).
  assert (G : forall done todo best,
             Forall (fun c => ratio (lower entity) (lower c) <= snd best) done ->
             (best = ("", 0)
              \/ (In (fst best) done
                  /\ snd best = ratio (lower entity) (lower (fst best)))) ->
             let final := fold_left step todo best in
             Forall (fun c => ratio (lower entity) (lower c) <= snd final)
               (done ++ todo)
             /\ (final = ("", 0)
                 \/ (In (fst final) (done ++ todo)
                     /\ snd final = ratio (lower entity) (lower (fst final))))).
  { intros done todo. revert done.
    induction todo as [|c todo IH]; intros done best Hmax Hbest; cbn [fold_left].
    - cbv zeta. rewrite app_nil_r. split; trivial.
    - specialize (IH (done ++ [c])%list (step best c)).
      cbv zeta in IH. rewrite <- app_assoc in IH. cbn [app] in IH.
      apply IH; unfold step;
        destruct (Qltb (snd best) (ratio (lower entity) (lower c))) eqn:E; q_bool.
      + apply Forall_app. split.
        * eapply Forall_impl; [|exact Hmax]. cbn. intros; lra.
        * repeat constructor. cbn. lra.
      + apply Forall_app. split; trivial. repeat constructor. exact E.
      + right. cbn. split; [|reflexivity]. apply in_or_app. right. now left.
      + destruct Hbest as [->|[Hin Heq]]; [now left|].
        right. split; trivial. apply in_or_app. now left. }
  apply (G [] cands ("", 0)); [constructor | now left].
Qed.

(** X10. [_check_entity_consistency] gives one [EntityMatch] per entity of
    the claim, in order, and each is of exactly one kind: a match (with the
    evidence string it matched), a possible contradiction (similarity from
    0.5 up to the match threshold, with the evidence string it was compared
    with), or not found (similarity 0, no evidence string). *)
Theorem entity_matches_are_classified (self : VerificationLayer) (claim : Claim)
  (evidence : string) :
  let ms := _check_entity_consistency ratio fmt self claim evidence in
  map claim_entity ms = entities claim
  /\ Forall
       (fun m =>
          (is_match m = true /\ is_contradiction m = false
           /\ evidence_match m <> None)
          \/ (is_match m = false /\ is_contradiction m = true
              /\ 5 # 10 <= similarity m /\ similarity m < entity_match_threshold self
              /\ evidence_match m <> None)
          \/ (is_match m = false /\ is_contradiction m = false
              /\ similarity m = 0 /\ evidence_match m = None))
       ms.
Proof.
  cbv zeta. unfold _check_entity_consistency. split.
  - rewrite map_map. rewrite <- (map_id (entities claim)) at 2.
    apply map_ext. intro e. unfold match_entity.
    destruct (contains _ _); [reflexivity|].
    destruct (_find_similar_entity ratio _ _) as [bm bs].
    destruct (Qleb _ bs); [reflexivity|]. destruct (Qleb _ bs); reflexivity.
  - apply Forall_forall. intros m Hm. apply in_map_iff in Hm.
    destruct Hm as (e & <- & _). unfold match_entity.
    destruct (contains _ _); [left; cbn; repeat split; discriminate|].
    destruct (_find_similar_entity ratio _ _) as [bm bs].
    destruct (Qleb (entity_match_threshold self) bs) eqn:E1;
      [left; cbn; repeat split; discriminate|].
    destruct (Qleb (5 # 10) bs) eqn:E2; q_bool.
    + right. left. cbn. repeat split; trivial. discriminate.
    + right. right. cbn. repeat split.
Qed.

Lemma exact_match_sums (l : list Entity) :
  Forall (fun e => 0 < severity_weight e) l ->
  let ms := map (fun e => mkEntityMatch e (Some (ClaimIntelligence.text e)) 1
                            true false "Exact match found in evidence") l in
  sum (map (fun m => similarity m * severity_weight (claim_entity m))
           (filter is_match ms))
  == sum (map (fun m => severity_weight (claim_entity m)) ms)
  /\ 0 <= sum (map (fun m => severity_weight (claim_entity m)) ms)
  /\ (l <> [] -> 0 < sum (map (fun m => severity_weight (claim_entity m)) ms)).
Proof.
  cbv zeta. induction 1 as [|x l Hx Hl IH].
  - cbn. repeat split; try lra. congruence.
  - destruct IH as (I1 & I2 & _).
    cbn [map filter is_match]. rewrite !sum_cons.
    cbn [similarity claim_entity]. rewrite I1.
    repeat split; intros; lra.
Qed.

(** X13. When every entity of the claim occurs in the evidence, whatever the
    letter case, and the severity weights are positive, the entity
    consistency score is 1 and no entity is flagged as contradicted. *)
Theorem all_entities_found (self : VerificationLayer) (claim : Claim)
  (evidence : string) :
  Forall (fun e => contains (lower (ClaimIntelligence.text e)) (lower evidence) = true
                   /\ 0 < severity_weight e) (entities claim) ->
  let ms := _check_entity_consistency ratio fmt self claim evidence in
  _calculate_entity_score ms == 1
  /\ existsb is_contradiction ms = false
  /\ Forall (fun m => is_match m = true /\ similarity m = 1) ms.
Proof.
  intro H. cbv zeta. unfold _check_entity_consistency.
  assert (Hms : map (match_entity ratio fmt self evidence) (entities claim)
                = map (fun e => mkEntityMatch e (Some (ClaimIntelligence.text e)) 1
                                  true false "Exact match found in evidence")
                    (entities claim)).
  { apply map_ext_in. intros e He. rewrite Forall_forall in H.
    destruct (H e He) as [Hc _]. unfold match_entity. now rewrite Hc. }
  rewrite Hms. clear Hms.
  assert (Hw : Forall (fun e => 0 < severity_weight e) (entities claim)).
  { eapply Forall_impl; [|exact H]. cbn. tauto. }
  clear H. revert Hw. generalize (entities claim) as l. intros l Hw.
  split; [|split].
  - destruct (exact_match_sums l Hw) as (S1 & _ & S3).
    unfold _calculate_entity_score.
    destruct l as [|e es]; [reflexivity|].
    set (ms := map _ (e :: es)) in *.
    assert (Hpos : 0 < sum (map (fun m => severity_weight (claim_entity m)) ms))
      by (apply S3; discriminate).
    change (match ms with
            | [] => 1
            | _ :: _ =>
                if Qltb 0 (sum (map (fun m => severity_weight (claim_entity m)) ms))
                then sum (map (fun m => similarity m * severity_weight (claim_entity m))
                            (filter is_match ms))
                     / sum (map (fun m => severity_weight (claim_entity m)) ms)
                else 1
            end == 1).
    assert (Qltb 0 (sum (map (fun m => severity_weight (claim_entity m)) ms)) = true)
      as Hb by (apply Qltb_lt; exact Hpos).
    unfold ms at 1. cbn [map]. rewrite Hb, S1. field. lra.
  - induction l as [|x l IH]; cbn; trivial. apply IH. now inversion Hw.
  - apply Forall_forall. intros m Hm. apply in_map_iff in Hm.
    destruct Hm as (e & <- & _). cbn. split; reflexivity.
Qed.

(** X15. Whatever branch [verify_claim] takes, its result carries the
    claim's id and text, the combined evidence text as [evidence_used], a
    confidence level that is [from_score] of its confidence, and a citation
    that is never the empty string. *)
Theorem verify_claim_result_fields (self : VerificationLayer) (claim : Claim)
  (evidence : EvidenceResult) :
  let r := fst (verify_claim ratio fmt self claim evidence) in
  vr_claim_id r = claim_id claim
  /\ vr_claim_text r = claim_text claim
  /\ evidence_used r = get_combined_evidence evidence 3
  /\ confidence_level r = from_score (confidence r)
  /\ vr_citation r <> "".
Proof.
  cbv zeta. unfold verify_claim.
  destruct (get_combined_evidence evidence 3) as [|c s] eqn:E.
  - cbn. repeat split. discriminate.
  - destruct (_fuse_signals _ _ _ _) as [cat conf]. cbn [fst].
    cbn [vr_claim_id vr_claim_text evidence_used confidence_level confidence
         vr_citation].
    repeat split.
    destruct (citation evidence) as [[|c' s']|]; discriminate.
Qed.

Lemma verify_claim_calls (self : VerificationLayer) (claim : Claim)
  (evidence : EvidenceResult) :
  let calls := snd (verify_claim ratio fmt self claim evidence) in
  (List.length calls <= 1)%nat
  /\ Forall (fun call : NLICall =>
               fst (fst call) = claim_text claim
               /\ (1 <= List.length (snd (fst call)) <= 3)%nat
               /\ snd call = "max") calls.
Proof.
  cbv zeta. unfold verify_claim.
  destruct (get_combined_evidence evidence 3) as [|c s] eqn:E.
  - cbn. split; [lia | constructor].
  - destruct (_fuse_signals _ _ _ _) as [cat conf]. cbn [snd List.length].
    split; [lia|]. constructor; [|constructor]. cbn [fst snd].
    split; [reflexivity|]. split; [|reflexivity].
    rewrite length_map. unfold slice_to. split; [|apply firstn_le_length].
    unfold get_combined_evidence, slice_to in E.
    destruct (evidence_chunks evidence) as [|c0 cs]; [discriminate|]. cbn. lia.
Qed.

(** X16. [verify_claim] calls the NLI classifier at most once, with the
    claim text, "max" aggregation and between one and three evidence texts;
    [verify_claims_batch] makes at most one call per claim. *)
Theorem nli_call_budget (self : VerificationLayer) (claim : Claim)
  (evidence : EvidenceResult) (claims : list Claim)
  (evidences : list EvidenceResult) :
  let calls := snd (verify_claim ratio fmt self claim evidence) in
  (List.length calls <= 1)%nat
  /\ Forall (fun call : NLICall =>
               fst (fst call) = claim_text claim
               /\ (1 <= List.length (snd (fst call)) <= 3)%nat
               /\ snd call = "max") calls
  /\ (List.length (snd (verify_claims_batch ratio fmt self claims evidences))
      <= List.length claims)%nat.
Proof.
  cbv zeta.
  destruct (verify_claim_calls self claim evidence) as [H1 H2].
  split; [exact H1|]. split; [exact H2|].
  unfold verify_claims_batch.
  destruct (negb _); [cbn; lia|].
  assert (G : forall pairs,
             (List.length (snd (verify_each ratio fmt self pairs))
              <= List.length pairs)%nat).
  { induction pairs as [|[c e] pairs IH]; cbn [verify_each]; [cbn; lia|].
    pose proof (verify_claim_calls self c e) as [Hc _].
    destruct (verify_claim ratio fmt self c e) as [r calls].
    destruct (verify_each ratio fmt self pairs) as [rs calls'].
    cbn [snd] in *. rewrite length_app. cbn [List.length]. lia. }
  specialize (G (combine claims evidences)).
  destruct (verify_each ratio fmt self (combine claims evidences)) as [rs calls].
  cbn [snd] in *. rewrite length_combine in G. lia.
Qed.

End Facts.

Lemma div_nat_one (a b : nat) : (0 < b)%nat -> Py.div_nat a b == 1 -> a = b.
Proof.
  intros Hb H. unfold Py.div_nat in H.
  assert (Hb' : ~ inject_Z (Z.of_nat b) == 0).
  { intro E. unfold Qeq in E. cbn in E. lia. }
  assert (E : inject_Z (Z.of_nat a) == inject_Z (Z.of_nat b)).
  { rewrite <- (Qmult_div_r (inject_Z (Z.of_nat a)) (inject_Z (Z.of_nat b)) Hb').
    rewrite H. ring. }
  unfold Qeq in E. cbn in E. lia.
Qed.

Lemma mem_of_in (x : string) (l : list string) : In x l -> mem x l = true.
Proof.
  intro H. unfold mem. apply existsb_exists. exists x. split; trivial.
  apply String.eqb_refl.
Qed.

Lemma filter_all {A} (f : A -> bool) (l : list A) :
  Forall (fun x => f x = true) l -> filter f l = l.
Proof.
  induction 1 as [|x l Hx Hl IH]; cbn; trivial. now rewrite Hx, IH.
Qed.

(** X12. The numeric consistency score is a fraction between 0 and 1; it is
    1 exactly when every number of the claim is among the numbers of the
    evidence (in particular when the claim has no number); and a claim is
    always numerically consistent with its own text. *)
Theorem numerical_consistency_range (claim : Claim) (evidence : string) :
  let s := _check_numerical_consistency claim evidence in
  0 <= s <= 1
  /\ (s == 1 <->
      Forall (fun num => mem num (Re.findall_numbers evidence) = true)
        (Re.findall_numbers (claim_text claim)))
  /\ _check_numerical_consistency claim (claim_text claim) == 1.
Proof.
  cbv zeta. unfold _check_numerical_consistency.
  set (cn := Re.findall_numbers (claim_text claim)).
  set (en := Re.findall_numbers evidence).
  destruct cn as [|n0 cn0] eqn:Ecn.
  - split; [lra|]. split; [|reflexivity]. split; [constructor | reflexivity].
  - rewrite <- Ecn. assert (Hpos : (0 < List.length cn)%nat) by (rewrite Ecn; cbn; lia).
    split; [|split].
    + apply div_nat_unit; trivial. apply filter_length_le.
    + split; intro H.
      * apply div_nat_one in H; trivial.
        apply filter_length_forallb in H. apply Forall_forall.
        now apply forallb_forall.
      * rewrite (filter_all _ _ H). now apply div_nat_self.
    + rewrite filter_all; [now apply div_nat_self|].
      apply Forall_forall. intros x Hx. now apply mem_of_in.
Qed.

(** X14. What each verdict of [_fuse_signals] implies about the signals:
    supported needs entailment above 0.6, an entity score above 0.7, no entity
    contradiction and a numeric score of at least 0.5, and comes with a
    confidence above 0.42; contradicted needs one of the three contradiction
    signals; unverifiable means none of them fired, and its confidence is at
    least 0.5. *)
Theorem fuse_signals_verdicts (nli : NLIResult) (es ns : Q) (ms : list EntityMatch) :
  let verdict := _fuse_signals nli es ns ms in
  match fst verdict with
  | SUPPORTED =>
      6 # 10 < entailment_score nli /\ 7 # 10 < es
      /\ existsb is_contradiction ms = false /\ 5 # 10 <= ns
      /\ 42 # 100 < snd verdict
  | CONTRADICTED =>
      7 # 10 < contradiction_score nli
      \/ (existsb is_contradiction ms = true /\ es < 7 # 10)
      \/ ns < 5 # 10
  | UNVERIFIABLE =>
      contradiction_score nli <= 7 # 10
      /\ ~ (existsb is_contradiction ms = true /\ es < 7 # 10)
      /\ 5 # 10 <= ns
      /\ 5 # 10 <= snd verdict
  end.
Proof.
  cbv zeta. unfold _fuse_signals.
  destruct (existsb is_contradiction ms) eqn:Ex; cbn [negb andb];
    rewrite ?andb_false_r, ?andb_true_r.
  - destruct (Qltb (7 # 10) (contradiction_score nli)) eqn:Ec; cbn [fst snd];
      q_bool; [now left|].
    destruct (Qltb es (7 # 10)) eqn:Ee; cbn [fst snd]; q_bool; [right; left; now split|].
    destruct (Qltb ns (5 # 10)) eqn:En; cbn [fst snd]; q_bool; [right; now right|].
    repeat split; trivial.
    + intros [_ H]. lra.
    + destruct (max_cases (neutral_score nli) (5 # 10)) as [[? ->]|[? ->]]; lra.
  - destruct (Qltb (8 # 10) (entailment_score nli) && Qltb (9 # 10) es
              && Qltb (8 # 10) ns) eqn:Ea; cbn [fst snd].
    + q_bool. repeat split; try lra.
      destruct (min_cases (entailment_score nli) es) as [[? ->]|[? ->]]; lra.
    + destruct (Qltb (7 # 10) (contradiction_score nli)) eqn:Ec; cbn [fst snd];
        q_bool; [now left|].
      destruct (Qltb ns (5 # 10)) eqn:En; cbn [fst snd]; q_bool; [right; now right|].
      destruct (Qltb (6 # 10) (entailment_score nli) && Qltb (7 # 10) es) eqn:Ee;
        cbn [fst snd].
      * q_bool. repeat split; trivial. nra.
      * repeat split; trivial.
        -- intros [H _]. discriminate.
        -- destruct (max_cases (neutral_score nli) (5 # 10)) as [[? ->]|[? ->]]; lra.
Qed.

End VerificationMore.

Module DriftMore.
Import Py PyFacts ListFacts Constants ClaimIntelligence Verification Drift DriftReports.

Lemma sum_bounds (l : list Q) (lo hi : Q) :
  Forall (fun x => lo <= x <= hi) l ->
  inject_Z (Z.of_nat (List.length l)) * lo <= sum l
  /\ sum l <= inject_Z (Z.of_nat (List.length l)) * hi.
Proof.
  induction 1 as [|x l Hx Hl IH].
  - rewrite sum_nil. change (inject_Z (Z.of_nat (List.length (@nil Q)))) with 0.
    split; lra.
  - rewrite sum_cons. cbn [List.length]. rewrite Nat2Z.inj_succ.
    unfold Z.succ. rewrite inject_Z_plus. change (inject_Z 1) with 1.
    set (n := inject_Z (Z.of_nat (List.length l))) in *.
    destruct IH, Hx. split; nra.
Qed.

Lemma mean_bounds (l : list Q) (lo hi : Q) :
  l <> [] -> Forall (fun x => lo <= x <= hi) l ->
  lo <= sum l / inject_Z (Z.of_nat (List.length l)) <= hi.
Proof.
  intros Hne H. destruct (sum_bounds l lo hi H) as [H1 H2].
  assert (Hn : 0 < inject_Z (Z.of_nat (List.length l))).
  { change 0 with (inject_Z 0). rewrite <- Zlt_Qlt.
    destruct l; [congruence | cbn; lia]. }
  split.
  - apply Qle_shift_div_l; trivial; lra.
  - apply Qle_shift_div_r; trivial; lra.
Qed.

Section Layer.
Variable similarity : string -> string -> Q.
Variable fmt : Q -> string.

(** X17. [_find_claim_drift] answers with an entry of the report: the first
    one whose claim equals the text when there is one, else the first one
    whose similarity to the text exceeds 0.9; it answers nothing only when
    no entry is equal or that similar (or there is no report). *)
Theorem _find_claim_drift_result (claim_text : string) (report : option DriftReport) :
  let drifts := match report with Some r => claim_drifts r | None => [] end in
  match _find_claim_drift similarity claim_text report with
  | Some d =>
      exists before after,
        drifts = app before (d :: after)
        /\ ((claim d = claim_text
             /\ Forall (fun d' => claim d' <> claim_text) before)
            \/ (Forall (fun d' => claim d' <> claim_text) drifts
                /\ 9 # 10 < similarity claim_text (claim d)
                /\ Forall (fun d' => similarity claim_text (claim d') <= 9 # 10)
                     before))
  | None =>
      Forall (fun d' => claim d' <> claim_text
                        /\ similarity claim_text (claim d') <= 9 # 10) drifts
  end.
Proof.
  cbv zeta. unfold _find_claim_drift. destruct report as [r|]; [|constructor].
  destruct (find (fun drift => String.eqb (claim drift) claim_text) (claim_drifts r))
    as [d|] eqn:E1.
  - destruct (find_first _ _ _ E1) as (before & after & Hl & Hd & Hb).
    apply String.eqb_eq in Hd. exists before, after. split; [exact Hl|]. left.
    split; [exact Hd|]. eapply Forall_impl; [|exact Hb].
    intros d' Hd'. now apply String.eqb_neq.
  - assert (Hno : Forall (fun d' => claim d' <> claim_text) (claim_drifts r)).
    { apply Forall_forall. intros d' Hd' Heq.
      apply (find_none _ _ E1) in Hd'. apply String.eqb_neq in Hd'. contradiction. }
    destruct (find (fun drift => Qltb (9 # 10) (similarity claim_text (claim drift)))
                   (claim_drifts r)) as [d|] eqn:E2.
    + destruct (find_first _ _ _ E2) as (before & after & Hl & Hd & Hb).
      cbv beta in Hd. q_bool. cbv beta iota.
      exists before, after. split; [exact Hl|]. right.
      split; [exact Hno|]. split; [exact Hd|].
      eapply Forall_impl; [|exact Hb]. intros d' Hd'. cbv beta in Hd'. q_bool.
      exact Hd'.
    + cbv beta iota. apply Forall_forall. intros d' Hd'. split.
      * rewrite Forall_forall in Hno. now apply Hno.
      * apply (find_none _ _ E2) in Hd'. cbv beta in Hd'. q_bool. exact Hd'.
Qed.

(** X18. A result that comes back stable from [adjust_verification_results]
    keeps its confidence and has penalty 0; one that comes back unstable
    carries the unstable drift entry it was matched with; and when there is
    no drift report at all (none passed, none cached) every result comes
    back stable, with no drift entry. *)
Theorem stable_results_keep_confidence (self : DriftMitigationLayer)
  (results : list VerificationResult) (drift_report : option DriftReport) :
  let adjusted :=
    adjust_verification_results similarity fmt self results drift_report in
  Forall
    (fun a =>
       drift_analysis a
       = _find_claim_drift similarity (vr_claim_text (original_result a))
           (effective_report self drift_report)
       /\ if dar_is_stable a
          then adjusted_confidence a = confidence (original_result a)
               /\ drift_penalty a = 0
          else exists cd, drift_analysis a = Some cd /\ is_stable cd = false)
    adjusted
  /\ match effective_report self drift_report with
     | None =>
         Forall (fun a => dar_is_stable a = true /\ drift_analysis a = None) adjusted
     | Some _ => True
     end.
Proof.
  cbv zeta. unfold adjust_verification_results. split.
  - apply Forall_forall. intros a Ha. apply in_map_iff in Ha.
    destruct Ha as (r & <- & _). unfold adjust_one.
    destruct (_find_claim_drift similarity (vr_claim_text r) _) as [cd|] eqn:E;
      [destruct (is_stable cd) eqn:Es|]; cbn; rewrite ?E; repeat split.
    exists cd. split; trivial.
  - destruct (effective_report self drift_report); trivial.
    apply Forall_forall. intros a Ha. apply in_map_iff in Ha.
    destruct Ha as (r & <- & _). cbn. split; reflexivity.
Qed.

(** X19. On what [adjust_verification_results] returns, the confidence-drop
    test of [should_flag_for_review] never decides: a result is flagged
    exactly when it is unstable, or contradicted with an adjusted confidence
    below 0.7. *)
Theorem review_flag_of_adjusted (self : DriftMitigationLayer)
  (results : list VerificationResult) (drift_report : option DriftReport) :
  Forall
    (fun a =>
       should_flag_for_review a
       = negb (dar_is_stable a)
         || (ClaimCategory_eqb (category (original_result a)) CONTRADICTED
             && Qltb (adjusted_confidence a) (7 # 10)))
    (adjust_verification_results similarity fmt self results drift_report).
Proof.
  unfold adjust_verification_results.
  apply Forall_forall. intros a Ha. apply in_map_iff in Ha.
  destruct Ha as (r & <- & _). unfold adjust_one, should_flag_for_review.
  assert (Hdrop : Qltb (2 # 10) (confidence r - confidence r) = false).
  { apply Qltb_ge. lra. }
  destruct (_find_claim_drift similarity (vr_claim_text r) _) as [cd|];
    [destruct (is_stable cd)|]; cbn; trivial;
    rewrite Hdrop; destruct (ClaimCategory_eqb _ _ && _); reflexivity.
Qed.

(** X20. The stability summary of adjusted results adds up: stable plus
    unstable is the total, the unstable count is the number of high-drift
    claims, at most five of which are listed, the percentage lies between 0
    and 100 (100 for no results), and the average penalty lies between 0
    and 0.5, the penalty factor not being negative. *)
Theorem stability_summary_adds_up (self : DriftMitigationLayer)
  (results : list VerificationResult) (drift_report : option DriftReport) :
  0 <= confidence_penalty self ->
  let adjusted :=
    adjust_verification_results similarity fmt self results drift_report in
  let s := get_stability_summary adjusted in
  ss_total_claims s = List.length results
  /\ (ss_stable_claims s + ss_unstable_claims s)%nat = ss_total_claims s
  /\ ss_unstable_claims s = List.length (get_high_drift_claims adjusted)
  /\ (List.length (high_drift_claims s) <= 5)%nat
  /\ 0 <= stability_percentage s <= 100
  /\ 0 <= average_drift_penalty s <= 5 # 10.
Proof.
  intro Hf. cbv zeta.
  set (adjusted := adjust_verification_results similarity fmt self results drift_report).
  assert (Hlen : List.length adjusted = List.length results).
  { unfold adjusted, adjust_verification_results. apply length_map. }
  assert (Hpen : Forall (fun x => 0 <= x <= 5 # 10) (map drift_penalty adjusted)).
  { apply Forall_forall. intros x Hx. apply in_map_iff in Hx.
    destruct Hx as (a & <- & Ha). unfold adjusted, adjust_verification_results in Ha.
    apply in_map_iff in Ha. destruct Ha as (r & <- & _). unfold adjust_one.
    destruct (_find_claim_drift similarity (vr_claim_text r) _) as [cd|];
      [destruct (is_stable cd)|]; cbn; try lra.
    apply DriftSpec._calculate_penalty_range, Hf. }
  clearbody adjusted.
  pose proof (filter_length dar_is_stable adjusted) as Hsplit.
  pose proof (filter_length_le dar_is_stable adjusted) as Hle.
  unfold get_stability_summary, get_high_drift_claims.
  cbn [ss_total_claims ss_stable_claims ss_unstable_claims high_drift_claims
       stability_percentage average_drift_penalty].
  split; [exact Hlen|]. split; [lia|]. split; [lia|].
  split; [unfold slice_to; apply firstn_le_length|].
  destruct adjusted as [|a0 rest] eqn:Ea.
  - split; split; cbn; lra.
  - rewrite <- Ea in *. assert (Hne : adjusted <> []) by (rewrite Ea; discriminate).
    split.
    + assert (Hu : 0 <= div_nat (List.length (filter dar_is_stable adjusted))
                           (List.length adjusted) <= 1).
      { apply div_nat_unit; trivial. rewrite Ea. cbn. lia. }
      split; lra.
    + rewrite <- (length_map drift_penalty adjusted).
      apply mean_bounds; trivial.
      intro E. apply Hne. now apply map_eq_nil in E.
Qed.

End Layer.

Lemma mem_iff_in (x : string) (l : list string) : mem x l = true <-> In x l.
Proof.
  unfold mem. rewrite existsb_exists. split.
  - intros (y & Hy & E). apply String.eqb_eq in E. now subst.
  - intro H. exists x. split; trivial. apply String.eqb_refl.
Qed.

Lemma intersection_size (w1 w2 : list string) :
  NoDup w1 -> NoDup w2 ->
  List.length (filter (fun w => mem w w2) w1)
  = List.length (filter (fun w => mem w w1) w2).
Proof.
  intros H1 H2. apply Permutation_length. apply NoDup_Permutation.
  - now apply NoDup_filter.
  - now apply NoDup_filter.
  - intro x. rewrite !filter_In, !mem_iff_in. tauto.
Qed.

Lemma union_size (w1 w2 : list string) :
  List.length (nodup string_dec (app w1 w2))
  = List.length (nodup string_dec (app w2 w1)).
Proof.
  apply Permutation_length. apply NoDup_Permutation; try apply NoDup_nodup.
  intro x. rewrite !nodup_In, !in_app_iff. tauto.
Qed.

(** X21. [_text_similarity] is a number between 0 and 1, does not depend on
    the order of its two arguments, and gives 1 for a text compared with
    itself (0 if the text has no word). *)
Theorem _text_similarity_jaccard (text1 text2 : string) :
  0 <= _text_similarity text1 text2 <= 1
  /\ _text_similarity text1 text2 = _text_similarity text2 text1
  /\ _text_similarity text1 text1
     == match word_set text1 with [] => 0 | _ => 1 end.
Proof.
  unfold _text_similarity.
  pose proof (NoDup_nodup string_dec (split (lower text1))) as N1.
  pose proof (NoDup_nodup string_dec (split (lower text2))) as N2.
  fold (word_set text1) in N1. fold (word_set text2) in N2.
  set (w1 := word_set text1) in *. set (w2 := word_set text2) in *.
  split; [|split].
  - destruct w1 as [|a w1'] eqn:E1; [lra|].
    destruct w2 as [|b w2'] eqn:E2; [lra|].
    rewrite <- E1, <- E2 in *.
    apply div_nat_unit.
    + apply NoDup_incl_length; [now apply NoDup_filter|].
      intros x Hx. apply filter_In in Hx. apply nodup_In, in_or_app. left. tauto.
    + assert (In a (nodup string_dec (app w1 w2))).
      { apply nodup_In, in_or_app. left. rewrite E1. now left. }
      destruct (nodup string_dec (app w1 w2)); [contradiction | cbn; lia].
  - destruct w1 as [|a w1'] eqn:E1; destruct w2 as [|b w2'] eqn:E2; trivial.
    rewrite <- E1, <- E2 in *.
    now rewrite (intersection_size w1 w2 N1 N2), (union_size w1 w2).
  - destruct w1 as [|a w1'] eqn:E1; [reflexivity|].
    rewrite <- E1 in *.
    assert (Hi : filter (fun w => mem w w1) w1 = w1).
    { apply VerificationMore.filter_all, Forall_forall.
      intros x Hx. now apply mem_iff_in. }
    assert (Hu : List.length (nodup string_dec (app w1 w1)) = List.length w1).
    { apply Permutation_length, NoDup_Permutation; trivial; [apply NoDup_nodup|].
      intro x. rewrite nodup_In, in_app_iff. tauto. }
    rewrite Hi, Hu. apply div_nat_self. rewrite E1. cbn. lia.
Qed.

(** X22. [compare_regenerations] reports one consistency entry per original
    claim, each found in at most as many regenerations as there are and with
    a consistency between 0 and 1; it never reports a new claim; and
    without any regeneration every original claim is reported missing. *)
Theorem compare_regenerations_report (original_claims : list Claim)
  (regenerated_claims : list (list Claim)) :
  let c := compare_regenerations original_claims regenerated_claims in
  original_count c = List.length original_claims
  /\ List.length (regeneration_counts c) = List.length regenerated_claims
  /\ List.length (claim_consistency c) = List.length original_claims
  /\ Forall (fun e => (found_in_regenerations e <= List.length regenerated_claims)%nat
                      /\ 0 <= consistency e <= 1) (claim_consistency c)
  /\ new_claims c = []
  /\ missing_claims (compare_regenerations original_claims [])
     = map (fun cl => str_slice_to 100 (claim_text cl)) original_claims.
Proof.
  cbv zeta. unfold compare_regenerations.
  cbn [original_count regeneration_counts claim_consistency new_claims missing_claims].
  assert (Hfound : forall cl,
             (List.length (found_in cl regenerated_claims)
              <= List.length regenerated_claims)%nat).
  { intro cl. unfold found_in.
    assert (G : forall (l : list (nat * list Claim)),
               (List.length
                  (flat_map
                     (fun '(i, regen_claims) =>
                        if existsb
                             (fun regen_claim =>
                                Qltb (8 # 10)
                                  (_text_similarity (claim_text cl)
                                     (claim_text regen_claim))) regen_claims
                        then [i] else []) l) <= List.length l)%nat).
    { induction l as [|[i rc] l IH]; cbn [flat_map]; [cbn; lia|].
      rewrite length_app. destruct (existsb _ rc); cbn; lia. }
    etransitivity; [apply G|]. rewrite length_combine, length_seq. lia. }
  split; [reflexivity|]. split; [apply length_map|]. split; [apply length_map|].
  split; [|split; [reflexivity|]].
  - apply Forall_forall. intros e He. apply in_map_iff in He.
    destruct He as (cl & <- & _). cbn. split; [apply Hfound|].
    unfold consistency_of. destruct regenerated_claims as [|r0 rs] eqn:Er; [lra|].
    rewrite <- Er in *. apply div_nat_unit; [apply Hfound|]. rewrite Er. cbn. lia.
  - induction original_claims as [|cl cls IH]; [reflexivity|].
    cbn [flat_map map]. rewrite IH. reflexivity.
Qed.

End DriftMore.

Module ScoringMore.
Import Py PyFacts ListFacts Constants ClaimIntelligence Verification Drift Scoring.
Import ScoreReports.

(** *** Rounding to a tenth *)

Lemma round1_mono (x y : Q) : x <= y -> round1 x <= round1 y.
Proof.
  intro Hxy. unfold round1. cbv zeta.
  pose proof (Qfloor_le (x * 10)) as L1. pose proof (Qlt_floor (x * 10)) as U1.
  pose proof (Qfloor_le (y * 10)) as L2. pose proof (Qlt_floor (y * 10)) as U2.
  assert (Hn : (Qfloor (x * 10) <= Qfloor (y * 10))%Z) by (apply Qfloor_resp_le; lra).
  rewrite inject_Z_plus in U1, U2. change (inject_Z 1) with 1 in U1, U2.
  set (n1 := Qfloor (x * 10)) in *. set (n2 := Qfloor (y * 10)) in *.
  clearbody n1 n2.
  unfold Qdiv. apply Qmult_le_compat_r; [|vm_compute; discriminate].
  rewrite <- Zle_Qle.
  destruct (Qltb (x * 10 - inject_Z n1) (1 # 2)) eqn:A1;
    destruct (Qltb (1 # 2) (x * 10 - inject_Z n1)) eqn:B1;
    destruct (Qltb (y * 10 - inject_Z n2) (1 # 2)) eqn:A2;
    destruct (Qltb (1 # 2) (y * 10 - inject_Z n2)) eqn:B2;
    destruct (Z.odd n1) eqn:O1; destruct (Z.odd n2) eqn:O2;
    q_bool; try lia;
    (destruct (Z.eq_dec n1 n2) as [E|E]; [exfalso; subst n2 | lia]);
    try lra; congruence.
Qed.

Lemma round1_int (a : Z) : round1 (inject_Z a) == inject_Z a.
Proof.
  unfold round1. cbv zeta.
  assert (Hf : Qfloor (inject_Z a * 10) = (a * 10)%Z).
  { rewrite <- (Qfloor_Z (a * 10)). apply Qfloor_comp.
    rewrite inject_Z_mult. reflexivity. }
  rewrite Hf.
  assert (Qltb (inject_Z a * 10 - inject_Z (a * 10)) (1 # 2) = true) as ->.
  { apply Qltb_lt. rewrite inject_Z_mult. change (inject_Z 10) with 10. lra. }
  rewrite inject_Z_mult. change (inject_Z 10) with 10. field.
Qed.

Lemma round1_between (a b : Z) (x : Q) :
  inject_Z a <= x <= inject_Z b -> inject_Z a <= round1 x <= inject_Z b.
Proof.
  intros [Ha Hb]. split.
  - rewrite <- (round1_int a). now apply round1_mono.
  - rewrite <- (round1_int b). now apply round1_mono.
Qed.

Lemma final_score_of_range (self : ScoringLayer) (sr ac ds ss : Q) :
  0 <= final_score_of self sr ac ds ss <= 100.
Proof.
  unfold final_score_of. cbv zeta.
  match goal with
  | |- 0 <= max 0 (min 100 ?x) <= 100 =>
      destruct (min_cases 100 x) as [[? ->]|[? ->]]
  end.
  - match goal with
    | |- 0 <= max 0 ?a <= 100 => destruct (max_cases 0 a) as [[? ->]|[? ->]]
    end; lra.
  - change (max 0 100) with 100. lra.
Qed.

Lemma clamp_mono (x y : Q) : x <= y -> max 0 (min 100 x) <= max 0 (min 100 y).
Proof.
  intro H.
  destruct (min_cases 100 x) as [[? ->]|[? ->]];
    destruct (min_cases 100 y) as [[? ->]|[? ->]];
    change (max 0 100) with 100;
    repeat match goal with
      | |- context [max 0 ?a] => destruct (max_cases 0 a) as [[? ->]|[? ->]]
      end; lra.
Qed.

(** Whatever the input, the category counts a trust score reports are the
    numbers of supported, contradicted and unverifiable results, and they
    add up to [total_claims], the number of results. *)
Lemma trust_score_counts (self : ScoringLayer) (results : list VerificationResult)
  (drift : option (list DriftAdjustedResult)) (claims : option (list Claim)) :
  let ts := calculate_trust_score self results drift claims in
  category_counts ts
  = [("supported", count_category SUPPORTED results);
     ("contradicted", count_category CONTRADICTED results);
     ("unverifiable", count_category UNVERIFIABLE results)]
  /\ ts_total_claims ts = List.length results
  /\ (count_category SUPPORTED results + count_category CONTRADICTED results
      + count_category UNVERIFIABLE results)%nat = ts_total_claims ts.
Proof.
  cbv zeta.
  destruct (ScoringSpec._calculate_category_stats_counts results)
    as (H1 & H2 & H3 & H4).
  pose proof (ScoringSpec.count_total results) as Hsum.
  unfold calculate_trust_score. destruct results as [|r rs] eqn:Er.
  - cbn. repeat split.
  - rewrite <- Er in *.
    destruct (components self results drift claims) as [[[sr ac] ds] ss].
    cbn [category_counts ts_total_claims].
    rewrite H1, H2, H3, H4. repeat split. exact Hsum.
Qed.

(** X24. The score of a trust score lies between 0 and 100 and, rounded as
    it is, within the bounds of the zone reported with it. *)
Theorem score_within_zone (self : ScoringLayer) (results : list VerificationResult)
  (drift : option (list DriftAdjustedResult)) (claims : option (list Claim)) :
  let ts := calculate_trust_score self results drift claims in
  0 <= score ts <= 100
  /\ let '(lo, hi, _, _) := zone ts in inject_Z lo <= score ts <= inject_Z hi.
Proof.
  cbv zeta. unfold calculate_trust_score. destruct results as [|r rs].
  - cbn. split; split; vm_compute; discriminate.
  - destruct (components self (r :: rs) drift claims) as [[[sr ac] ds] ss].
    cbn [score zone].
    pose proof (final_score_of_range self sr ac ds ss) as Hf.
    set (f := final_score_of self sr ac ds ss) in *. clearbody f.
    split; [apply (round1_between 0 100); exact Hf|].
    unfold get_zone.
    destruct (Qleb 80 f) eqn:E80; q_bool.
    + apply (round1_between 80 100). split; [exact E80 | apply Hf].
    + destruct (Qleb 50 f) eqn:E50; q_bool.
      * apply (round1_between 50 80). change (50 <= f <= 80). lra.
      * apply (round1_between 0 50). change (0 <= f <= 50). lra.
Qed.

(** X25. Level and zone agree as far as this: level HIGH comes with zone
    "Good", levels LOW and CRITICAL with zone "Unreliable", and level
    MEDIUM with zone "Review Needed", or with zone "Good" when some result
    is contradicted. *)
Theorem level_and_zone (self : ScoringLayer) (results : list VerificationResult)
  (drift : option (list DriftAdjustedResult)) (claims : option (list Claim)) :
  let ts := calculate_trust_score self results drift claims in
  match level ts with
  | HIGH => zone ts = TrustZone_HIGH /\ count_category CONTRADICTED results = 0%nat
  | MEDIUM =>
      zone ts = TrustZone_MEDIUM
      \/ (zone ts = TrustZone_HIGH
          /\ (0 < count_category CONTRADICTED results)%nat)
  | LOW | CRITICAL => zone ts = TrustZone_LOW
  end.
Proof.
  cbv zeta.
  destruct (ScoringSpec._calculate_category_stats_counts results)
    as (_ & H2 & _ & _).
  unfold calculate_trust_score. destruct results as [|r rs] eqn:Er.
  - reflexivity.
  - rewrite <- Er in *.
    destruct (components self results drift claims) as [[[sr ac] ds] ss].
    cbn [level zone].
    set (f := final_score_of self sr ac ds ss). clearbody f.
    unfold _determine_trust_level, get_zone. rewrite H2.
    destruct (Qleb 80 f) eqn:E80; cbn [andb].
    + destruct (Nat.eqb_spec (count_category CONTRADICTED results) 0) as [E0|E0].
      * split; trivial.
      * assert (Qleb 50 f = true) as ->.
        { q_bool. apply Qleb_le. lra. }
        right. split; [reflexivity | lia].
    + destruct (Qleb 50 f) eqn:E50; [now left|].
      destruct (Qltb _ _); reflexivity.
Qed.

Lemma string_length_append (a b : string) :
  String.length (a ++ b) = (String.length a + String.length b)%nat.
Proof.
  induction a as [|c a IH]; cbn; trivial. now rewrite IH.
Qed.

(** X26. A trust score always carries between one and four recommendations.
    The one recommendation saying that the document passes verification is
    given exactly when no result is contradicted, at most 30% of the results
    are unverifiable, the final score is at least 50 and at most three
    results have a confidence below 0.6; otherwise none of the
    recommendations says so. *)
Theorem recommendations_say (self : ScoringLayer) (results : list VerificationResult)
  (drift : option (list DriftAdjustedResult)) (claims : option (list Claim)) :
  let ts := calculate_trust_score self results drift claims in
  let s := final_score self results drift claims in
  let low := filter (fun r => Qltb (confidence r) (6 # 10)) results in
  let quiet :=
    (count_category CONTRADICTED results =? 0)%nat
    && negb (Qltb (inject_Z (Z.of_nat (List.length results)) * (3 # 10))
                  (inject_Z (Z.of_nat (count_category UNVERIFIABLE results))))
    && negb (Qltb s 50)
    && (List.length low <=? 3)%nat in
  match results with
  | [] => recommendations ts = ["No claims to verify."]
  | _ =>
      if quiet
      then recommendations ts
           = [if Qleb 80 s
              then "Document passes verification with high confidence."
              else "Document passes verification. Minor review suggested."]
      else (1 <= List.length (recommendations ts) <= 4)%nat
           /\ ~ In "Document passes verification with high confidence."
                  (recommendations ts)
           /\ ~ In "Document passes verification. Minor review suggested."
                  (recommendations ts)
  end.
Proof.
  cbv zeta.
  destruct (ScoringSpec._calculate_category_stats_counts results)
    as (_ & H2 & H3 & H4).
  unfold calculate_trust_score, final_score. destruct results as [|r rs] eqn:Er.
  - reflexivity.
  - rewrite <- Er in *.
    destruct (components self results drift claims) as [[[sr ac] ds] ss].
    cbn [recommendations].
    set (f := final_score_of self sr ac ds ss). clearbody f.
    unfold _generate_recommendations. cbv zeta. rewrite H2, H3, H4.
    set (c := count_category CONTRADICTED results).
    set (u := Qltb _ (inject_Z (Z.of_nat (count_category UNVERIFIABLE results)))).
    set (n := List.length (filter _ results)).
    assert (Hr4 : forall t : string,
               (String.length t < 61)%nat ->
               str_of_nat n
               ++ " claims have low confidence scores. Consider reviewing these."
               <> t).
    { intros t Ht E. apply (f_equal String.length) in E.
      rewrite string_length_append in E.
      change (String.length
                " claims have low confidence scores. Consider reviewing these.")
        with 61%nat in E. lia. }
    pose proof (Hr4 "Document passes verification with high confidence.") as Ra.
    pose proof (Hr4 "Document passes verification. Minor review suggested.") as Rb.
    cbn [String.length] in Ra, Rb.
    assert (Ra' := Ra ltac:(lia)). assert (Rb' := Rb ltac:(lia)).
    clear Hr4 Ra Rb. clearbody c u n.
    destruct (Nat.eqb_spec c 0) as [Ec|Ec];
      destruct (Nat.ltb_spec 0 c) as [Lc|Lc]; try lia;
      destruct u; destruct (Qltb f 50);
      destruct (Nat.ltb_spec 3 n) as [Ln|Ln];
      destruct (Nat.leb_spec n 3) as [Mn|Mn]; try lia;
      cbn [app andb negb List.length In];
      try (destruct (Qleb 80 f); reflexivity);
      (split; [lia|]);
      split; intro Hin;
      repeat match type of Hin with
        | _ \/ _ => destruct Hin as [Hin|Hin]
        end;
      try contradiction; try discriminate Hin.
Qed.

Lemma severity_multiplier_pos (d : Domain) : 0 < severity_multiplier d.
Proof. destruct d; reflexivity. Qed.

Lemma max_severity_weight_nonneg (c : Claim) :
  Forall (fun e => 0 <= severity_weight e) (entities c) ->
  0 <= max_severity_weight c.
Proof.
  intro H. unfold max_severity_weight, max_list.
  destruct (entities c) as [|e es]; cbn [map]; [lra|].
  destruct (RetrievalSpec.fold_max_in (map severity_weight es) (severity_weight e))
    as [->|Hin].
  - now inversion H.
  - apply in_map_iff in Hin. destruct Hin as (e' & <- & He').
    inversion H as [|? ? _ Hes]. rewrite Forall_forall in Hes. now apply Hes.
Qed.

(** X27. The severity score is a fraction between 0 and 1, with or without
    claims, as long as no entity of a claim has a negative severity
    weight. *)
Theorem severity_score_range (self : ScoringLayer) (results : list VerificationResult)
  (claims : option (list Claim)) :
  Forall (fun c => Forall (fun e => 0 <= severity_weight e) (entities c))
    (match claims with Some cs => cs | None => [] end) ->
  0 <= _calculate_severity_score self results claims <= 1.
Proof.
  intro Hw.
  assert (Hcount :
            0 <= match filter (fun r => ClaimCategory_eqb (category r) CONTRADICTED)
                         results, results with
                 | [], _ | _, [] => 0
                 | _, _ =>
                     div_nat
                       (List.length
                          (filter (fun r => ClaimCategory_eqb (category r) CONTRADICTED)
                             results))
                       (List.length results)
                 end <= 1).
  { pose proof (filter_length_le
                  (fun r => ClaimCategory_eqb (category r) CONTRADICTED) results) as Hle.
    destruct (filter _ results) as [|x xs]; [lra|].
    destruct results as [|r rs]; [lra|].
    apply div_nat_unit; [exact Hle | cbn; lia]. }
  unfold _calculate_severity_score.
  destruct claims as [[|c0 cs]|]; try exact Hcount.
  cbv beta iota in Hw.
  set (claims := c0 :: cs) in *. clearbody claims.
  set (step := fun '(total_severity, contradicted_severity) result => _).
  assert (Hinv : 0 <= snd (fold_left step results (0, 0))
                 <= fst (fold_left step results (0, 0))).
  { apply (fold_left_inv (fun p : Q * Q => 0 <= snd p <= fst p)).
    - cbn. lra.
    - intros [ts cs'] result Hp. cbn [fst snd] in Hp. unfold step.
      destruct (claim_map_get claims (vr_claim_id result)) as [claim|] eqn:Eg;
        [|exact Hp].
      assert (Hwt : 0 <= max_severity_weight claim * severity_multiplier (sl_domain self)).
      { apply Qmult_le_0_compat.
        - apply max_severity_weight_nonneg. unfold claim_map_get in Eg.
          apply find_some in Eg. destruct Eg as [Hin _]. apply in_rev in Hin.
          rewrite Forall_forall in Hw. now apply Hw.
        - apply Qlt_le_weak, severity_multiplier_pos. }
      destruct (ClaimCategory_eqb (category result) CONTRADICTED);
        cbn [fst snd]; lra. }
  destruct (fold_left step results (0, 0)) as [ts cs']. cbn [fst snd] in Hinv.
  destruct (Qeq_bool ts 0) eqn:E0; [lra|].
  apply Qeq_bool_neq in E0.
  assert (0 < ts) by (destruct (Qlt_le_dec 0 ts) as [?|?]; trivial;
                      exfalso; apply E0; lra).
  split.
  - apply Qle_shift_div_l; trivial; lra.
  - apply Qle_shift_div_r; trivial; lra.
Qed.

Lemma sum_map_le {A} (f g : A -> Q) (l : list A) :
  Forall (fun x => f x <= g x) l -> sum (map f l) <= sum (map g l).
Proof.
  induction 1 as [|x l Hx Hl IH]; cbn [map]; [apply Qle_refl|].
  rewrite !sum_cons. lra.
Qed.

Section Drift.
Variable similarity : string -> string -> Q.
Variable fmt : Q -> string.

(** X28. Passing the drift-adjusted results of [adjust_verification_results]
    to [calculate_trust_score] never raises the score, before or after
    rounding, when the confidence and drift weights, the penalty factor and
    the confidences are not negative. *)
Theorem drift_adjustment_never_raises_score (self : ScoringLayer)
  (drift_layer : DriftMitigationLayer) (results : list VerificationResult)
  (drift_report : option DriftReport) (claims : option (list Claim)) :
  0 <= weight_confidence self -> 0 <= weight_drift self ->
  0 <= confidence_penalty drift_layer ->
  Forall (fun r => 0 <= confidence r) results ->
  let adjusted :=
    adjust_verification_results similarity fmt drift_layer results drift_report in
  final_score self results (Some adjusted) claims
  <= final_score self results None claims
  /\ score (calculate_trust_score self results (Some adjusted) claims)
     <= score (calculate_trust_score self results None claims).
Proof.
  intros Hwc Hwd Hf Hc. cbv zeta.
  set (adjusted :=
         adjust_verification_results similarity fmt drift_layer results drift_report).
  assert (Hfinal : final_score self results (Some adjusted) claims
                   <= final_score self results None claims).
  { assert (Hlen : List.length adjusted = List.length results).
    { unfold adjusted, adjust_verification_results. apply length_map. }
    assert (Hone : forall r, In r results ->
               let a := adjust_one similarity fmt drift_layer
                          (effective_report drift_layer drift_report) r in
               adjusted_confidence a <= confidence r
               /\ 0 <= drift_penalty a <= 5 # 10).
    { intros r Hr. cbv zeta. unfold adjust_one.
      rewrite Forall_forall in Hc. specialize (Hc r Hr).
      destruct (_find_claim_drift similarity (vr_claim_text r) _) as [cd|];
        [destruct (is_stable cd)|]; cbn; try lra.
      pose proof (DriftSpec._calculate_penalty_range drift_layer (drift_score cd) Hf).
      split; [nra | trivial]. }
    assert (Hconf : sum (map adjusted_confidence adjusted)
                    <= sum (map confidence results)).
    { unfold adjusted, adjust_verification_results. rewrite map_map.
      apply sum_map_le, Forall_forall. intros r Hr. apply (Hone r Hr). }
    assert (Hpen : Forall (fun x => 0 <= x <= 5 # 10) (map drift_penalty adjusted)).
    { unfold adjusted, adjust_verification_results. rewrite map_map.
      apply Forall_forall. intros x Hx. apply in_map_iff in Hx.
      destruct Hx as (r & <- & Hr). apply (Hone r Hr). }
    clearbody adjusted. unfold final_score, components.
    destruct adjusted as [|d ds] eqn:Ea; [apply Qle_refl|].
    rewrite <- Ea in *. assert (Hne : adjusted <> []) by (rewrite Ea; discriminate).
    cbv beta iota zeta. unfold final_score_of. cbv zeta. apply clamp_mono.
    rewrite Hlen.
    assert (Hn : 0 < inject_Z (Z.of_nat (List.length results))).
    { change 0 with (inject_Z 0). rewrite <- Zlt_Qlt, <- Hlen, Ea. cbn. lia. }
    set (n := inject_Z (Z.of_nat (List.length results))) in *.
    assert (Ha : sum (map adjusted_confidence adjusted) / n
                 <= sum (map confidence results) / n).
    { unfold Qdiv. apply Qmult_le_compat_r; trivial.
      apply Qlt_le_weak, Qinv_lt_0_compat, Hn. }
    assert (Hd : 0 <= sum (map drift_penalty adjusted) / n).
    { assert (Hm : map drift_penalty adjusted <> []).
      { intro E. apply Hne. now apply map_eq_nil in E. }
      destruct (DriftMore.mean_bounds _ 0 (5 # 10) Hm Hpen) as [H0 _].
      rewrite length_map, Hlen in H0. exact H0. }
    set (A' := sum (map adjusted_confidence adjusted) / n) in *.
    set (A0 := sum (map confidence results) / n) in *.
    set (D' := sum (map drift_penalty adjusted) / n) in *.
    clearbody A' A0 D'.
    apply Qmult_le_compat_r; [|lra].
    assert (A' * weight_confidence self <= A0 * weight_confidence self)
      by (apply Qmult_le_compat_r; trivial).
    assert (0 <= D' * weight_drift self) by (apply Qmult_le_0_compat; trivial).
    lra. }
  split; [exact Hfinal|].
  destruct results as [|r rs] eqn:Er; [apply Qle_refl|].
  rewrite <- Er in *. assert (Hne : results <> []) by (rewrite Er; discriminate).
  rewrite !ScoringSpec.score_of_calculate by exact Hne.
  apply round1_mono, Hfinal.
Qed.

End Drift.

End ScoringMore.

Module PipelineMore.
Import Py PyFacts ListFacts Constants Ingestion ClaimIntelligence Retrieval.
Import Verification Scoring RetrievalBatch Reporting.

Lemma NoDup_map_inj_in {A B} (f : A -> B) (l : list A) (a b : A) :
  NoDup (map f l) -> In a l -> In b l -> f a = f b -> a = b.
Proof.
  induction l as [|x l IH]; cbn [map]; intros Hnd Ha Hb E; [contradiction|].
  inversion Hnd as [|? ? Hx Hl]; subst.
  destruct Ha as [->|Ha]; destruct Hb as [->|Hb]; trivial.
  - exfalso. apply Hx. rewrite E. now apply in_map.
  - exfalso. apply Hx. rewrite <- E. now apply in_map.
  - now apply IH.
Qed.

Section Stages.
Variable Emb : Type.
Variable BM25 : Type.
Variable BM25Okapi : list (list string) -> BM25.
Variable get_scores : BM25 -> list string -> list Q.
Variable ratio : string -> string -> Q.
Variable fmt : Q -> string.
Variable CorrectionResult : Type.

Local Abbreviation annotate := (create_annotated_claims CorrectionResult).

Lemma verify_claim_id (self : VerificationLayer) (claim : Claim)
  (evidence : EvidenceResult) :
  vr_claim_id (fst (verify_claim ratio fmt self claim evidence)) = claim_id claim.
Proof.
  unfold verify_claim.
  destruct (get_combined_evidence evidence 3); [reflexivity|].
  destruct (_fuse_signals _ _ _ _). reflexivity.
Qed.

Lemma verify_each_ids (self : VerificationLayer) (claims : list Claim)
  (evidences : list EvidenceResult) :
  List.length claims = List.length evidences ->
  map vr_claim_id (fst (verify_each ratio fmt self (combine claims evidences)))
  = map claim_id claims.
Proof.
  rewrite VerificationSpec.verify_each_map.
  revert evidences. induction claims as [|c cs IH]; intros [|e es] Hlen;
    try discriminate; trivial.
  cbn [combine map fst snd]. rewrite verify_claim_id. f_equal.
  apply IH. now injection Hlen.
Qed.

Lemma result_map_get_some (results : list VerificationResult) (id : string) :
  In id (map vr_claim_id results) ->
  exists v, result_map_get results id = Some v
            /\ In v results /\ vr_claim_id v = id.
Proof.
  intro Hin. apply in_map_iff in Hin. destruct Hin as (r & Hid & Hr).
  unfold result_map_get.
  destruct (find (fun r0 => String.eqb (vr_claim_id r0) id) (rev results))
    as [v|] eqn:E.
  - exists v. apply find_some in E. destruct E as [Hv Hid'].
    apply String.eqb_eq in Hid'. apply in_rev in Hv. repeat split; trivial.
  - apply in_rev in Hr. apply (find_none _ _ E) in Hr. cbv beta in Hr.
    rewrite Hid, String.eqb_refl in Hr. discriminate.
Qed.

Lemma annotate_covered (claims : list Claim) (results : list VerificationResult)
  (corrections : list (string * CorrectionResult)) :
  incl (map claim_id claims) (map vr_claim_id results) ->
  map (ac_claim CorrectionResult) (annotate claims results corrections) = claims
  /\ Forall
       (fun ac =>
          vr_claim_id (verification _ ac) = claim_id (ac_claim _ ac)
          /\ In (verification _ ac) results
          /\ correction _ ac = dict_get corrections (claim_id (ac_claim _ ac))
          /\ color _ ac = get_claim_color (category (verification _ ac)))
       (annotate claims results corrections).
Proof.
  unfold create_annotated_claims.
  induction claims as [|c cs IH]; intro Hincl; cbn [flat_map map].
  - split; [reflexivity | constructor].
  - destruct (result_map_get_some results (claim_id c)) as (v & -> & Hv & Hid).
    { apply Hincl. now left. }
    destruct IH as [IH1 IH2].
    { intros x Hx. apply Hincl. now right. }
    cbn [app map ac_claim]. split; [now rewrite IH1|].
    constructor; [|exact IH2]. cbn. repeat split; trivial.
Qed.

Lemma statistics_add_up (annotated : list (AnnotatedClaim CorrectionResult)) :
  let '(total_claims, supported, contradicted, unverifiable) :=
    statistics _ annotated in
  total_claims = List.length annotated
  /\ (supported + contradicted + unverifiable)%nat = total_claims.
Proof.
  unfold statistics. split; [reflexivity|].
  induction annotated as [|ac l IH]; cbn [filter List.length]; trivial.
  destruct (category (verification _ ac)); cbn [ClaimCategory_eqb List.length]; lia.
Qed.

(** X23. The stages of [run_audit] fit together: verifying the claims with
    the evidence [retrieve_evidence_batch] found for them never raises and
    gives one result per claim, carrying the claim's id; annotating the claims with
    these results gives one annotation per claim, in order, each with a
    result of the claim's id and the colour of its category; and the counts of
    the report's statistics add up to the number of claims.  The retrieval
    itself gives no evidence only when the keyword index has to be built
    from chunks that hold no word. *)
Theorem audit_stages_cover_every_claim (retrieval : RetrievalLayer Emb BM25)
  (verification_layer : VerificationLayer) (claims : list Claim)
  (doc_index : DocumentIndex Emb) (method : string)
  (corrections : list (string * CorrectionResult)) :
  match retrieve_evidence_batch Emb BM25 BM25Okapi get_scores retrieval claims
          doc_index method with
  | Raise e =>
      e = ZeroDivisionError "division by zero"
      /\ builds_wordless_index Emb BM25 retrieval doc_index method = true
  | Return (evidences, _) =>
      exists results,
        fst (verify_claims_batch ratio fmt verification_layer claims evidences)
        = Return results
        /\ map vr_claim_id results = map claim_id claims
        /\ let annotated := annotate claims results corrections in
           map (ac_claim _) annotated = claims
           /\ Forall
                (fun ac =>
                   vr_claim_id (verification _ ac) = claim_id (ac_claim _ ac)
                   /\ In (verification _ ac) results
                   /\ color _ ac = get_claim_color (category (verification _ ac)))
                annotated
           /\ let '(total_claims, supported, contradicted, unverifiable) :=
                statistics _ annotated in
              total_claims = List.length claims
              /\ (supported + contradicted + unverifiable)%nat = total_claims
  end.
Proof.
  assert (Hbatch :
            match retrieve_evidence_batch Emb BM25 BM25Okapi get_scores retrieval
                    claims doc_index method with
            | Raise e =>
                e = ZeroDivisionError "division by zero"
                /\ builds_wordless_index Emb BM25 retrieval doc_index method = true
            | Return (evidences, _) => List.length claims = List.length evidences
            end).
  { destruct (RetrievalMore.retrieve_evidence_batch_cases Emb BM25 BM25Okapi
                get_scores retrieval claims doc_index method)
      as [[-> Hb] | (self' & -> & Hb)]; [split; [reflexivity | exact Hb]|].
    pose proof (RetrievalMore.retrieve_each_outcome Emb BM25 BM25Okapi get_scores
                  self' claims doc_index method) as H.
    destruct (retrieve_each _ _ _ _ self' claims doc_index method) as [[ers s'']|e].
    - destruct H as [H _]. apply (f_equal (@List.length string)) in H.
      rewrite !length_map in H. symmetry. exact H.
    - destruct H as [He H]. split; [exact He | exact (Hb H)]. }
  destruct (retrieve_evidence_batch _ _ _ _ retrieval claims doc_index method)
    as [[evidences s']|e]; [|exact Hbatch].
  rename Hbatch into Hlen.
  pose proof (verify_each_ids verification_layer claims evidences Hlen) as Hids.
  unfold verify_claims_batch. rewrite Hlen, Nat.eqb_refl. cbn [negb].
  rewrite <- Hlen.
  destruct (verify_each ratio fmt verification_layer (combine claims evidences))
    as [results calls]. cbn [fst] in *.
  exists results. split; [reflexivity|]. split; [exact Hids|].
  destruct (annotate_covered claims results corrections) as [H1 H2].
  { rewrite Hids. apply incl_refl. }
  split; [exact H1|]. split.
  - eapply Forall_impl; [|exact H2]. cbv beta. tauto.
  - pose proof (statistics_add_up (annotate claims results corrections)) as Hs.
    destruct (statistics _ _) as [[[t s] c] u].
    rewrite <- (length_map (ac_claim _)), H1 in Hs. exact Hs.
Qed.

(** X30. When the results carry the ids of the claims, one for one, and no
    two claims share an id, [create_annotated_claims] annotates each claim
    with its own result, and with the correction filed under its id. *)
Theorem annotations_carry_own_results (claims : list Claim)
  (results : list VerificationResult)
  (corrections : list (string * CorrectionResult)) :
  map vr_claim_id results = map claim_id claims ->
  NoDup (map claim_id claims) ->
  let annotated := annotate claims results corrections in
  map (ac_claim _) annotated = claims
  /\ map (verification _) annotated = results
  /\ map (correction _) annotated
     = map (fun c => dict_get corrections (claim_id c)) claims.
Proof.
  intros Hids Hnd. cbv zeta.
  destruct (annotate_covered claims results corrections) as [H1 H2].
  { rewrite Hids. apply incl_refl. }
  split; [exact H1|]. split.
  - rewrite <- Hids in Hnd.
    assert (G : forall cs rs,
               map vr_claim_id rs = map claim_id cs -> incl rs results ->
               map (verification _) (annotate cs results corrections) = rs).
    { unfold create_annotated_claims.
      induction cs as [|c cs IH]; intros [|r rs] E Hincl; try discriminate; trivial.
      cbn [map] in E. injection E as Er Ers. cbn [flat_map].
      destruct (result_map_get_some results (claim_id c)) as (v & -> & Hv & Hid).
      { rewrite <- Er. apply in_map, Hincl. now left. }
      cbn [app map verification]. f_equal.
      - apply (NoDup_map_inj_in vr_claim_id results); trivial.
        + apply Hincl. now left.
        + congruence.
      - apply IH; trivial. intros x Hx. apply Hincl. now right. }
    apply G; [exact Hids | apply incl_refl].
  - rewrite <- H1 at 2. rewrite map_map. apply map_ext_in.
    intros ac Hac. rewrite Forall_forall in H2. now apply H2.
Qed.

End Stages.

End PipelineMore.

(** ** The further properties at concrete inputs *)

Module MoreInstances.
Import Py Constants Ingestion ClaimIntelligence Retrieval Verification Drift Scoring.
Import DriftReports Reporting Examples MoreExamples.

Lemma fused_scores_bounded_witness :
  0 <= DEFAULT_HYBRID_WEIGHT_VECTOR
  /\ 0 <= DEFAULT_HYBRID_WEIGHT_KEYWORD
  /\ Forall (fun r => 0 <= snd r
                      <= DEFAULT_HYBRID_WEIGHT_VECTOR + DEFAULT_HYBRID_WEIGHT_KEYWORD)
       (fuse DEFAULT_HYBRID_WEIGHT_VECTOR DEFAULT_HYBRID_WEIGHT_KEYWORD
          vector_hits keyword_hits).
Proof.
  assert (Hv : 0 <= DEFAULT_HYBRID_WEIGHT_VECTOR) by (vm_compute; discriminate).
  assert (Hk : 0 <= DEFAULT_HYBRID_WEIGHT_KEYWORD) by (vm_compute; discriminate).
  split; [exact Hv|]. split; [exact Hk|].
  apply (RetrievalMore.fused_scores_bounded _ _ vector_hits keyword_hits Hv Hk).
  - repeat constructor; vm_compute; discriminate.
  - repeat constructor; vm_compute; discriminate.
Defined.

Lemma built_index_is_reused_witness :
  _bm25_index _ _ indexed_retrieval
  = Some [["london"; "is"; "big"]; ["paris"; "is"; "nice"]]
  /\ (exists results,
        run_search unit (list (list string)) (fun c => c) word_overlap
          indexed_retrieval "paris" empty_index "hybrid"
        = Return (results, indexed_retrieval))
  /\ run_search unit (list (list string)) (fun c => c) word_overlap
       indexed_retrieval "paris" empty_index "keyword"
     = run_search unit (list (list string)) (fun c => c) word_overlap
         indexed_retrieval "paris" two_chunk_index "keyword".
Proof.
  assert (H : _bm25_index _ _ indexed_retrieval
              = Some [["london"; "is"; "big"]; ["paris"; "is"; "nice"]])
    by reflexivity.
  split; [exact H|].
  exact (RetrievalMore.built_index_is_reused unit (list (list string)) (fun c => c)
           word_overlap indexed_retrieval "paris" empty_index two_chunk_index
           "hybrid" _ H).
Defined.

Lemma rerank_rearranges_witness :
  entities paris_claim <> []
  /\ evidence_chunks retrieved <> []
  /\ Permutation (evidence_chunks (rerank_by_entity_match paris_claim retrieved))
       (evidence_chunks retrieved).
Proof.
  assert (H1 : entities paris_claim <> []) by discriminate.
  assert (H2 : evidence_chunks retrieved <> []) by discriminate.
  split; [exact H1|]. split; [exact H2|].
  exact (proj1 (RetrievalMore.rerank_rearranges paris_claim retrieved H1 H2 eq_refl)).
Defined.

Lemma citation_names_document_witness :
  contains "," (document_name chunk_a) = false
  /\ first_field (get_citation_string retrieved) = "a.txt".
Proof.
  split; [reflexivity|].
  exact (RetrievalMore.citation_names_document retrieved chunk_a [chunk_b]
           eq_refl eq_refl).
Defined.

Lemma all_entities_found_witness :
  contains "paris" (lower "Paris is nice") = true
  /\ _calculate_entity_score
       (_check_entity_consistency exact_ratio no_format neutral_layer paris_claim
          "Paris is nice") == 1.
Proof.
  split; [reflexivity|].
  refine (proj1 (VerificationMore.all_entities_found exact_ratio no_format
                   neutral_layer paris_claim "Paris is nice" _)).
  repeat constructor.
Defined.

Lemma stability_summary_adds_up_witness :
  0 <= confidence_penalty default_drift
  /\ ss_unstable_claims
       (get_stability_summary
          (adjust_verification_results no_similarity no_format default_drift
             five_results (Some unstable_report)))
     = List.length
         (get_high_drift_claims
            (adjust_verification_results no_similarity no_format default_drift
               five_results (Some unstable_report))).
Proof.
  assert (H : 0 <= confidence_penalty default_drift) by (vm_compute; discriminate).
  split; [exact H|].
  destruct (DriftMore.stability_summary_adds_up no_similarity no_format default_drift
              five_results (Some unstable_report) H) as (_ & _ & Hu & _).
  exact Hu.
Defined.

Lemma severity_score_range_witness :
  0 <= _calculate_severity_score default_layer two_results (Some two_claims) <= 1.
Proof.
  apply (ScoringMore.severity_score_range default_layer two_results (Some two_claims)).
  repeat constructor; vm_compute; discriminate.
Defined.

Lemma drift_adjustment_never_raises_score_witness :
  0 <= weight_confidence default_layer
  /\ 0 <= weight_drift default_layer
  /\ score (calculate_trust_score default_layer five_results
              (Some (adjust_verification_results no_similarity no_format
                       default_drift five_results (Some unstable_report))) None)
     <= score (calculate_trust_score default_layer five_results None None).
Proof.
  assert (H1 : 0 <= weight_confidence default_layer) by (vm_compute; discriminate).
  assert (H2 : 0 <= weight_drift default_layer) by (vm_compute; discriminate).
  assert (H3 : 0 <= confidence_penalty default_drift) by (vm_compute; discriminate).
  split; [exact H1|]. split; [exact H2|].
  refine (proj2 (ScoringMore.drift_adjustment_never_raises_score no_similarity
                   no_format default_layer default_drift five_results
                   (Some unstable_report) None H1 H2 H3 _)).
  repeat constructor; vm_compute; discriminate.
Defined.

Lemma annotations_carry_own_results_witness :
  map vr_claim_id two_results = map claim_id two_claims
  /\ map (verification unit) (create_annotated_claims unit two_claims two_results [])
     = two_results.
Proof.
  split; [reflexivity|].
  refine (proj1 (proj2 (PipelineMore.annotations_carry_own_results unit two_claims
                          two_results [] eq_refl _))).
  repeat constructor; cbn; intuition discriminate.
Defined.

End MoreInstances.
